(** * reportdemo: a shallow embedding of [reportdemo.py]

    The program is a client of the InContact reporting API: it obtains a
    token, starts a report job, polls the job until a result location is
    available, fetches the base64 payload and writes the decoded text to a
    local file.

    The embedding follows the source method by method.  Python values that
    arrive from the network are kept dynamically typed ([json]); the effects
    of the program (HTTP requests, [time.sleep], [print], the output file)
    are threaded through a state-and-exception monad whose runs also return
    the list of externally visible events they produced. *)

From Stdlib Require Import ZArith List String Ascii Bool Lia QArith DecimalString.
From stdpp Require Import base option list gmap.

Local Open Scope Z_scope.

(** ** Python values *)

(** A Python [str] is a sequence of code points, a [bytes] object a sequence
    of integers below 256. *)
Abbreviation str := (list Z) (only parsing).
Abbreviation bytes := (list Z) (only parsing).

Fixpoint lit (s : string) : str :=
  match s with
  | EmptyString => []
  | String a s' => Z.of_N (N_of_ascii a) :: lit s'
  end.

Definition is_byte (b : Z) : Prop := 0 <= b < 256.

(** The exceptions the program can meet. *)
Inductive exn : Type :=
  | HTTPError (status : Z)
  | RequestException
  | JSONDecodeError
  | KeyError
  | TypeError
  | ValueError
  | BinasciiError
  | UnicodeEncodeError
  | UnicodeDecodeError
  | OSError.

Inductive result (A : Type) : Type :=
  | Ok (a : A)
  | Raise (e : exn).
Arguments Ok {A} a.
Arguments Raise {A} e.

Definition result_bind {A B} (r : result A) (f : A -> result B) : result B :=
  match r with
  | Ok a => f a
  | Raise e => Raise e
  end.

Definition result_map {A B} (f : A -> B) (r : result A) : result B :=
  match r with
  | Ok a => Ok (f a)
  | Raise e => Raise e
  end.

(** ** [str.encode()] and [bytes.decode('utf-8')] *)

Module Utf8.

(** The strict UTF-8 encoder: surrogates have no encoding. *)
Definition encode_char (ch : Z) : result bytes :=
  if (ch <? 0) || (0x10FFFF <? ch) then Raise UnicodeEncodeError
  else if ch <? 0x80 then Ok [ch]
  else if ch <? 0x800 then
    Ok [Z.lor 0xC0 (Z.shiftr ch 6); Z.lor 0x80 (Z.land ch 0x3F)]
  else if (0xD800 <=? ch) && (ch <=? 0xDFFF) then Raise UnicodeEncodeError
  else if ch <? 0x10000 then
    Ok [Z.lor 0xE0 (Z.shiftr ch 12);
        Z.lor 0x80 (Z.land (Z.shiftr ch 6) 0x3F);
        Z.lor 0x80 (Z.land ch 0x3F)]
  else
    Ok [Z.lor 0xF0 (Z.shiftr ch 18);
        Z.lor 0x80 (Z.land (Z.shiftr ch 12) 0x3F);
        Z.lor 0x80 (Z.land (Z.shiftr ch 6) 0x3F);
        Z.lor 0x80 (Z.land ch 0x3F)].

Fixpoint encode (s : str) : result bytes :=
  match s with
  | [] => Ok []
  | ch :: s' =>
      result_bind (encode_char ch) (fun bs =>
      result_map (app bs) (encode s'))
  end.

Definition is_continuation (b : Z) : bool := (0x80 <=? b) && (b <? 0xC0).

(** The strict decoder: overlong forms, surrogates, code points above
    0x10FFFF and truncated sequences are errors. *)
Fixpoint decode (bs : bytes) : result str :=
  match bs with
  | [] => Ok []
  | ch :: r1 =>
      if ch <? 0x80 then result_map (cons ch) (decode r1)
      else if ch <? 0xC2 then Raise UnicodeDecodeError
      else if ch <? 0xE0 then
        match r1 with
        | ch2 :: r2 =>
            if is_continuation ch2 then
              result_map
                (cons (Z.shiftl ch 6 + ch2 - (Z.shiftl 0xC0 6 + 0x80)))
                (decode r2)
            else Raise UnicodeDecodeError
        | _ => Raise UnicodeDecodeError
        end
      else if ch <? 0xF0 then
        match r1 with
        | ch2 :: ch3 :: r3 =>
            if is_continuation ch2
               && (if ch =? 0xE0 then 0xA0 <=? ch2 else true)
               && (if ch =? 0xED then ch2 <? 0xA0 else true)
               && is_continuation ch3
            then
              result_map
                (cons (Z.shiftl ch 12 + Z.shiftl ch2 6 + ch3
                       - (Z.shiftl 0xE0 12 + Z.shiftl 0x80 6 + 0x80)))
                (decode r3)
            else Raise UnicodeDecodeError
        | _ => Raise UnicodeDecodeError
        end
      else if ch <? 0xF5 then
        match r1 with
        | ch2 :: ch3 :: ch4 :: r4 =>
            if is_continuation ch2
               && (if ch =? 0xF0 then 0x90 <=? ch2 else true)
               && (if ch =? 0xF4 then ch2 <? 0x90 else true)
               && is_continuation ch3 && is_continuation ch4
            then
              result_map
                (cons (Z.shiftl ch 18 + Z.shiftl ch2 12 + Z.shiftl ch3 6 + ch4
                       - (Z.shiftl 0xF0 18 + Z.shiftl 0x80 12
                          + Z.shiftl 0x80 6 + 0x80)))
                (decode r4)
            else Raise UnicodeDecodeError
        | _ => Raise UnicodeDecodeError
        end
      else Raise UnicodeDecodeError
  end.

End Utf8.

(** ** [base64.b64encode] and [base64.b64decode] *)

Module Base64.

Definition table_b2a_base64 : list Z :=
  lit "ABCDEFGHIJKLMNOPQRSTUVWXYZabcdefghijklmnopqrstuvwxyz0123456789+/".

Definition BASE64_PAD : Z := 61.

Definition b2a (i : Z) : Z := nth (Z.to_nat i) table_b2a_base64 BASE64_PAD.

(** The inverse table: [None] for a character outside the alphabet. *)
Definition table_a2b_base64 (c : Z) : option Z :=
  if (65 <=? c) && (c <=? 90) then Some (c - 65)
  else if (97 <=? c) && (c <=? 122) then Some (c - 71)
  else if (48 <=? c) && (c <=? 57) then Some (c + 4)
  else if c =? 43 then Some 62
  else if c =? 47 then Some 63
  else None.

(** Three bytes become four characters; a final group of one or two bytes
    is padded with [=]. *)
Fixpoint b64encode (s : bytes) : bytes :=
  match s with
  | [] => []
  | [a] =>
      [b2a (Z.shiftr a 2); b2a (Z.shiftl (Z.land a 3) 4);
       BASE64_PAD; BASE64_PAD]
  | [a; b] =>
      [b2a (Z.shiftr a 2);
       b2a (Z.lor (Z.shiftl (Z.land a 3) 4) (Z.shiftr b 4));
       b2a (Z.shiftl (Z.land b 0xF) 2);
       BASE64_PAD]
  | a :: b :: c :: rest =>
      b2a (Z.shiftr a 2)
      :: b2a (Z.lor (Z.shiftl (Z.land a 3) 4) (Z.shiftr b 4))
      :: b2a (Z.lor (Z.shiftl (Z.land b 0xF) 2) (Z.shiftr c 6))
      :: b2a (Z.land c 0x3F)
      :: b64encode rest
  end.

(** The decoding loop of [binascii.a2b_base64] in its default, non-strict
    mode: characters outside the alphabet are skipped, a sufficient run of
    padding ends the input, and leftover characters are an error. *)
Fixpoint a2b_loop (ascii : bytes) (quad_pos leftchar pads : Z)
  : result bytes :=
  match ascii with
  | [] => if quad_pos =? 0 then Ok [] else Raise BinasciiError
  | this_ch :: rest =>
      if this_ch =? BASE64_PAD then
        if (2 <=? quad_pos) && (4 <=? quad_pos + (pads + 1)) then Ok []
        else a2b_loop rest quad_pos leftchar
               (if 2 <=? quad_pos then pads + 1 else pads)
      else
        match table_a2b_base64 this_ch with
        | None => a2b_loop rest quad_pos leftchar pads
        | Some v =>
            if quad_pos =? 0 then a2b_loop rest 1 v 0
            else if quad_pos =? 1 then
              result_map
                (cons (Z.lor (Z.shiftl leftchar 2) (Z.shiftr v 4)))
                (a2b_loop rest 2 (Z.land v 0xF) 0)
            else if quad_pos =? 2 then
              result_map
                (cons (Z.lor (Z.shiftl leftchar 4) (Z.shiftr v 2)))
                (a2b_loop rest 3 (Z.land v 0x3) 0)
            else
              result_map
                (cons (Z.lor (Z.shiftl leftchar 6) v))
                (a2b_loop rest 0 0 0)
        end
  end.

Definition a2b_base64 (ascii : bytes) : result bytes := a2b_loop ascii 0 0 0.

(** [b64decode] of a [str]: the text must be ASCII. *)
Definition b64decode (s : str) : result bytes :=
  if forallb (fun c => (0 <=? c) && (c <? 128)) s then a2b_base64 s
  else Raise ValueError.

(** The check that entry [i] of the alphabet is an ASCII character other
    than the padding and is mapped back to [i] by the inverse table. *)
Definition alphabet_ok (i : Z) : bool :=
  match table_a2b_base64 (b2a i) with
  | Some j => (j =? i) && negb (b2a i =? BASE64_PAD)
              && (0 <=? b2a i) && (b2a i <? 128)
  | None => false
  end.

End Base64.

(** ** Values received from the service *)

(** [resp.json()] yields a Python object built from JSON.  Numbers are kept
    by their value; only their truth value and the fact that they are not
    strings are ever observed by the program. *)
#[local] Unset Elimination Schemes.
Inductive json : Type :=
  | JNull
  | JBool (b : bool)
  | JNum (q : Q)
  | JStr (s : str)
  | JArr (l : list json)
  | JObj (kv : list (str * json)).
#[local] Set Elimination Schemes.

(** Python's truth value, as tested by [not fileURL]. *)
Definition truthy (v : json) : bool :=
  match v with
  | JNull => false
  | JBool b => b
  | JNum q => negb (Qnum q =? 0)
  | JStr s => negb (bool_decide (s = []))
  | JArr l => match l with [] => false | _ => true end
  | JObj kv => match kv with [] => false | _ => true end
  end.

Fixpoint assoc {V} (k : str) (kv : list (str * V)) : option V :=
  match kv with
  | [] => None
  | (k', v) :: kv' => if bool_decide (k = k') then Some v else assoc k kv'
  end.

(** [obj[key]] with a string key: only a dict can be subscripted that way. *)
Definition getitem (obj : json) (key : str) : result json :=
  match obj with
  | JObj kv =>
      match assoc key kv with
      | Some v => Ok v
      | None => Raise KeyError
      end
  | _ => Raise TypeError
  end.

(** The other operand of a [str] concatenation must be a [str] itself;
    anything else is a [TypeError]. *)
Definition as_str (v : json) : result str :=
  match v with
  | JStr s => Ok s
  | _ => Raise TypeError
  end.

(** [str(n)] for a non-negative counter. *)
Definition str_of_nat (n : nat) : str :=
  lit (DecimalString.NilZero.string_of_uint (Nat.to_uint n)).

(** ** The outside world *)

Inductive method : Type := GET | POST.

(** A header value is a [str] or, for the credential header, [bytes]. *)
Inductive hval : Type :=
  | HStr (s : str)
  | HBytes (b : bytes).

Record Request : Type := mkRequest {
  req_method : method;
  req_url : str;
  req_headers : list (str * hval);
  req_json : option json
}.

(** A response: its status code and its body as parsed by [resp.json()],
    [None] when the body is not JSON. *)
Record Response : Type := mkResponse {
  status_code : Z;
  content : option json
}.

Inductive outcome : Type :=
  | Replied (r : Response)
  | Failed.

(** What an observer of the process sees. *)
Inductive event : Type :=
  | EvPrint (line : str)
  | EvRequest (r : Request)  (* a call of [requests.get] or [requests.post] *)
  | EvSleep (secs : Z)
  | EvOpen (path : str)
  | EvWrite (path : str) (text : str)
  | EvClose (path : str).

(** The environment of a run: [net n r] is what the transport does with
    request [r] when it is the [n]-th request of the process, and [can_open]
    tells whether a path can be opened for writing.  The last two fields
    are the platform's conventions for text files, which [open(target, 'w')]
    takes over as it names neither [encoding=] nor [newline=]: [linesep] is
    [os.linesep], and [text_encoding] is the encoder of the locale's
    preferred encoding, [None] on a text that it cannot encode. *)
Record World : Type := mkWorld {
  net : nat -> Request -> outcome;
  can_open : str -> bool;
  linesep : str;
  text_encoding : str -> option bytes
}.

(** ** The object and the process state *)

Record CustomReport : Type := mkCustomReport {
  authCode : bytes;
  username : str;
  password : str
}.

(** The state of the process: the object, the number of requests sent so
    far, and the file system, which maps a path to the bytes of the file. *)
Record State : Type := mkState {
  this : CustomReport;
  sent : nat;
  files : gmap (list Z) (list Z)
}.

(** ** The monad of the program: state, exceptions and emitted events *)

Definition M (A : Type) : Type := World -> State -> result A * list event * State.

Definition ret {A} (a : A) : M A := fun _ st => (Ok a, [], st).

Definition bind {A B} (m : M A) (f : A -> M B) : M B :=
  fun w st =>
    match m w st with
    | (Ok a, ev, st') =>
        match f a w st' with
        | (r, ev', st'') => (r, ev ++ ev', st'')
        end
    | (Raise e, ev, st') => (Raise e, ev, st')
    end.

Notation "x <- m ;; k" := (bind m (fun x => k))
  (at level 20, m at level 99, k at level 200, only parsing).
Notation "m ;; k" := (bind m (fun _ => k))
  (at level 100, k at level 200, right associativity, only parsing).

Definition lift {A} (r : result A) : M A := fun _ st => (r, [], st).

Definition emit (e : event) : M unit := fun _ st => (Ok tt, [e], st).

Definition self : M CustomReport := fun _ st => (Ok (this st), [], st).

Definition print (line : str) : M unit := emit (EvPrint line).

Definition time_sleep (secs : Z) : M unit := emit (EvSleep secs).

(** [requests.request]: the call is an event of the run whatever comes of
    it; the transport then either fails or hands back a response. *)
Definition requests_send (r : Request) : M Response :=
  fun w st =>
    let st' := mkState (this st) (S (sent st)) (files st) in
    match net w (sent st) r with
    | Replied resp => (Ok resp, [EvRequest r], st')
    | Failed => (Raise RequestException, [EvRequest r], st')
    end.

Definition requests_post (url : str) (headers : list (str * hval)) (body : json)
  : M Response :=
  requests_send (mkRequest POST url headers (Some body)).

Definition requests_get (url : str) (headers : list (str * hval)) : M Response :=
  requests_send (mkRequest GET url headers None).

(** [resp.raise_for_status()]: client and server errors raise. *)
Definition raise_for_status (resp : Response) : result unit :=
  if (400 <=? status_code resp) && (status_code resp <? 600)
  then Raise (HTTPError (status_code resp))
  else Ok tt.

(** [resp.json()] *)
Definition resp_json (resp : Response) : result json :=
  match content resp with
  | Some j => Ok j
  | None => Raise JSONDecodeError
  end.

(** [open(target, 'w')] creates or truncates the file. *)
Definition file_open (path : str) : M unit :=
  fun w st =>
    if can_open w path
    then (Ok tt, [EvOpen path],
          mkState (this st) (sent st) (<[path := []]> (files st)))
    else (Raise OSError, [], st).

(** Universal newlines on output: every ['\n'] of the text becomes the
    line separator of the platform. *)
Definition translate_newlines (sep : str) (text : str) : str :=
  flat_map (fun ch => if ch =? 10 then sep else [ch]) text.

(** The bytes that a text-mode file of this platform stores for a text. *)
Definition text_bytes (w : World) (text : str) : option bytes :=
  text_encoding w (translate_newlines (linesep w) text).

(** [file.write(text)] on a file opened in text mode: the bytes of the
    text are appended, and a text that the encoding of the platform cannot
    represent raises and leaves the file as it is. *)
Definition file_write (path : str) (text : str) : M unit :=
  fun w st =>
    match text_bytes w text with
    | Some bs =>
        (Ok tt, [EvWrite path text],
         mkState (this st) (sent st)
           (<[path := default [] (files st !! path) ++ bs]> (files st)))
    | None => (Raise UnicodeEncodeError, [], st)
    end.

Definition file_close (path : str) : M unit := emit (EvClose path).

(** [base64.b64decode(v)] on a value received as JSON. *)
Definition base64_b64decode (v : json) : result bytes :=
  match v with
  | JStr s => Base64.b64decode s
  | _ => Raise TypeError
  end.

(** Two encodings a locale may prefer: UTF-8, and ISO-8859-1, which maps
    the code points below 256 to a byte each and has nothing for the
    others. *)
Definition utf_8 (text : str) : option bytes :=
  match Utf8.encode text with
  | Ok bs => Some bs
  | Raise _ => None
  end.

Definition latin_1 (text : str) : option bytes :=
  if forallb (fun ch => (0 <=? ch) && (ch <? 256)) text
  then Some text
  else None.

(** ** The class [CustomReport] *)

Definition __init__ (app vendor bu username password : str)
  : result CustomReport :=
  let auth := app ++ lit "@" ++ vendor ++ lit ":" ++ bu in
  result_map
    (fun encoded => mkCustomReport (Base64.b64encode encoded) username password)
    (Utf8.encode auth).

Definition getToken : M json :=
  print (lit "getToken()") ;;
  let url := lit "https://api.incontact.com/InContactAuthorizationServer/Token" in
  me <- self ;;
  let header := [(lit "Authorization", HBytes (lit "basic " ++ authCode me));
                 (lit "Content-Type", HStr (lit "application/json"))] in
  let body := JObj [(lit "grant_type", JStr (lit "password"));
                    (lit "username", JStr (username me));
                    (lit "password", JStr (password me))] in
  resp <- requests_post url header body ;;
  lift (raise_for_status resp) ;;
  lift (resp_json resp).

Definition startReportJob (reportId reportURL : str) (token : json) : M json :=
  let url := reportURL ++ reportId in
  print (lit "startReportJob() - url: " ++ url) ;;
  let body := JObj [(lit "fileType", JStr (lit "CSV"));
                    (lit "includeHeaders", JStr (lit "true"));
                    (lit "appendDate", JStr (lit "true"));
                    (lit "deleteAfter", JStr (lit "7"));
                    (lit "overwrite", JStr (lit "true"))] in
  tok <- lift (as_str token) ;;
  let header := [(lit "Content-Type", HStr (lit "application/json"));
                 (lit "Authorization", HStr (lit "bearer " ++ tok))] in
  resp <- requests_post url header body ;;
  lift (raise_for_status resp) ;;
  j <- lift (resp_json resp) ;;
  lift (getitem j (lit "jobId")).

(** [resp.json()['jobResult']['resultFileURL']] *)
Definition resultFileURL (resp : Response) : result json :=
  result_bind (resp_json resp) (fun j =>
  result_bind (getitem j (lit "jobResult")) (fun jobResult =>
  getitem jobResult (lit "resultFileURL"))).

(** The [while (not fileURL and numTries > 0)] loop; the counter only
    decreases, so the recursion is on it. *)
Fixpoint poll (jobId url : str) (header : list (str * hval))
  (numTries : nat) (fileURL : json) : M json :=
  if negb (truthy fileURL) then
    match numTries with
    | O => ret fileURL
    | S n =>
        print (lit "getFileURL() - jobId: " ++ jobId ++ lit " numTries: "
               ++ str_of_nat numTries) ;;
        time_sleep 60 ;;
        resp <- requests_get url header ;;
        fileURL' <- lift (resultFileURL resp) ;;
        poll jobId url header n fileURL'
    end
  else ret fileURL.

Definition getFileURL (jobId : json) (reportURL : str) (token : json) : M json :=
  jid <- lift (as_str jobId) ;;
  let url := reportURL ++ jid in
  tok <- lift (as_str token) ;;
  let header :=
    [(lit "Content-Type", HStr (lit "application/x-www-form-urlencoded"));
     (lit "Authorization", HStr (lit "bearer " ++ tok))] in
  resp <- requests_get url header ;;
  fileURL <- lift (resultFileURL resp) ;;
  let numTries := 10%nat in
  poll jid url header numTries fileURL.

(** [resp.json()['files']['file']] *)
Definition files_file (resp : Response) : result json :=
  result_bind (resp_json resp) (fun j =>
  result_bind (getitem j (lit "files")) (fun fs =>
  getitem fs (lit "file"))).

Definition downloadReport (url token : json) : M json :=
  u <- lift (as_str url) ;;
  print (lit "downLoadReport() - url: " ++ u) ;;
  tok <- lift (as_str token) ;;
  let header :=
    [(lit "Content-Type", HStr (lit "application/x-www-form-urlencoded"));
     (lit "Authorization", HStr (lit "bearer " ++ tok))] in
  resp <- requests_get u header ;;
  lift (files_file resp).

Definition getReport (reportId target : str) : M unit :=
  print (lit "getReport() - reportId: " ++ reportId) ;;
  let version := lit "v13.0" in
  js <- getToken ;;
  base <- lift (result_bind (getitem js (lit "resource_server_base_uri")) as_str) ;;
  let reportURL := base ++ lit "services/" ++ version ++ lit "/report-jobs/" in
  token <- lift (getitem js (lit "access_token")) ;;
  jobId <- startReportJob reportId reportURL token ;;
  url <- getFileURL jobId reportURL token ;;
  b64bytes <- downloadReport url token ;;
  file_open target ;;
  text <- lift (result_bind (base64_b64decode b64bytes) Utf8.decode) ;;
  file_write target text ;;
  file_close target ;;
  print (lit "Job Complete").

(** The configuration at the top of the module and the [__main__] block. *)
Module Main.
Definition app : str := lit "yourApp".
Definition vendor : str := lit "yourVendor".
Definition reportId : str := lit "yourId".
Definition bu : str := lit "yourBu".
Definition username : str := lit "yourName".
Definition password : str := lit "yourPwd".
Definition outfile : str := lit "report.csv".

(** The process starts with no request sent and some file system. *)
Definition main (w : World) (fs : gmap (list Z) (list Z))
  : result (result unit * list event * State) :=
  result_map
    (fun report => getReport reportId outfile w (mkState report 0 fs))
    (__init__ app vendor bu username password).
End Main.

(** ** Vocabulary of the statements *)

(** The requests and the sleeps among the events of a run. *)
Definition requests_of (evs : list event) : list Request :=
  omap (fun e => match e with EvRequest r => Some r | _ => None end) evs.

Definition sleeps_of (evs : list event) : list Z :=
  omap (fun e => match e with EvSleep s => Some s | _ => None end) evs.

(** The four requests of the pipeline. *)
Definition token_request (me : CustomReport) : Request :=
  mkRequest POST
    (lit "https://api.incontact.com/InContactAuthorizationServer/Token")
    [(lit "Authorization", HBytes (lit "basic " ++ authCode me));
     (lit "Content-Type", HStr (lit "application/json"))]
    (Some (JObj [(lit "grant_type", JStr (lit "password"));
                 (lit "username", JStr (username me));
                 (lit "password", JStr (password me))])).

Definition start_request (reportURL reportId tok : str) : Request :=
  mkRequest POST (reportURL ++ reportId)
    [(lit "Content-Type", HStr (lit "application/json"));
     (lit "Authorization", HStr (lit "bearer " ++ tok))]
    (Some (JObj [(lit "fileType", JStr (lit "CSV"));
                 (lit "includeHeaders", JStr (lit "true"));
                 (lit "appendDate", JStr (lit "true"));
                 (lit "deleteAfter", JStr (lit "7"));
                 (lit "overwrite", JStr (lit "true"))])).

Definition status_request (reportURL jid tok : str) : Request :=
  mkRequest GET (reportURL ++ jid)
    [(lit "Content-Type", HStr (lit "application/x-www-form-urlencoded"));
     (lit "Authorization", HStr (lit "bearer " ++ tok))]
    None.

Definition file_request (u tok : str) : Request :=
  mkRequest GET u
    [(lit "Content-Type", HStr (lit "application/x-www-form-urlencoded"));
     (lit "Authorization", HStr (lit "bearer " ++ tok))]
    None.

(** The base URL of the report jobs, as [getReport] builds it. *)
Definition report_jobs (base : str) : str :=
  base ++ lit "services/" ++ lit "v13.0" ++ lit "/report-jobs/".

(** What a reply delivers to the stage that waits for it. *)
Definition token_granted (o : outcome) (base : str) (token : json) : Prop :=
  exists resp js,
    o = Replied resp /\ raise_for_status resp = Ok tt /\ resp_json resp = Ok js /\
    getitem js (lit "resource_server_base_uri") = Ok (JStr base) /\
    getitem js (lit "access_token") = Ok token.

Definition job_started (o : outcome) (jobId : json) : Prop :=
  exists resp j,
    o = Replied resp /\ raise_for_status resp = Ok tt /\ resp_json resp = Ok j /\
    getitem j (lit "jobId") = Ok jobId.

(** The result location carried by a reply of the status endpoint. *)
Definition location (o : outcome) : option json :=
  match o with
  | Replied resp =>
      match resultFileURL resp with
      | Ok v => Some v
      | Raise _ => None
      end
  | Failed => None
  end.

(** The reply carries a result location and that location is empty. *)
Definition not_ready (o : outcome) : bool :=
  match location o with
  | Some v => negb (truthy v)
  | None => false
  end.

(** The file payload carried by a reply of the file endpoint. *)
Definition payload (o : outcome) : option json :=
  match o with
  | Replied resp =>
      match files_file resp with
      | Ok v => Some v
      | Raise _ => None
      end
  | Failed => None
  end.

(** A reply with a client or server error status. *)
Definition http_error (o : outcome) : bool :=
  match o with
  | Replied resp => (400 <=? status_code resp) && (status_code resp <? 600)
  | Failed => false
  end.

(** The three components of a run. *)
Definition outcome_of {A} (run : result A * list event * State) : result A :=
  run.1.1.
Definition events_of {A} (run : result A * list event * State) : list event :=
  run.1.2.
Definition state_of {A} (run : result A * list event * State) : State :=
  run.2.

(** The last two stages of [getReport]: fetch, then decode and save. *)
Definition download_and_save (url token : json) (target : str) : M unit :=
  b64bytes <- downloadReport url token ;;
  file_open target ;;
  text <- lift (result_bind (base64_b64decode b64bytes) Utf8.decode) ;;
  file_write target text ;;
  file_close target ;;
  print (lit "Job Complete").

(** The events of the first two stages when both succeed. *)
Definition started_events (me : CustomReport) (reportId base tok : str)
  : list event :=
  [EvPrint (lit "getReport() - reportId: " ++ reportId);
   EvPrint (lit "getToken()");
   EvRequest (token_request me);
   EvPrint (lit "startReportJob() - url: " ++ report_jobs base ++ reportId);
   EvRequest (start_request (report_jobs base) reportId tok)].

(** The shape of the requests of a run of [getReport] that ended in [r]:
    a prefix of token, start, [n] status checks and file request, complete
    when the run succeeded; and no request is there before the reply it
    depends on has delivered its input. *)
Definition call_sequence (w : World) (st : State) (reportId : str)
  (r : result unit) (reqs : list Request) : Prop :=
  exists base tok jid (n : nat) u,
    (1 <= n <= 11)%nat /\
    (1 <= length reqs)%nat /\
    reqs `prefix_of`
      (token_request (this st)
       :: start_request (report_jobs base) reportId tok
       :: replicate n (status_request (report_jobs base) jid tok)
       ++ [file_request u tok]) /\
    (r = Ok tt ->
     reqs =
       token_request (this st)
       :: start_request (report_jobs base) reportId tok
       :: replicate n (status_request (report_jobs base) jid tok)
       ++ [file_request u tok]) /\
    ((2 <= length reqs)%nat ->
     token_granted (net w (sent st) (token_request (this st)))
       base (JStr tok)) /\
    ((3 <= length reqs)%nat ->
     job_started
       (net w (sent st + 1)%nat
          (start_request (report_jobs base) reportId tok)) (JStr jid)) /\
    (length reqs = (n + 3)%nat ->
     location (net w (sent st + 1 + n)%nat
                 (status_request (report_jobs base) jid tok))
       = Some (JStr u)).

(** The polling that starts with request number [first] ends with the
    reply to its check number [m], the first check being number 0: the
    replies before were all not ready, the rechecks are at most 10, and the
    last reply carries [loc] ([None]: no location at all, and the stage
    raises), which is not empty unless the 10 rechecks are used up. *)
Definition polling_ended (w : World) (first : nat) (req : Request) (m : nat)
  (loc : option json) : Prop :=
  (m <= 10)%nat /\
  (forall i, (i < m)%nat -> not_ready (net w (first + i)%nat req) = true) /\
  location (net w (first + m)%nat req) = loc /\
  (forall v, loc = Some v -> truthy v = true \/ m = 10%nat).

(** How far a run of [getReport] gets, told by the replies: [stages w st
    reportId r reqs] relates the result [r] of a run to the requests it
    sent.  A stage is entered exactly when the reply before it delivered:
    the start request needs a base URI and a token, both strings; the
    status requests need a job id that is a string; and the file request
    needs the polling to end with a location that is a string, be it
    empty after the last recheck. *)
Inductive stages (w : World) (st : State) (reportId : str)
  : result unit -> list Request -> Prop :=
  | stopped_at_token r :
      (forall base tok,
         ~ token_granted (net w (sent st) (token_request (this st)))
             base (JStr tok)) ->
      r <> Ok tt ->
      stages w st reportId r [token_request (this st)]
  | stopped_at_start r base tok :
      token_granted (net w (sent st) (token_request (this st))) base (JStr tok) ->
      (forall jid,
         ~ job_started
             (net w (sent st + 1)%nat
                (start_request (report_jobs base) reportId tok)) (JStr jid)) ->
      r <> Ok tt ->
      stages w st reportId r
        [token_request (this st);
         start_request (report_jobs base) reportId tok]
  | stopped_at_polling r base tok jid m :
      token_granted (net w (sent st) (token_request (this st))) base (JStr tok) ->
      job_started
        (net w (sent st + 1)%nat
           (start_request (report_jobs base) reportId tok)) (JStr jid) ->
      polling_ended w (sent st + 2)
        (status_request (report_jobs base) jid tok) m None ->
      r <> Ok tt ->
      stages w st reportId r
        (token_request (this st)
         :: start_request (report_jobs base) reportId tok
         :: replicate (S m) (status_request (report_jobs base) jid tok))
  | stopped_before_download base tok jid m v :
      token_granted (net w (sent st) (token_request (this st))) base (JStr tok) ->
      job_started
        (net w (sent st + 1)%nat
           (start_request (report_jobs base) reportId tok)) (JStr jid) ->
      polling_ended w (sent st + 2)
        (status_request (report_jobs base) jid tok) m (Some v) ->
      (forall u, v <> JStr u) ->
      stages w st reportId (Raise TypeError)
        (token_request (this st)
         :: start_request (report_jobs base) reportId tok
         :: replicate (S m) (status_request (report_jobs base) jid tok))
  | downloaded r base tok jid m u :
      token_granted (net w (sent st) (token_request (this st))) base (JStr tok) ->
      job_started
        (net w (sent st + 1)%nat
           (start_request (report_jobs base) reportId tok)) (JStr jid) ->
      polling_ended w (sent st + 2)
        (status_request (report_jobs base) jid tok) m (Some (JStr u)) ->
      stages w st reportId r
        (token_request (this st)
         :: start_request (report_jobs base) reportId tok
         :: replicate (S m) (status_request (report_jobs base) jid tok)
         ++ [file_request u tok]).

(** ** Sample services *)

Module Samples.

Definition ok (j : json) : outcome := Replied (mkResponse 200 (Some j)).

Definition token_body : json :=
  JObj [(lit "resource_server_base_uri", JStr (lit "https://x/"));
        (lit "access_token", JStr (lit "T"))].

Definition job_body : json := JObj [(lit "jobId", JStr (lit "J1"))].

Definition status_body (loc : str) : json :=
  JObj [(lit "jobResult", JObj [(lit "resultFileURL", JStr loc)])].

(** The text [a,b\n1,2] and its base64 form. *)
Definition csv : str := lit "a,b" ++ [10] ++ lit "1,2".

Definition file_body : json :=
  JObj [(lit "files", JObj [(lit "file", JStr (lit "YSxiCjEsMg=="))])].

Definition jobs_url : str := lit "https://x/services/v13.0/report-jobs/".

(** The scenario of the specification: the job is ready at the second
    status check.  The worlds of this module run on a platform whose line
    separator is ['\n'] and whose locale encoding is UTF-8. *)
Definition scenario : World :=
  mkWorld
    (fun n _ =>
       match n with
       | 0 => ok token_body
       | 1 => ok job_body
       | 2 => ok (status_body [])
       | 3 => ok (status_body (lit "https://x/f"))
       | 4 => ok file_body
       | _ => Failed
       end%nat)
    (fun _ => true) [10] utf_8.

(** A service whose job never finishes; the transport fails on a request
    without a URL. *)
Definition never_ready : World :=
  mkWorld
    (fun n r =>
       match req_url r with
       | [] => Failed
       | _ =>
           match n with
           | 0 => ok token_body
           | 1 => ok job_body
           | _ => ok (status_body [])
           end%nat
       end)
    (fun _ => true) [10] utf_8.

(** A service that answers the first status check with a server error and
    the file request with a client error, both with well-formed bodies. *)
Definition failing : World :=
  mkWorld
    (fun n _ =>
       match n with
       | 0 => ok token_body
       | 1 => ok job_body
       | 2 => Replied (mkResponse 500 (Some (status_body [])))
       | 3 => ok (status_body (lit "https://x/f"))
       | 4 => Replied (mkResponse 404 (Some file_body))
       | _ => Failed
       end%nat)
    (fun _ => true) [10] utf_8.

(** The scenario again, with status 300 on the token reply. *)
Definition redirecting : World :=
  mkWorld
    (fun n _ =>
       match n with
       | 0 => Replied (mkResponse 300 (Some token_body))
       | 1 => ok job_body
       | 2 => ok (status_body [])
       | 3 => ok (status_body (lit "https://x/f"))
       | 4 => ok file_body
       | _ => Failed
       end%nat)
    (fun _ => true) [10] utf_8.

(** A service that refuses every request. *)
Definition unauthorized : World :=
  mkWorld (fun _ _ => Replied (mkResponse 401 None)) (fun _ => true) [10] utf_8.

(** The object of the [__main__] block. *)
Definition report : CustomReport :=
  mkCustomReport (lit "eW91ckFwcEB5b3VyVmVuZG9yOnlvdXJCdQ==")
    Main.username Main.password.

(** The process before any request, and once the job has been started. *)
Definition fresh : State := mkState report 0 ∅.
Definition started : State := mkState report 2 ∅.

End Samples.

(** [wp m w Q st]: the run of [m] from [st] in world [w] ends in a result,
    events and state related by [Q]. *)
Definition wp {A} (m : M A) (w : World)
  (Q : result A -> list event -> State -> Prop) (st : State) : Prop :=
  match m w st with
  | (r, evs, st') => Q r evs st'
  end.

(** ** Vocabulary of the further properties *)

(** The line printed before a recheck, with the counter it shows. *)
Definition recheck_line (jid : str) (numTries : nat) : str :=
  lit "getFileURL() - jobId: " ++ jid ++ lit " numTries: " ++ str_of_nat numTries.

(** The events of [m] rechecks of the loop entered with counter [numTries]:
    each one prints the counter, sleeps and asks again. *)
Fixpoint recheck_events (jid : str) (req : Request) (numTries m : nat)
  : list event :=
  match m with
  | O => []
  | S m' =>
      EvPrint (recheck_line jid numTries) :: EvSleep 60 :: EvRequest req
      :: recheck_events jid req (pred numTries) m'
  end.

(** A code point that UTF-8 can encode: in range and no surrogate. *)
Definition is_scalar (ch : Z) : bool :=
  (0 <=? ch) && (ch <=? 0x10FFFF) && negb ((0xD800 <=? ch) && (ch <=? 0xDFFF)).

(** The files of two states agree everywhere but at [target]. *)
Definition same_except (target : str) (st st' : State) : Prop :=
  forall path, path <> target -> files st' !! path = files st !! path.

(** What a run of [getReport] that ended in [r] with events [evs] and
    state [st'] did besides sending requests: it slept at most 10 times,
    60 each; it left every file but the target alone; it touched the
    target only after its last request, the file request, had been
    answered with a payload; and when it succeeded the target holds the
    bytes that the platform stores for the decoded payload. *)
Definition report_effects (w : World) (st : State) (target : str)
  (r : result unit) (evs : list event) (st' : State) : Prop :=
  (exists m : nat, (m <= 10)%nat /\ sleeps_of evs = replicate m 60) /\
  same_except target st st' /\
  (files st' = files st \/
   exists u tok v,
     last (requests_of evs) = Some (file_request u tok) /\
     payload (net w (sent st + length (requests_of evs) - 1)%nat
                (file_request u tok)) = Some v /\
     can_open w target = true) /\
  (r = Ok tt ->
   exists u tok v text bs,
     last (requests_of evs) = Some (file_request u tok) /\
     payload (net w (sent st + length (requests_of evs) - 1)%nat
                (file_request u tok)) = Some v /\
     result_bind (base64_b64decode v) Utf8.decode = Ok text /\
     text_bytes w text = Some bs /\
     files st' !! target = Some bs).

(** An event other than the line that announces completion. *)
Definition not_completion (e : event) : Prop :=
  e <> EvPrint (lit "Job Complete").

(** More sample services. *)
Module MoreSamples.

(** The scenario with a file payload that is no base64 text. *)
Definition garbled : World :=
  mkWorld
    (fun n _ =>
       match n with
       | 0 => Samples.ok Samples.token_body
       | 1 => Samples.ok Samples.job_body
       | 2 => Samples.ok (Samples.status_body [])
       | 3 => Samples.ok (Samples.status_body (lit "https://x/f"))
       | 4 => Samples.ok (JObj [(lit "files", JObj [(lit "file", JStr (lit "Y"))])])
       | _ => Failed
       end%nat)
    (fun _ => true) [10] utf_8.

(** The scenario on a file system that refuses to open any file. *)
Definition read_only : World :=
  mkWorld (net Samples.scenario) (fun _ => false) [10] utf_8.

(** A service whose token reply lacks the base URI. *)
Definition no_base_uri : World :=
  mkWorld
    (fun _ _ => Samples.ok (JObj [(lit "access_token", JStr (lit "T"))]))
    (fun _ => true) [10] utf_8.

(** A service that starts the job and then answers the second status
    check with a body that is not JSON. *)
Definition breaks_off : World :=
  mkWorld
    (fun n _ =>
       match n with
       | 0 => Samples.ok Samples.token_body
       | 1 => Samples.ok Samples.job_body
       | 2 => Samples.ok (Samples.status_body [])
       | _ => Replied (mkResponse 502 None)
       end%nat)
    (fun _ => true) [10] utf_8.

(** A service that refuses the start request. *)
Definition unknown_report : World :=
  mkWorld
    (fun n _ =>
       match n with
       | 0 => Samples.ok Samples.token_body
       | _ => Replied (mkResponse 404 None)
       end%nat)
    (fun _ => true) [10] utf_8.

(** A service whose job is ready only at the last recheck. *)
Definition slow : World :=
  mkWorld
    (fun n _ =>
       match n with
       | 0 => Samples.ok Samples.token_body
       | 1 => Samples.ok Samples.job_body
       | 12 => Samples.ok (Samples.status_body (lit "https://x/f"))
       | 13 => Samples.ok Samples.file_body
       | _ => Samples.ok (Samples.status_body [])
       end%nat)
    (fun _ => true) [10] utf_8.

(** A service that answers the start request with a numeric job id. *)
Definition numeric_job : World :=
  mkWorld
    (fun n _ =>
       match n with
       | 0 => Samples.ok Samples.token_body
       | _ => Samples.ok (JObj [(lit "jobId", JNum 17)])
       end%nat)
    (fun _ => true) [10] utf_8.

(** A service whose job never finishes and whose status replies carry
    [null] as the location. *)
Definition null_location : World :=
  mkWorld
    (fun n _ =>
       match n with
       | 0 => Samples.ok Samples.token_body
       | 1 => Samples.ok Samples.job_body
       | _ => Samples.ok
                (JObj [(lit "jobResult", JObj [(lit "resultFileURL", JNull)])])
       end%nat)
    (fun _ => true) [10] utf_8.

(** The scenario on a platform whose line separator is CR LF. *)
Definition crlf : World :=
  mkWorld (net Samples.scenario) (fun _ => true) [13; 10] utf_8.

(** The text that consists of the euro sign, U+20AC. *)
Definition euro : str := [0x20AC].

(** The scenario with the base64 form of the UTF-8 encoding of [euro] as
    the file payload, on a platform whose locale encoding is ISO-8859-1. *)
Definition latin1_locale : World :=
  mkWorld
    (fun n _ =>
       match n with
       | 0 => Samples.ok Samples.token_body
       | 1 => Samples.ok Samples.job_body
       | 2 => Samples.ok (Samples.status_body [])
       | 3 => Samples.ok (Samples.status_body (lit "https://x/f"))
       | 4 => Samples.ok (JObj [(lit "files", JObj [(lit "file", JStr (lit "4oKs"))])])
       | _ => Failed
       end%nat)
    (fun _ => true) [10] latin_1.

(** A process whose target file already holds an older report. *)
Definition stale : State :=
  mkState Samples.report 0 (<[Main.outfile := lit "old"]> ∅).

End MoreSamples.

(** * Properties *)

(** ** The codecs on samples *)

Example b64encode_abc :
  Base64.b64encode (lit "a,b") = lit "YSxi" /\
  Base64.b64encode (lit "ab") = lit "YWI=" /\
  Base64.b64encode (lit "a") = lit "YQ==".
Proof. repeat split; reflexivity. Qed.

Example b64decode_abc :
  Base64.b64decode (lit "YSxi") = Ok (lit "a,b") /\
  Base64.b64decode (lit "YWI=") = Ok (lit "ab") /\
  Base64.b64decode (lit "YQ==") = Ok (lit "a") /\
  Base64.b64decode (lit "YQ=") = Raise BinasciiError /\
  Base64.b64decode (lit "Y") = Raise BinasciiError.
Proof. repeat split; reflexivity. Qed.

Example utf8_samples :
  Utf8.encode [0x41; 0xE9; 0x20AC; 0x1F600]
    = Ok [0x41; 0xC3; 0xA9; 0xE2; 0x82; 0xAC; 0xF0; 0x9F; 0x98; 0x80] /\
  Utf8.decode [0x41; 0xC3; 0xA9; 0xE2; 0x82; 0xAC; 0xF0; 0x9F; 0x98; 0x80]
    = Ok [0x41; 0xE9; 0x20AC; 0x1F600] /\
  Utf8.encode [0xD800] = Raise UnicodeEncodeError /\
  Utf8.decode [0xC0; 0x80] = Raise UnicodeDecodeError /\
  Utf8.decode [0xED; 0xA0; 0x80] = Raise UnicodeDecodeError.
Proof. repeat split; reflexivity. Qed.

(** ** Bit operations as arithmetic *)

Lemma land_disjoint hi lo k :
  0 <= k -> 0 <= lo < 2 ^ k -> hi mod 2 ^ k = 0 -> Z.land hi lo = 0.
Proof.
  intros Hk Hlo Hhi.
  apply Z.bits_inj'; intros n Hn.
  rewrite Z.land_spec, Z.bits_0.
  destruct (Z.lt_ge_cases n k) as [Hlt|Hge].
  - rewrite (Z.div_mod hi (2 ^ k)) by lia.
    rewrite Hhi, Z.add_0_r, Z.mul_comm, Z.mul_pow2_bits_low by lia.
    reflexivity.
  - destruct (Z.eq_dec lo 0) as [->|Hnz].
    + rewrite Z.bits_0. apply andb_false_r.
    + rewrite (Z.bits_above_log2 lo n), andb_false_r; [reflexivity|lia|].
      apply Z.log2_lt_pow2; [lia|].
      apply Z.lt_le_trans with (2 ^ k); [lia|].
      apply Z.pow_le_mono_r; lia.
Qed.

Lemma lor_disjoint hi lo k :
  0 <= k -> 0 <= lo < 2 ^ k -> hi mod 2 ^ k = 0 -> Z.lor hi lo = hi + lo.
Proof.
  intros Hk Hlo Hhi.
  pose proof (Z.add_lor_land hi lo) as H.
  rewrite (land_disjoint hi lo k) in H by assumption. lia.
Qed.

Lemma shiftr_2 a : Z.shiftr a 2 = a / 4.
Proof. apply (Z.shiftr_div_pow2 a 2). lia. Qed.
Lemma shiftr_4 a : Z.shiftr a 4 = a / 16.
Proof. apply (Z.shiftr_div_pow2 a 4). lia. Qed.
Lemma shiftr_6 a : Z.shiftr a 6 = a / 64.
Proof. apply (Z.shiftr_div_pow2 a 6). lia. Qed.
Lemma shiftr_12 a : Z.shiftr a 12 = a / 4096.
Proof. apply (Z.shiftr_div_pow2 a 12). lia. Qed.
Lemma shiftr_18 a : Z.shiftr a 18 = a / 262144.
Proof. apply (Z.shiftr_div_pow2 a 18). lia. Qed.
Lemma shiftl_2 a : Z.shiftl a 2 = a * 4.
Proof. apply (Z.shiftl_mul_pow2 a 2). lia. Qed.
Lemma shiftl_4 a : Z.shiftl a 4 = a * 16.
Proof. apply (Z.shiftl_mul_pow2 a 4). lia. Qed.
Lemma shiftl_6 a : Z.shiftl a 6 = a * 64.
Proof. apply (Z.shiftl_mul_pow2 a 6). lia. Qed.
Lemma shiftl_12 a : Z.shiftl a 12 = a * 4096.
Proof. apply (Z.shiftl_mul_pow2 a 12). lia. Qed.
Lemma shiftl_18 a : Z.shiftl a 18 = a * 262144.
Proof. apply (Z.shiftl_mul_pow2 a 18). lia. Qed.
Lemma land_3 a : Z.land a 3 = a mod 4.
Proof. apply (Z.land_ones a 2). lia. Qed.
Lemma land_15 a : Z.land a 15 = a mod 16.
Proof. apply (Z.land_ones a 4). lia. Qed.
Lemma land_63 a : Z.land a 63 = a mod 64.
Proof. apply (Z.land_ones a 6). lia. Qed.

Create Rewrite HintDb bits.
#[local] Hint Rewrite shiftr_2 shiftr_4 shiftr_6 shiftr_12 shiftr_18
  shiftl_2 shiftl_4 shiftl_6 shiftl_12 shiftl_18 land_3 land_15 land_63
  : bits.

Ltac divmod := Z.div_mod_to_equations; lia.

Ltac lor_side k :=
  first [ lia
        | let v := eval compute in (2 ^ k) in
          change (2 ^ k) with v; divmod ].

(** Turns every [Z.lor] whose operands occupy disjoint bits into a sum. *)
Ltac lor_to_add :=
  repeat match goal with
  | |- context [Z.lor ?hi ?lo] =>
      first [ rewrite (lor_disjoint hi lo 2) by lor_side 2
            | rewrite (lor_disjoint hi lo 4) by lor_side 4
            | rewrite (lor_disjoint hi lo 6) by lor_side 6
            | rewrite (lor_disjoint hi lo 3) by lor_side 3 ]
  end.

Ltac bits := autorewrite with bits; lor_to_add.

(** ** base64 *)

Module Base64Facts.
Import Base64.

Lemma forall_below (n : nat) (P : Z -> bool) :
  forallb P (map Z.of_nat (seq 0 n)) = true ->
  forall i, 0 <= i < Z.of_nat n -> P i = true.
Proof.
  intros H i Hi.
  rewrite forallb_forall in H. apply H.
  apply in_map_iff. exists (Z.to_nat i). split; [lia|].
  apply in_seq. lia.
Qed.

Lemma alphabet i :
  0 <= i < 64 ->
  table_a2b_base64 (b2a i) = Some i /\ b2a i <> BASE64_PAD /\ 0 <= b2a i < 128.
Proof.
  intros Hi.
  assert (H : alphabet_ok i = true).
  { apply (forall_below 64); [vm_compute; reflexivity | lia]. }
  unfold alphabet_ok in H.
  destruct (table_a2b_base64 (b2a i)) as [j|]; [|discriminate].
  rewrite !andb_true_iff, negb_true_iff in H.
  destruct H as [[[H1 H2] H3] H4].
  apply Z.eqb_eq in H1. apply Z.eqb_neq in H2.
  apply Z.leb_le in H3. apply Z.ltb_lt in H4.
  subst j. auto.
Qed.

(** One step of the loop on a character of the alphabet. *)
Lemma a2b_loop_sextet i rest quad_pos leftchar pads :
  0 <= i < 64 ->
  a2b_loop (b2a i :: rest) quad_pos leftchar pads =
    if quad_pos =? 0 then a2b_loop rest 1 i 0
    else if quad_pos =? 1 then
      result_map (cons (Z.lor (Z.shiftl leftchar 2) (Z.shiftr i 4)))
        (a2b_loop rest 2 (Z.land i 0xF) 0)
    else if quad_pos =? 2 then
      result_map (cons (Z.lor (Z.shiftl leftchar 4) (Z.shiftr i 2)))
        (a2b_loop rest 3 (Z.land i 0x3) 0)
    else
      result_map (cons (Z.lor (Z.shiftl leftchar 6) i)) (a2b_loop rest 0 0 0).
Proof.
  intros Hi. destruct (alphabet i Hi) as (Ht & Hp & _).
  cbn [a2b_loop]. apply Z.eqb_neq in Hp. rewrite Hp, Ht. reflexivity.
Qed.

Lemma sextet0 a :
  is_byte a ->
  0 <= Z.shiftr a 2 < 64.
Proof. unfold is_byte; intros. bits. divmod. Qed.

Lemma sextet1 a b :
  is_byte a -> is_byte b ->
  0 <= Z.lor (Z.shiftl (Z.land a 3) 4) (Z.shiftr b 4) < 64.
Proof. unfold is_byte; intros. bits. divmod. Qed.

Lemma sextet1_last a :
  is_byte a ->
  0 <= Z.shiftl (Z.land a 3) 4 < 64.
Proof. unfold is_byte; intros. bits. divmod. Qed.

Lemma sextet2 b c :
  is_byte b -> is_byte c ->
  0 <= Z.lor (Z.shiftl (Z.land b 0xF) 2) (Z.shiftr c 6) < 64.
Proof. unfold is_byte; intros. bits. divmod. Qed.

Lemma sextet2_last b :
  is_byte b ->
  0 <= Z.shiftl (Z.land b 0xF) 2 < 64.
Proof. unfold is_byte; intros. bits. divmod. Qed.

Lemma sextet3 c :
  is_byte c ->
  0 <= Z.land c 0x3F < 64.
Proof. unfold is_byte; intros. bits. divmod. Qed.

Lemma octet0 a b :
  is_byte a -> is_byte b ->
  Z.lor (Z.shiftl (Z.shiftr a 2) 2)
          (Z.shiftr (Z.lor (Z.shiftl (Z.land a 3) 4) (Z.shiftr b 4)) 4) = a.
Proof. unfold is_byte; intros. bits. divmod. Qed.

Lemma octet0_last a :
  is_byte a ->
  Z.lor (Z.shiftl (Z.shiftr a 2) 2)
          (Z.shiftr (Z.shiftl (Z.land a 3) 4) 4) = a.
Proof. unfold is_byte; intros. bits. divmod. Qed.

Lemma octet1 a b c :
  is_byte a -> is_byte b -> is_byte c ->
  Z.lor (Z.shiftl
             (Z.land (Z.lor (Z.shiftl (Z.land a 3) 4) (Z.shiftr b 4)) 0xF) 4)
          (Z.shiftr (Z.lor (Z.shiftl (Z.land b 0xF) 2) (Z.shiftr c 6)) 2) = b.
Proof. unfold is_byte; intros. bits. divmod. Qed.

Lemma octet1_last a b :
  is_byte a -> is_byte b ->
  Z.lor (Z.shiftl
             (Z.land (Z.lor (Z.shiftl (Z.land a 3) 4) (Z.shiftr b 4)) 0xF) 4)
          (Z.shiftr (Z.shiftl (Z.land b 0xF) 2) 2) = b.
Proof. unfold is_byte; intros. bits. divmod. Qed.

Lemma octet2 b c :
  is_byte b -> is_byte c ->
  Z.lor (Z.shiftl
             (Z.land (Z.lor (Z.shiftl (Z.land b 0xF) 2) (Z.shiftr c 6)) 0x3) 6)
          (Z.land c 0x3F) = c.
Proof. unfold is_byte; intros. bits. divmod. Qed.

Lemma a2b_loop_pad rest quad_pos leftchar pads :
  a2b_loop (BASE64_PAD :: rest) quad_pos leftchar pads =
    if (2 <=? quad_pos) && (4 <=? quad_pos + (pads + 1)) then Ok []
    else a2b_loop rest quad_pos leftchar
           (if 2 <=? quad_pos then pads + 1 else pads).
Proof. reflexivity. Qed.

(** A full group of four characters gives back its three bytes. *)
Lemma a2b_loop_quad a b c rest leftchar pads :
  is_byte a -> is_byte b -> is_byte c ->
  a2b_loop (b64encode (a :: b :: c :: rest)) 0 leftchar pads =
    result_map (fun l => a :: b :: c :: l) (a2b_loop (b64encode rest) 0 0 0).
Proof.
  intros Ha Hb Hc.
  cbn [b64encode].
  rewrite a2b_loop_sextet by (apply sextet0; assumption). cbn [Z.eqb Pos.eqb].
  rewrite a2b_loop_sextet by (apply sextet1; assumption). cbn [Z.eqb Pos.eqb].
  rewrite a2b_loop_sextet by (apply sextet2; assumption). cbn [Z.eqb Pos.eqb].
  rewrite a2b_loop_sextet by (apply sextet3; assumption). cbn [Z.eqb Pos.eqb].
  rewrite (octet0 a b), (octet1 a b c), (octet2 b c) by assumption.
  destruct (a2b_loop (b64encode rest) 0 0 0); reflexivity.
Qed.

Lemma a2b_loop_last1 a leftchar pads :
  is_byte a -> a2b_loop (b64encode [a]) 0 leftchar pads = Ok [a].
Proof.
  intros Ha.
  cbn [b64encode].
  rewrite a2b_loop_sextet by (apply sextet0; assumption). cbn [Z.eqb Pos.eqb].
  rewrite a2b_loop_sextet by (apply sextet1_last; assumption). cbn [Z.eqb Pos.eqb].
  rewrite !a2b_loop_pad, (octet0_last a) by assumption.
  reflexivity.
Qed.

Lemma a2b_loop_last2 a b leftchar pads :
  is_byte a -> is_byte b ->
  a2b_loop (b64encode [a; b]) 0 leftchar pads = Ok [a; b].
Proof.
  intros Ha Hb.
  cbn [b64encode].
  rewrite a2b_loop_sextet by (apply sextet0; assumption). cbn [Z.eqb Pos.eqb].
  rewrite a2b_loop_sextet by (apply sextet1; assumption). cbn [Z.eqb Pos.eqb].
  rewrite a2b_loop_sextet by (apply sextet2_last; assumption). cbn [Z.eqb Pos.eqb].
  rewrite a2b_loop_pad, (octet0 a b), (octet1_last a b) by assumption.
  reflexivity.
Qed.

(** Lists are consumed three bytes at a time. *)
Lemma bytes_ind3 (P : list Z -> Prop) :
  P [] -> (forall a, P [a]) -> (forall a b, P [a; b]) ->
  (forall a b c rest, P rest -> P (a :: b :: c :: rest)) ->
  forall l, P l.
Proof.
  intros H0 H1 H2 H3.
  fix IH 1.
  intros [|a [|b [|c rest]]];
    [exact H0 | apply H1 | apply H2 | apply H3, IH].
Qed.

Lemma a2b_b64encode s :
  Forall is_byte s -> a2b_base64 (b64encode s) = Ok s.
Proof.
  unfold a2b_base64. generalize 0 at 2. generalize 0 at 2. revert s.
  induction s as [|a|a b|a b c rest IH] using bytes_ind3; intros pads lc Hs.
  - reflexivity.
  - apply Forall_cons in Hs as [Ha _]. apply a2b_loop_last1; assumption.
  - apply Forall_cons in Hs as [Ha Hs]. apply Forall_cons in Hs as [Hb _].
    apply a2b_loop_last2; assumption.
  - apply Forall_cons in Hs as [Ha Hs]. apply Forall_cons in Hs as [Hb Hs].
    apply Forall_cons in Hs as [Hc Hs].
    rewrite a2b_loop_quad, IH by assumption.
    reflexivity.
Qed.

Lemma b64encode_ascii s :
  Forall is_byte s ->
  forallb (fun c => (0 <=? c) && (c <? 128)) (b64encode s) = true.
Proof.
  assert (Hch : forall i, 0 <= i < 64 ->
            (0 <=? b2a i) && (b2a i <? 128) = true).
  { intros i Hi. destruct (alphabet i Hi) as (_ & _ & Hr).
    apply andb_true_iff. split; [apply Z.leb_le | apply Z.ltb_lt]; lia. }
  induction s as [|a|a b|a b c rest IH] using bytes_ind3; intros Hs.
  - reflexivity.
  - apply Forall_cons in Hs as [Ha _].
    cbn [b64encode forallb].
    rewrite !Hch by (apply sextet0 || apply sextet1_last; assumption).
    reflexivity.
  - apply Forall_cons in Hs as [Ha Hs]. apply Forall_cons in Hs as [Hb _].
    cbn [b64encode forallb].
    rewrite !Hch
      by (apply sextet0 || apply sextet1 || apply sextet2_last; assumption).
    reflexivity.
  - apply Forall_cons in Hs as [Ha Hs]. apply Forall_cons in Hs as [Hb Hs].
    apply Forall_cons in Hs as [Hc Hs].
    cbn [b64encode forallb].
    rewrite !Hch
      by (apply sextet0 || apply sextet1 || apply sextet2 || apply sextet3;
          assumption).
    rewrite IH by assumption. reflexivity.
Qed.

(** Decoding inverts encoding. *)
Lemma b64decode_b64encode s :
  Forall is_byte s -> b64decode (b64encode s) = Ok s.
Proof.
  intros Hs. unfold b64decode.
  rewrite b64encode_ascii by assumption.
  apply a2b_b64encode; assumption.
Qed.

End Base64Facts.

(** ** UTF-8 *)

Ltac ztest :=
  repeat match goal with
  | |- context [?x <? ?y] => destruct (Z.ltb_spec x y); try lia
  | |- context [?x <=? ?y] => destruct (Z.leb_spec x y); try lia
  | |- context [?x =? ?y] => destruct (Z.eqb_spec x y); try lia
  end.

Module Utf8Facts.
Import Utf8.

Lemma decode_1 b1 rest :
  0 <= b1 < 0x80 ->
  decode (b1 :: rest) = result_map (cons b1) (decode rest).
Proof. intros H. cbn [decode]. ztest. reflexivity. Qed.

Lemma decode_2 b1 b2 rest :
  0xC2 <= b1 < 0xE0 -> 0x80 <= b2 < 0xC0 ->
  decode (b1 :: b2 :: rest) =
    result_map (cons (b1 * 64 + b2 - 12416)) (decode rest).
Proof.
  intros H1 H2. cbn [decode]. unfold is_continuation.
  rewrite !shiftl_6. ztest. reflexivity.
Qed.

Lemma decode_3 b1 b2 b3 rest :
  0xE0 <= b1 < 0xF0 -> 0x80 <= b2 < 0xC0 -> 0x80 <= b3 < 0xC0 ->
  (b1 = 0xE0 -> 0xA0 <= b2) -> (b1 = 0xED -> b2 < 0xA0) ->
  decode (b1 :: b2 :: b3 :: rest) =
    result_map (cons (b1 * 4096 + b2 * 64 + b3 - 925824)) (decode rest).
Proof.
  intros H1 H2 H3 Hlo Hhi. cbn [decode]. unfold is_continuation.
  rewrite !shiftl_6, !shiftl_12. ztest; reflexivity.
Qed.

Lemma decode_4 b1 b2 b3 b4 rest :
  0xF0 <= b1 < 0xF5 -> 0x80 <= b2 < 0xC0 -> 0x80 <= b3 < 0xC0 ->
  0x80 <= b4 < 0xC0 ->
  (b1 = 0xF0 -> 0x90 <= b2) -> (b1 = 0xF4 -> b2 < 0x90) ->
  decode (b1 :: b2 :: b3 :: b4 :: rest) =
    result_map
      (cons (b1 * 262144 + b2 * 4096 + b3 * 64 + b4 - 63447168))
      (decode rest).
Proof.
  intros H1 H2 H3 H4 Hlo Hhi. cbn [decode]. unfold is_continuation.
  rewrite !shiftl_6, !shiftl_12, !shiftl_18. ztest; reflexivity.
Qed.

(** The bytes of one encoded character, as arithmetic. *)
Lemma encode_char_cases ch bs :
  encode_char ch = Ok bs ->
  (0 <= ch < 0x80 /\ bs = [ch]) \/
  (0x80 <= ch < 0x800 /\ bs = [192 + ch / 64; 128 + ch mod 64]) \/
  (0x800 <= ch < 0x10000 /\ ~ (0xD800 <= ch <= 0xDFFF) /\
   bs = [224 + ch / 4096; 128 + (ch / 64) mod 64; 128 + ch mod 64]) \/
  (0x10000 <= ch <= 0x10FFFF /\
   bs = [240 + ch / 262144; 128 + (ch / 4096) mod 64;
         128 + (ch / 64) mod 64; 128 + ch mod 64]).
Proof.
  unfold encode_char.
  destruct (Z.ltb_spec ch 0); [discriminate|].
  destruct (Z.ltb_spec 0x10FFFF ch); [discriminate|].
  cbn [orb].
  destruct (Z.ltb_spec ch 0x80).
  { intros [= <-]. left. split; [lia | reflexivity]. }
  destruct (Z.ltb_spec ch 0x800).
  { intros [= <-]. right; left. split; [lia|]. bits. reflexivity. }
  destruct (Z.leb_spec 0xD800 ch); destruct (Z.leb_spec ch 0xDFFF);
    cbn [andb]; try discriminate.
  all: destruct (Z.ltb_spec ch 0x10000).
  all: intros [= <-].
  all: first [ right; right; left; split; [lia|]; split; [lia|];
               bits; reflexivity
             | right; right; right; split; [lia|]; bits; reflexivity ].
Qed.

Lemma encode_char_bytes ch bs :
  encode_char ch = Ok bs -> Forall is_byte bs.
Proof.
  intros H. unfold is_byte.
  destruct (encode_char_cases ch bs H)
    as [[Hr ->]|[[Hr ->]|[(Hr & Hs & ->)|[Hr ->]]]];
    repeat (apply Forall_cons; split; [divmod|]); apply Forall_nil; exact I.
Qed.

Lemma decode_encode_char ch bs rest :
  encode_char ch = Ok bs ->
  decode (bs ++ rest) = result_map (cons ch) (decode rest).
Proof.
  intros H.
  destruct (encode_char_cases ch bs H)
    as [[Hr ->]|[[Hr ->]|[(Hr & Hs & ->)|[Hr ->]]]];
    rewrite <- ?app_comm_cons, app_nil_l.
  - apply decode_1; lia.
  - rewrite decode_2 by divmod. f_equal. f_equal. divmod.
  - rewrite decode_3 by divmod. f_equal. f_equal. divmod.
  - rewrite decode_4 by divmod. f_equal. f_equal. divmod.
Qed.

Lemma encode_bytes s bs : encode s = Ok bs -> Forall is_byte bs.
Proof.
  revert bs. induction s as [|ch s IH]; intros bs.
  - intros [= <-]. constructor.
  - cbn [encode]. destruct (encode_char ch) as [b1|] eqn:E1; [|discriminate].
    cbn [result_bind]. destruct (encode s) as [b2|]; [|discriminate].
    intros [= <-]. apply Forall_app. split; [|apply IH; reflexivity].
    eapply encode_char_bytes; eassumption.
Qed.

(** Decoding inverts encoding. *)
Lemma decode_encode s bs : encode s = Ok bs -> decode bs = Ok s.
Proof.
  revert bs. induction s as [|ch s IH]; intros bs.
  - intros [= <-]. reflexivity.
  - cbn [encode]. destruct (encode_char ch) as [b1|] eqn:E1; [|discriminate].
    cbn [result_bind]. destruct (encode s) as [b2|]; [|discriminate].
    intros [= <-].
    rewrite (decode_encode_char ch b1 b2 E1), (IH b2 eq_refl). reflexivity.
Qed.

End Utf8Facts.

(** ** Reasoning about runs *)

Lemma wp_run {A} (m : M A) w Q st r evs st' :
  m w st = (r, evs, st') -> (wp m w Q st <-> Q r evs st').
Proof. unfold wp. intros ->. reflexivity. Qed.

Lemma wp_elim {A} (m : M A) w Q st :
  wp m w Q st ->
  Q (outcome_of (m w st)) (events_of (m w st)) (state_of (m w st)).
Proof. unfold wp. destruct (m w st) as [[r evs] st']. exact id. Qed.

Lemma wp_mono {A} (m : M A) w (Q Q' : result A -> list event -> State -> Prop) st :
  wp m w Q st -> (forall r evs st', Q r evs st' -> Q' r evs st') -> wp m w Q' st.
Proof. unfold wp. destruct (m w st) as [[r evs] st']. auto. Qed.

Lemma wp_ret {A} (a : A) w Q st : Q (Ok a) [] st -> wp (ret a) w Q st.
Proof. exact id. Qed.

Lemma wp_lift {A} (r : result A) w Q st : Q r [] st -> wp (lift r) w Q st.
Proof. exact id. Qed.

Lemma wp_emit e w Q st : Q (Ok tt) [e] st -> wp (emit e) w Q st.
Proof. exact id. Qed.

Lemma wp_self w Q st : Q (Ok (this st)) [] st -> wp self w Q st.
Proof. exact id. Qed.

Lemma wp_bind {A B} (m : M A) (f : A -> M B) w Q st :
  wp m w (fun r evs st' =>
            match r with
            | Ok a => wp (f a) w (fun r' evs' st'' => Q r' (evs ++ evs') st'') st'
            | Raise e => Q (Raise e) evs st'
            end) st ->
  wp (bind m f) w Q st.
Proof.
  unfold wp, bind. destruct (m w st) as [[[a|e] evs] st']; [|exact id].
  destruct (f a w st') as [[r' evs'] st'']. exact id.
Qed.

Lemma wp_send r w Q st :
  (forall st', this st' = this st -> files st' = files st ->
               sent st' = S (sent st) ->
     match net w (sent st) r with
     | Replied resp => Q (Ok resp) [EvRequest r] st'
     | Failed => Q (Raise RequestException) [EvRequest r] st'
     end) ->
  wp (requests_send r) w Q st.
Proof.
  intros H. unfold wp, requests_send.
  specialize (H (mkState (this st) (S (sent st)) (files st)) eq_refl eq_refl eq_refl).
  destruct (net w (sent st) r); exact H.
Qed.

Lemma wp_file_open path w Q st :
  (if can_open w path
   then forall st', this st' = this st -> sent st' = sent st ->
                    files st' = <[path := []]> (files st) ->
                    Q (Ok tt) [EvOpen path] st'
   else Q (Raise OSError) [] st) ->
  wp (file_open path) w Q st.
Proof.
  unfold wp, file_open. destruct (can_open w path); [|exact id].
  intros H. apply H; reflexivity.
Qed.

Lemma wp_file_write path text w Q st :
  (forall bs st', text_bytes w text = Some bs ->
     this st' = this st -> sent st' = sent st ->
     files st' = <[path := default [] (files st !! path) ++ bs]> (files st) ->
     Q (Ok tt) [EvWrite path text] st') ->
  (text_bytes w text = None -> Q (Raise UnicodeEncodeError) [] st) ->
  wp (file_write path text) w Q st.
Proof.
  unfold wp, file_write. intros Hok Hraise.
  destruct (text_bytes w text) as [bs|].
  - apply (Hok bs); reflexivity.
  - apply Hraise. reflexivity.
Qed.

Lemma requests_of_app e1 e2 :
  requests_of (e1 ++ e2) = requests_of e1 ++ requests_of e2.
Proof. apply omap_app. Qed.

Lemma sleeps_of_app e1 e2 : sleeps_of (e1 ++ e2) = sleeps_of e1 ++ sleeps_of e2.
Proof. apply omap_app. Qed.

Lemma wp_ex {A} (m : M A) w Q st :
  wp m w Q st -> exists r evs st', m w st = (r, evs, st') /\ Q r evs st'.
Proof.
  unfold wp. destruct (m w st) as [[r evs] st']. intros H.
  exists r, evs, st'. split; [reflexivity | exact H].
Qed.

(** One step of the calculus on the head of a computation. *)
Ltac wp_step :=
  cbn beta iota zeta;
  lazymatch goal with
  | |- wp (bind _ _) _ _ _ => apply wp_bind
  | |- wp (ret _) _ _ _ => apply wp_ret
  | |- wp (lift _) _ _ _ => apply wp_lift
  | |- wp (print _) _ _ _ => apply wp_emit
  | |- wp (time_sleep _) _ _ _ => apply wp_emit
  | |- wp (file_close _) _ _ _ => apply wp_emit
  | |- wp (emit _) _ _ _ => apply wp_emit
  | |- wp self _ _ _ => apply wp_self
  | |- wp (requests_post _ _ _) _ _ _ =>
      apply wp_send; intros ? ? ? ?
  | |- wp (requests_get _ _) _ _ _ =>
      apply wp_send; intros ? ? ? ?
  | |- wp (file_open _) _ _ _ => apply wp_file_open
  | |- wp (file_write _ _) _ _ _ =>
      apply wp_file_write; [intros ? ? ? ? ? ?|intros ?]
  end.

(** ** The methods, one by one *)

Section Methods.
Context (w : World).

(** [getToken] sends the token request once; it returns the body of a
    reply whose status is no error, and raises otherwise. *)
Lemma getToken_spec st :
  wp getToken w (fun r evs st' =>
    this st' = this st /\ files st' = files st /\ sent st' = S (sent st) /\
    requests_of evs = [token_request (this st)] /\ sleeps_of evs = [] /\
    match net w (sent st) (token_request (this st)) with
    | Replied resp =>
        r = result_bind (raise_for_status resp) (fun _ => resp_json resp)
    | Failed => r = Raise RequestException
    end) st.
Proof.
  unfold getToken. do 6 wp_step.
  change (net w (sent st) _) with (net w (sent st) (token_request (this st))).
  destruct (net w (sent st) (token_request (this st))) as [resp|].
  - wp_step. wp_step.
    destruct (raise_for_status resp) as [[]|e]; [wp_step|]; auto 10.
  - auto 10.
Qed.

(** [startReportJob] sends the start request once, provided the token is
    a string; it returns the [jobId] field of a reply whose status is no
    error. *)
Lemma startReportJob_spec reportId reportURL token st :
  wp (startReportJob reportId reportURL token) w (fun r evs st' =>
    this st' = this st /\ files st' = files st /\ sleeps_of evs = [] /\
    match as_str token with
    | Ok tok =>
        sent st' = S (sent st) /\
        requests_of evs = [start_request reportURL reportId tok] /\
        match net w (sent st) (start_request reportURL reportId tok) with
        | Replied resp =>
            r = result_bind (raise_for_status resp) (fun _ =>
                result_bind (resp_json resp) (fun j =>
                getitem j (lit "jobId")))
        | Failed => r = Raise RequestException
        end
    | Raise e => r = Raise e /\ sent st' = sent st /\ requests_of evs = []
    end) st.
Proof.
  unfold startReportJob. do 4 wp_step.
  destruct (as_str token) as [tok|e]; [|auto 10].
  do 2 wp_step.
  change (net w (sent st) _)
    with (net w (sent st) (start_request reportURL reportId tok)).
  destruct (net w (sent st) (start_request reportURL reportId tok))
    as [resp|]; [|auto 10].
  do 2 wp_step.
  destruct (raise_for_status resp) as [[]|e]; [|auto 10].
  do 2 wp_step.
  destruct (resp_json resp) as [j|e]; [wp_step|]; auto 10.
Qed.

(** [downloadReport] sends the file request once, provided the URL and
    the token are strings; whatever the status of the reply, it returns
    the [files.file] field of its body. *)
Lemma downloadReport_spec url token st :
  wp (downloadReport url token) w (fun r evs st' =>
    this st' = this st /\ files st' = files st /\ sleeps_of evs = [] /\
    match as_str url, as_str token with
    | Ok u, Ok tok =>
        sent st' = S (sent st) /\
        requests_of evs = [file_request u tok] /\
        match net w (sent st) (file_request u tok) with
        | Replied resp => r = files_file resp
        | Failed => r = Raise RequestException
        end
    | Ok _, Raise e | Raise e, _ =>
        r = Raise e /\ sent st' = sent st /\ requests_of evs = []
    end) st.
Proof.
  unfold downloadReport. do 2 wp_step.
  destruct (as_str url) as [u|e]; [|auto 10].
  do 4 wp_step.
  destruct (as_str token) as [tok|e]; [|auto 10].
  do 2 wp_step.
  change (net w (sent st) _) with (net w (sent st) (file_request u tok)).
  destruct (net w (sent st) (file_request u tok)) as [resp|]; [|auto 10].
  wp_step. auto 10.
Qed.

(** *** The polling loop *)

Lemma location_inv o v :
  location o = Some v -> exists resp, o = Replied resp /\ resultFileURL resp = Ok v.
Proof.
  unfold location. destruct o as [resp|]; [|discriminate].
  destruct (resultFileURL resp) as [v'|] eqn:E; [|discriminate].
  intros [= ->]. exists resp. auto.
Qed.

Lemma not_ready_inv o :
  not_ready o = true -> exists v, location o = Some v /\ truthy v = false.
Proof.
  unfold not_ready. destruct (location o) as [v|]; [|discriminate].
  intros H. exists v. split; [reflexivity|]. apply negb_true_iff, H.
Qed.

Lemma poll_truthy jid url hdr n v st :
  truthy v = true -> poll jid url hdr n v w st = (Ok v, [], st).
Proof. intros Hv. destruct n; cbn [poll]; rewrite Hv; reflexivity. Qed.

(** Every run of the loop makes at most [n] rechecks, each after one
    sleep of 60, and what it returns is the last location received. *)
Lemma poll_spec jid url hdr n :
  forall v st,
  wp (poll jid url hdr n v) w (fun r evs st' =>
    this st' = this st /\ files st' = files st /\
    exists m, (m <= n)%nat /\ sent st' = (sent st + m)%nat /\
      requests_of evs = replicate m (mkRequest GET url hdr None) /\
      sleeps_of evs = replicate m 60 /\
      forall v', r = Ok v' ->
        (truthy v' = false -> m = n) /\
        match m with
        | O => v' = v
        | S m' =>
            location (net w (sent st + m')%nat (mkRequest GET url hdr None))
              = Some v'
        end) st.
Proof.
  induction n as [|n IH]; intros v st; cbn [poll].
  - destruct (truthy v); cbn [negb]; wp_step;
      (split; [reflexivity|]; split; [reflexivity|]);
      exists 0%nat; rewrite Nat.add_0_r;
      do 4 (split; [reflexivity || lia|]); intros v' [= <-]; auto.
  - destruct (truthy v) eqn:Hv; cbn [negb].
    { wp_step. split; [reflexivity|]. split; [reflexivity|].
      exists 0%nat. rewrite Nat.add_0_r.
      do 4 (split; [reflexivity || lia|]). intros v' [= <-].
      split; [congruence | reflexivity]. }
    do 6 wp_step.
    destruct (net w (sent st) (mkRequest GET url hdr None)) as [resp|] eqn:Hnet.
    2:{ split; [assumption|]. split; [assumption|]. exists 1%nat.
        do 4 (split; [reflexivity || lia|]). discriminate. }
    do 2 wp_step.
    destruct (resultFileURL resp) as [v2|e] eqn:Hloc.
    2:{ split; [assumption|]. split; [assumption|]. exists 1%nat.
        do 4 (split; [reflexivity || lia|]). discriminate. }
    eapply wp_mono; [apply IH|]. cbn beta.
    intros r evs st2 (Hthis & Hfiles & m & Hm & Hsent & Hreq & Hsl & Hret).
    split; [congruence|]. split; [congruence|].
    exists (S m). split; [lia|]. split; [lia|].
    split; [cbn; f_equal; exact Hreq|].
    split; [cbn; f_equal; exact Hsl|].
    intros v' Hr. destruct (Hret v' Hr) as [Hex Hlast].
    split; [intros Hf; f_equal; auto|].
    destruct m as [|m'].
    + subst v'. rewrite Nat.add_0_r.
      unfold location. rewrite Hnet, Hloc. reflexivity.
    + replace (sent st + S m')%nat with (sent st' + m')%nat by lia.
      exact Hlast.
Qed.

(** The loop entered with an empty location, [k] further empty replies
    and then a non-empty one: [k + 1] rechecks. *)
Lemma poll_ready jid url hdr k :
  forall n v st loc,
  (k < n)%nat -> truthy v = false ->
  (forall i, (i < k)%nat ->
     not_ready (net w (sent st + i)%nat (mkRequest GET url hdr None)) = true) ->
  location (net w (sent st + k)%nat (mkRequest GET url hdr None)) = Some loc ->
  truthy loc = true ->
  wp (poll jid url hdr n v) w (fun r evs st' =>
    r = Ok loc /\ this st' = this st /\ files st' = files st /\
    sent st' = (sent st + S k)%nat /\
    requests_of evs = replicate (S k) (mkRequest GET url hdr None) /\
    sleeps_of evs = replicate (S k) 60) st.
Proof.
  induction k as [|k IH]; intros n v st loc Hn Hv Hempty Hloc Hready;
    (destruct n as [|n]; [lia|]); cbn [poll]; rewrite Hv; cbn [negb].
  - rewrite Nat.add_0_r in Hloc.
    apply location_inv in Hloc as (resp & Hnet & Hres).
    do 6 wp_step. rewrite Hnet. do 2 wp_step. rewrite Hres.
    cbn beta iota.
    eapply wp_run; [apply poll_truthy; assumption|].
    repeat split; try assumption; try reflexivity; lia.
  - destruct (not_ready_inv _ (Hempty 0%nat ltac:(lia))) as (v2 & Hloc2 & Hv2).
    rewrite Nat.add_0_r in Hloc2.
    apply location_inv in Hloc2 as (resp & Hnet & Hres).
    do 6 wp_step. rewrite Hnet. do 2 wp_step. rewrite Hres.
    cbn beta iota.
    eapply wp_mono.
    { apply (IH n v2 st' loc); [lia|assumption| |  |assumption].
      - intros i Hi. replace (sent st' + i)%nat with (sent st + S i)%nat by lia.
        apply Hempty. lia.
      - replace (sent st' + k)%nat with (sent st + S k)%nat by lia.
        exact Hloc. }
    cbn beta. intros r evs st2 (-> & Hthis & Hfiles & Hsent & Hreq & Hsl).
    split; [reflexivity|]. split; [congruence|]. split; [congruence|].
    split; [lia|].
    split; [cbn; f_equal; exact Hreq | cbn; f_equal; exact Hsl].
Qed.

(** The loop entered with an empty location and [n] further empty
    replies: the budget is used up and the last reply's location is
    returned. *)
Lemma poll_exhausted jid url hdr n :
  forall v st,
  truthy v = false ->
  (forall i, (i < n)%nat ->
     not_ready (net w (sent st + i)%nat (mkRequest GET url hdr None)) = true) ->
  wp (poll jid url hdr n v) w (fun r evs st' =>
    (exists v', r = Ok v' /\ truthy v' = false /\
       match n with
       | O => v' = v
       | S n' =>
           location (net w (sent st + n')%nat (mkRequest GET url hdr None))
             = Some v'
       end) /\
    this st' = this st /\ files st' = files st /\
    sent st' = (sent st + n)%nat /\
    requests_of evs = replicate n (mkRequest GET url hdr None) /\
    sleeps_of evs = replicate n 60) st.
Proof.
  induction n as [|n IH]; intros v st Hv Hempty; cbn [poll]; rewrite Hv;
    cbn [negb].
  - wp_step. split; [exists v; auto|]. rewrite Nat.add_0_r. auto.
  - destruct (not_ready_inv _ (Hempty 0%nat ltac:(lia))) as (v2 & Hloc2 & Hv2).
    rewrite Nat.add_0_r in Hloc2.
    pose proof Hloc2 as Hloc0.
    apply location_inv in Hloc2 as (resp & Hnet & Hres).
    do 6 wp_step. rewrite Hnet. do 2 wp_step. rewrite Hres.
    cbn beta iota.
    eapply wp_mono.
    { apply (IH v2 st'); [assumption|].
      intros i Hi. replace (sent st' + i)%nat with (sent st + S i)%nat by lia.
      apply Hempty. lia. }
    cbn beta.
    intros r evs st2 ((v' & -> & Hv' & Hlast) & Hthis & Hfiles & Hsent & Hreq & Hsl).
    split.
    { exists v'. split; [reflexivity|]. split; [assumption|].
      destruct n as [|n'].
      - subst v'. rewrite Nat.add_0_r. exact Hloc0.
      - replace (sent st + S n')%nat with (sent st' + n')%nat by lia.
        exact Hlast. }
    split; [congruence|]. split; [congruence|]. split; [lia|].
    split; [cbn; f_equal; exact Hreq | cbn; f_equal; exact Hsl].
Qed.

(** *** [getFileURL] *)

(** Every run: between 1 and 11 status requests when the job id and the
    token are strings, none otherwise. *)
Lemma getFileURL_spec jobId reportURL token st :
  wp (getFileURL jobId reportURL token) w (fun r evs st' =>
    this st' = this st /\ files st' = files st /\
    match as_str jobId, as_str token with
    | Ok jid, Ok tok =>
        exists m, (m <= 10)%nat /\ sent st' = (sent st + S m)%nat /\
          requests_of evs = replicate (S m) (status_request reportURL jid tok) /\
          sleeps_of evs = replicate m 60 /\
          forall v, r = Ok v ->
            (truthy v = false -> m = 10%nat) /\
            location (net w (sent st + m)%nat
                        (status_request reportURL jid tok)) = Some v
    | Ok _, Raise e | Raise e, _ =>
        r = Raise e /\ sent st' = sent st /\ evs = []
    end) st.
Proof.
  unfold getFileURL. do 2 wp_step.
  destruct (as_str jobId) as [jid|e]; [|auto].
  do 2 wp_step.
  destruct (as_str token) as [tok|e]; [|auto].
  do 2 wp_step.
  change (mkRequest GET _ _ None) with (status_request reportURL jid tok).
  destruct (net w (sent st) (status_request reportURL jid tok))
    as [resp|] eqn:Hnet.
  2:{ split; [assumption|]. split; [assumption|]. exists 0%nat.
      do 4 (split; [reflexivity || lia|]). discriminate. }
  do 2 wp_step.
  destruct (resultFileURL resp) as [v0|e] eqn:Hloc.
  2:{ split; [assumption|]. split; [assumption|]. exists 0%nat.
      do 4 (split; [reflexivity || lia|]). discriminate. }
  cbn beta iota zeta.
  eapply wp_mono; [apply poll_spec|]. cbn beta.
  intros r evs st2 (Hthis & Hfiles & m & Hm & Hsent & Hreq & Hsl & Hret).
  split; [congruence|]. split; [congruence|].
  exists m. split; [lia|]. split; [lia|].
  split; [cbn; f_equal; exact Hreq|].
  split; [exact Hsl|].
  intros v Hr. destruct (Hret v Hr) as [Hex Hlast].
  split; [exact Hex|].
  destruct m as [|m'].
  - subst v. rewrite Nat.add_0_r. unfold location. rewrite Hnet, Hloc.
    reflexivity.
  - replace (sent st + S m')%nat with (sent st' + m')%nat by lia.
    exact Hlast.
Qed.

(** [k] empty replies (at most 10) and then a non-empty location. *)
Lemma getFileURL_ready reportURL jid tok st k loc :
  (k <= 10)%nat ->
  (forall i, (i < k)%nat ->
     not_ready (net w (sent st + i)%nat (status_request reportURL jid tok))
       = true) ->
  location (net w (sent st + k)%nat (status_request reportURL jid tok))
    = Some loc ->
  truthy loc = true ->
  wp (getFileURL (JStr jid) reportURL (JStr tok)) w (fun r evs st' =>
    r = Ok loc /\ this st' = this st /\ files st' = files st /\
    sent st' = (sent st + S k)%nat /\
    requests_of evs = replicate (S k) (status_request reportURL jid tok) /\
    sleeps_of evs = replicate k 60) st.
Proof.
  intros Hk Hempty Hloc Hready.
  unfold getFileURL. cbn [as_str]. do 6 wp_step.
  change (mkRequest GET _ _ None) with (status_request reportURL jid tok).
  destruct k as [|k].
  - rewrite Nat.add_0_r in Hloc.
    apply location_inv in Hloc as (resp & Hnet & Hres).
    rewrite Hnet. do 2 wp_step. rewrite Hres. cbn beta iota zeta.
    eapply wp_run; [apply poll_truthy; assumption|].
    repeat split; try assumption; try reflexivity; lia.
  - destruct (not_ready_inv _ (Hempty 0%nat ltac:(lia))) as (v0 & Hloc0 & Hv0).
    rewrite Nat.add_0_r in Hloc0.
    apply location_inv in Hloc0 as (resp & Hnet & Hres).
    rewrite Hnet. do 2 wp_step. rewrite Hres. cbn beta iota zeta.
    eapply wp_mono.
    { apply (poll_ready jid (reportURL ++ jid) _ k 10%nat v0 st' loc);
        [lia|assumption| |  |assumption].
      - intros i Hi. replace (sent st' + i)%nat with (sent st + S i)%nat by lia.
        apply Hempty. lia.
      - replace (sent st' + k)%nat with (sent st + S k)%nat by lia.
        exact Hloc. }
    cbn beta. intros r evs st2 (-> & Hthis & Hfiles & Hsent & Hreq & Hsl).
    split; [reflexivity|]. split; [congruence|]. split; [congruence|].
    split; [lia|].
    split; [cbn; f_equal; exact Hreq | exact Hsl].
Qed.

(** Eleven empty replies: the initial check and the 10 rechecks. *)
Lemma getFileURL_exhausted reportURL jid tok st :
  (forall i, (i < 11)%nat ->
     not_ready (net w (sent st + i)%nat (status_request reportURL jid tok))
       = true) ->
  wp (getFileURL (JStr jid) reportURL (JStr tok)) w (fun r evs st' =>
    (exists v, r = Ok v /\ truthy v = false /\
       location (net w (sent st + 10)%nat
                   (status_request reportURL jid tok)) = Some v) /\
    this st' = this st /\ files st' = files st /\
    sent st' = (sent st + 11)%nat /\
    requests_of evs = replicate 11 (status_request reportURL jid tok) /\
    sleeps_of evs = replicate 10 60) st.
Proof.
  intros Hempty.
  unfold getFileURL. cbn [as_str]. do 6 wp_step.
  change (mkRequest GET _ _ None) with (status_request reportURL jid tok).
  destruct (not_ready_inv _ (Hempty 0%nat ltac:(lia))) as (v0 & Hloc0 & Hv0).
  rewrite Nat.add_0_r in Hloc0.
  apply location_inv in Hloc0 as (resp & Hnet & Hres).
  rewrite Hnet. do 2 wp_step. rewrite Hres. cbn beta iota zeta.
  eapply wp_mono.
  { apply (poll_exhausted jid (reportURL ++ jid) _ 10%nat v0 st');
      [assumption|].
    intros i Hi. replace (sent st' + i)%nat with (sent st + S i)%nat by lia.
    apply Hempty. lia. }
  cbn beta.
  intros r evs st2 ((v & -> & Hv & Hlast) & Hthis & Hfiles & Hsent & Hreq & Hsl).
  split.
  { exists v. split; [reflexivity|]. split; [assumption|].
    replace (sent st + 10)%nat with (sent st' + 9)%nat by lia. exact Hlast. }
  split; [congruence|]. split; [congruence|]. split; [lia|].
  split; [cbn; f_equal; exact Hreq | exact Hsl].
Qed.

End Methods.

(** ** The polling loop: readiness, exhaustion, termination *)

(** C1: when the status endpoint answers with an empty result location [k]
    times, [0 <= k <= 9], and then with a non-empty one, [getFileURL]
    issues exactly [k + 1] status requests, sleeps exactly [k] times, 60
    units each, and returns that location. *)
Theorem getFileURL_ready_after_k w st reportURL jid tok (k : nat) loc :
  (k <= 9)%nat ->
  (forall i, (i < k)%nat ->
     not_ready (net w (sent st + i)%nat (status_request reportURL jid tok))
       = true) ->
  location (net w (sent st + k)%nat (status_request reportURL jid tok))
    = Some loc ->
  truthy loc = true ->
  exists evs st',
    getFileURL (JStr jid) reportURL (JStr tok) w st = (Ok loc, evs, st') /\
    requests_of evs = replicate (k + 1) (status_request reportURL jid tok) /\
    sleeps_of evs = replicate k 60.
Proof.
  intros Hk Hempty Hloc Hready.
  destruct (wp_ex _ _ _ _
              (getFileURL_ready w reportURL jid tok st k loc
                 ltac:(lia) Hempty Hloc Hready))
    as (r & evs & st' & Hrun & -> & _ & _ & _ & Hreq & Hsl).
  exists evs, st'. rewrite Nat.add_1_r. auto.
Qed.

Lemma getFileURL_ready_after_k_witness :
  exists evs st',
    getFileURL (JStr (lit "J1")) Samples.jobs_url (JStr (lit "T"))
      Samples.scenario Samples.started
      = (Ok (JStr (lit "https://x/f")), evs, st') /\
    requests_of evs
      = replicate (1 + 1)
          (status_request Samples.jobs_url (lit "J1") (lit "T")) /\
    sleeps_of evs = replicate 1 60.
Proof.
  apply (getFileURL_ready_after_k Samples.scenario Samples.started
           Samples.jobs_url (lit "J1") (lit "T") 1 (JStr (lit "https://x/f"))).
  - lia.
  - intros i Hi. assert (i = 0%nat) as -> by lia. reflexivity.
  - reflexivity.
  - reflexivity.
Defined.

(** C2, as the code has it: when the status endpoint answers every request
    with an empty result location, [getFileURL] issues exactly 11 status
    requests, the initial check and 10 rechecks after a sleep of 60 each,
    and then returns the empty location of the last reply without
    raising. *)
Theorem getFileURL_always_empty w st reportURL jid tok :
  (forall i,
     not_ready (net w (sent st + i)%nat (status_request reportURL jid tok))
       = true) ->
  exists v evs st',
    getFileURL (JStr jid) reportURL (JStr tok) w st = (Ok v, evs, st') /\
    truthy v = false /\
    location (net w (sent st + 10)%nat (status_request reportURL jid tok))
      = Some v /\
    requests_of evs = replicate 11 (status_request reportURL jid tok) /\
    sleeps_of evs = replicate 10 60.
Proof.
  intros Hempty.
  destruct (wp_ex _ _ _ _
              (getFileURL_exhausted w reportURL jid tok st
                 (fun i _ => Hempty i)))
    as (r & evs & st' & Hrun & (v & -> & Hv & Hlast) & _ & _ & _ & Hreq & Hsl).
  exists v, evs, st'. auto.
Qed.

Lemma never_ready_status i :
  not_ready (net Samples.never_ready (sent Samples.started + i)%nat
               (status_request Samples.jobs_url (lit "J1") (lit "T"))) = true.
Proof. destruct i as [|[|i]]; reflexivity. Qed.

Lemma getFileURL_always_empty_witness :
  exists v evs st',
    getFileURL (JStr (lit "J1")) Samples.jobs_url (JStr (lit "T"))
      Samples.never_ready Samples.started = (Ok v, evs, st') /\
    truthy v = false /\
    location (net Samples.never_ready (sent Samples.started + 10)%nat
                (status_request Samples.jobs_url (lit "J1") (lit "T")))
      = Some v /\
    requests_of evs
      = replicate 11 (status_request Samples.jobs_url (lit "J1") (lit "T")) /\
    sleeps_of evs = replicate 10 60.
Proof.
  apply (getFileURL_always_empty Samples.never_ready Samples.started
           Samples.jobs_url (lit "J1") (lit "T")).
  intros i. destruct i as [|[|i]]; reflexivity.
Defined.

(** C2, as stated, fails: against a status endpoint that always answers
    with an empty location, no run of [getFileURL] returns after exactly 10
    status requests. *)
Lemma getFileURL_always_empty_not_10 :
  (forall i,
     not_ready (net Samples.never_ready (sent Samples.started + i)%nat
                  (status_request Samples.jobs_url (lit "J1") (lit "T")))
       = true) /\
  ~ (exists v evs st',
       getFileURL (JStr (lit "J1")) Samples.jobs_url (JStr (lit "T"))
         Samples.never_ready Samples.started = (Ok v, evs, st') /\
       truthy v = false /\
       length (requests_of evs) = 10%nat).
Proof.
  split; [exact never_ready_status|].
  intros (v & evs & st' & Hrun & _ & Hlen).
  destruct (wp_ex _ _ _ _
              (getFileURL_exhausted Samples.never_ready Samples.jobs_url
                 (lit "J1") (lit "T") Samples.started
                 (fun i _ => never_ready_status i)))
    as (r & evs2 & st2 & Hrun2 & _ & _ & _ & _ & Hreq & _).
  rewrite Hrun in Hrun2. injection Hrun2 as _ <- _.
  rewrite Hreq, length_replicate in Hlen. discriminate.
Qed.

(** C10: [getFileURL] returns on every sequence of replies, whatever its
    arguments, after at most 11 status requests and at most 10 sleeps. *)
Theorem getFileURL_terminates w st jobId reportURL token :
  exists r evs st',
    getFileURL jobId reportURL token w st = (r, evs, st') /\
    (length (requests_of evs) <= 11)%nat /\
    (length (sleeps_of evs) <= 10)%nat /\
    Forall (fun secs => secs = 60) (sleeps_of evs).
Proof.
  destruct (wp_ex _ _ _ _ (getFileURL_spec w jobId reportURL token st))
    as (r & evs & st' & Hrun & _ & _ & H).
  exists r, evs, st'. split; [exact Hrun|].
  destruct (as_str jobId) as [jid|e].
  - destruct (as_str token) as [tok|e].
    + destruct H as (m & Hm & _ & Hreq & Hsl & _).
      rewrite Hreq, Hsl, !length_replicate.
      split; [lia|]. split; [lia|].
      apply Forall_replicate. reflexivity.
    + destruct H as (_ & _ & ->). cbn. split; [lia|]. split; [lia|]. constructor.
  - destruct H as (_ & _ & ->). cbn. split; [lia|]. split; [lia|]. constructor.
Qed.

(** ** The stages on a given reply *)

Lemma state_eta st : mkState (this st) (sent st) (files st) = st.
Proof. destruct st; reflexivity. Qed.

Lemma as_str_inv v s : as_str v = Ok s -> v = JStr s.
Proof. destruct v; try discriminate. intros [= ->]. reflexivity. Qed.

Lemma getToken_run w st resp :
  net w (sent st) (token_request (this st)) = Replied resp ->
  getToken w st =
    (result_bind (raise_for_status resp) (fun _ => resp_json resp),
     [EvPrint (lit "getToken()"); EvRequest (token_request (this st))],
     mkState (this st) (S (sent st)) (files st)).
Proof.
  intros Hnet.
  unfold getToken, bind, print, emit, self, requests_post, requests_send, lift.
  cbn beta iota zeta.
  change (mkRequest POST _ _ _) with (token_request (this st)).
  rewrite Hnet.
  destruct (raise_for_status resp) as [[]|e]; reflexivity.
Qed.

Lemma startReportJob_run w st reportId reportURL tok resp :
  net w (sent st) (start_request reportURL reportId tok) = Replied resp ->
  startReportJob reportId reportURL (JStr tok) w st =
    (result_bind (raise_for_status resp) (fun _ =>
     result_bind (resp_json resp) (fun j => getitem j (lit "jobId"))),
     [EvPrint (lit "startReportJob() - url: " ++ reportURL ++ reportId);
      EvRequest (start_request reportURL reportId tok)],
     mkState (this st) (S (sent st)) (files st)).
Proof.
  intros Hnet.
  unfold startReportJob, bind, print, emit, requests_post, requests_send, lift.
  cbn beta iota zeta. cbn [as_str].
  change (mkRequest POST _ _ _) with (start_request reportURL reportId tok).
  rewrite Hnet.
  destruct (raise_for_status resp) as [[]|e]; [|reflexivity].
  cbn [result_bind]. destruct (resp_json resp) as [j|e]; reflexivity.
Qed.

Lemma downloadReport_run w st u tok resp :
  net w (sent st) (file_request u tok) = Replied resp ->
  downloadReport (JStr u) (JStr tok) w st =
    (files_file resp,
     [EvPrint (lit "downLoadReport() - url: " ++ u);
      EvRequest (file_request u tok)],
     mkState (this st) (S (sent st)) (files st)).
Proof.
  intros Hnet.
  unfold downloadReport, bind, print, emit, requests_get, requests_send, lift.
  cbn beta iota zeta. cbn [as_str].
  change (mkRequest GET _ _ _) with (file_request u tok).
  rewrite Hnet. reflexivity.
Qed.

(** ** The job starter *)

(** C8: a successful [startReportJob] has sent one request whose body asks
    for CSV output with column headers, a date suffix, deletion after 7
    days and overwriting, and it returns the [jobId] field of the reply. *)
Theorem startReportJob_body_and_result w st reportId reportURL token v evs st' :
  startReportJob reportId reportURL token w st = (Ok v, evs, st') ->
  exists tok resp j,
    token = JStr tok /\
    requests_of evs = [start_request reportURL reportId tok] /\
    req_method (start_request reportURL reportId tok) = POST /\
    req_json (start_request reportURL reportId tok)
      = Some (JObj [(lit "fileType", JStr (lit "CSV"));
                    (lit "includeHeaders", JStr (lit "true"));
                    (lit "appendDate", JStr (lit "true"));
                    (lit "deleteAfter", JStr (lit "7"));
                    (lit "overwrite", JStr (lit "true"))]) /\
    net w (sent st) (start_request reportURL reportId tok) = Replied resp /\
    resp_json resp = Ok j /\
    getitem j (lit "jobId") = Ok v.
Proof.
  intros Hrun.
  pose proof (startReportJob_spec w reportId reportURL token st) as H.
  apply (wp_run _ _ _ _ _ _ _ Hrun) in H.
  destruct H as (_ & _ & _ & H).
  destruct (as_str token) as [tok|e] eqn:Htok; [|destruct H; discriminate].
  apply as_str_inv in Htok.
  destruct H as (_ & Hreq & H).
  destruct (net w (sent st) (start_request reportURL reportId tok))
    as [resp|] eqn:Hnet; [|discriminate].
  destruct (raise_for_status resp) as [[]|e]; [|discriminate].
  cbn [result_bind] in H.
  destruct (resp_json resp) as [j|e] eqn:Hj; [|discriminate].
  cbn [result_bind] in H.
  exists tok, resp, j.
  repeat split; try reflexivity; try assumption. symmetry; exact H.
Qed.

Lemma startReportJob_body_and_result_witness :
  exists tok resp j,
    JStr (lit "T") = JStr tok /\
    requests_of
      [EvPrint (lit "startReportJob() - url: " ++ Samples.jobs_url ++ Main.reportId);
       EvRequest (start_request Samples.jobs_url Main.reportId (lit "T"))]
      = [start_request Samples.jobs_url Main.reportId tok] /\
    req_method (start_request Samples.jobs_url Main.reportId tok) = POST /\
    req_json (start_request Samples.jobs_url Main.reportId tok)
      = Some (JObj [(lit "fileType", JStr (lit "CSV"));
                    (lit "includeHeaders", JStr (lit "true"));
                    (lit "appendDate", JStr (lit "true"));
                    (lit "deleteAfter", JStr (lit "7"));
                    (lit "overwrite", JStr (lit "true"))]) /\
    net Samples.scenario 1%nat
      (start_request Samples.jobs_url Main.reportId tok) = Replied resp /\
    resp_json resp = Ok j /\
    getitem j (lit "jobId") = Ok (JStr (lit "J1")).
Proof.
  apply (startReportJob_body_and_result Samples.scenario
           (mkState Samples.report 1 ∅) Main.reportId Samples.jobs_url
           (JStr (lit "T")) (JStr (lit "J1")) _
           (mkState Samples.report 2 ∅)).
  reflexivity.
Defined.

(** ** HTTP errors *)

(** The token and job-start stages raise on a client or server error and
    send nothing more. *)
Lemma getToken_http_error w st :
  http_error (net w (sent st) (token_request (this st))) = true ->
  exists status,
    getToken w st =
      (Raise (HTTPError status),
       [EvPrint (lit "getToken()"); EvRequest (token_request (this st))],
       mkState (this st) (S (sent st)) (files st)).
Proof.
  unfold http_error.
  destruct (net w (sent st) (token_request (this st))) as [resp|] eqn:Hnet;
    [|discriminate].
  intros Herr. exists (status_code resp).
  rewrite (getToken_run w st resp Hnet).
  unfold raise_for_status. rewrite Herr. reflexivity.
Qed.

Lemma startReportJob_http_error w st reportId reportURL tok :
  http_error (net w (sent st) (start_request reportURL reportId tok)) = true ->
  exists status,
    startReportJob reportId reportURL (JStr tok) w st =
      (Raise (HTTPError status),
       [EvPrint (lit "startReportJob() - url: " ++ reportURL ++ reportId);
        EvRequest (start_request reportURL reportId tok)],
       mkState (this st) (S (sent st)) (files st)).
Proof.
  unfold http_error.
  destruct (net w (sent st) (start_request reportURL reportId tok))
    as [resp|] eqn:Hnet; [|discriminate].
  intros Herr. exists (status_code resp).
  rewrite (startReportJob_run w st reportId reportURL tok resp Hnet).
  unfold raise_for_status. rewrite Herr. reflexivity.
Qed.

(** X17: the status stage never looks at the status code: two transports
    whose replies differ in the status code only give the same run of
    [getFileURL]. *)
Lemma getFileURL_ignores_status_code :
  forall (net1 net2 : nat -> Request -> outcome) can sep enc,
  (forall n r,
     match net1 n r, net2 n r with
     | Replied r1, Replied r2 => content r1 = content r2
     | Failed, Failed => True
     | _, _ => False
     end) ->
  forall jobId reportURL token st,
    getFileURL jobId reportURL token (mkWorld net1 can sep enc) st
    = getFileURL jobId reportURL token (mkWorld net2 can sep enc) st.
Proof.
  intros net1 net2 can sep enc Hsame jobId reportURL token st.
  assert (Hsend : forall r st,
            match requests_send r (mkWorld net1 can sep enc) st,
                  requests_send r (mkWorld net2 can sep enc) st with
            | (Ok r1, e1, s1), (Ok r2, e2, s2) =>
                resultFileURL r1 = resultFileURL r2 /\ e1 = e2 /\ s1 = s2
            | (Raise x1, e1, s1), (Raise x2, e2, s2) =>
                x1 = x2 /\ e1 = e2 /\ s1 = s2
            | _, _ => False
            end).
  { intros r s. unfold requests_send. cbn [net].
    specialize (Hsame (sent s) r).
    destruct (net1 (sent s) r) as [r1|], (net2 (sent s) r) as [r2|];
      try contradiction; [|auto].
    unfold resultFileURL, resp_json. rewrite Hsame. auto. }
  assert (Hpoll : forall jid url hdr n v st,
            poll jid url hdr n v (mkWorld net1 can sep enc) st
            = poll jid url hdr n v (mkWorld net2 can sep enc) st).
  { intros jid url hdr n. induction n as [|n IH]; intros v s; cbn [poll];
      destruct (truthy v); cbn [negb]; try reflexivity.
    unfold bind, print, time_sleep, emit, requests_get, lift.
    specialize (Hsend (mkRequest GET url hdr None) s).
    destruct (requests_send _ (mkWorld net1 can sep enc) s) as [[[r1|x1] e1] s1],
             (requests_send _ (mkWorld net2 can sep enc) s) as [[[r2|x2] e2] s2];
      try contradiction.
    - destruct Hsend as (Hloc & -> & ->). rewrite Hloc.
      destruct (resultFileURL r2); [rewrite IH|]; reflexivity.
    - destruct Hsend as (-> & -> & ->). reflexivity. }
  unfold getFileURL, bind, lift, requests_get.
  destruct (as_str jobId) as [jid|]; [|reflexivity].
  destruct (as_str token) as [tok|]; [|reflexivity].
  match goal with
  | |- context [requests_send ?r _ st] => specialize (Hsend r st)
  end.
  destruct (requests_send _ (mkWorld net1 can sep enc) st) as [[[r1|x1] e1] s1],
           (requests_send _ (mkWorld net2 can sep enc) st) as [[[r2|x2] e2] s2];
    try contradiction.
  - destruct Hsend as (Hloc & -> & ->). rewrite Hloc.
    destruct (resultFileURL r2); [rewrite Hpoll|]; reflexivity.
  - destruct Hsend as (-> & -> & ->). reflexivity.
Qed.

(** The status and file stages on error statuses: the first status reply
    and the file reply of this service carry a 500 and a 404.  [getFileURL]
    does not raise on the 500 but sleeps and asks again, and
    [downloadReport] returns the payload of the 404. *)
Theorem status_and_file_errors_not_raised :
  http_error (net Samples.failing 2
                (status_request Samples.jobs_url (lit "J1") (lit "T"))) = true /\
  http_error (net Samples.failing 4
                (file_request (lit "https://x/f") (lit "T"))) = true /\
  (exists evs st',
     getFileURL (JStr (lit "J1")) Samples.jobs_url (JStr (lit "T"))
       Samples.failing Samples.started
       = (Ok (JStr (lit "https://x/f")), evs, st') /\
     requests_of evs
       = replicate 2 (status_request Samples.jobs_url (lit "J1") (lit "T")) /\
     sleeps_of evs = [60]) /\
  (exists evs st',
     downloadReport (JStr (lit "https://x/f")) (JStr (lit "T"))
       Samples.failing (mkState Samples.report 4 ∅)
       = (Ok (JStr (lit "YSxiCjEsMg==")), evs, st')).
Proof.
  split; [reflexivity|]. split; [reflexivity|]. split.
  - eexists. eexists. split; [vm_compute; reflexivity|].
    split; reflexivity.
  - eexists. eexists. vm_compute. reflexivity.
Qed.

(** C6 at a failing input: with a 500 from the status endpoint and a 404
    from the file endpoint the run is not terminated; all later stages
    execute and the output file is created. *)
Theorem getReport_completes_despite_errors :
  http_error (net Samples.failing 2
                (status_request Samples.jobs_url (lit "J1") (lit "T"))) = true /\
  http_error (net Samples.failing 4
                (file_request (lit "https://x/f") (lit "T"))) = true /\
  exists evs st',
    getReport Main.reportId Main.outfile Samples.failing Samples.fresh
      = (Ok tt, evs, st') /\
    length (requests_of evs) = 5%nat /\
    files Samples.fresh !! Main.outfile = None /\
    files st' !! Main.outfile = Some Samples.csv.
Proof.
  split; [reflexivity|]. split; [reflexivity|].
  eexists. eexists. split; [vm_compute; reflexivity|].
  split; [reflexivity|]. split; reflexivity.
Qed.

(** ** The orchestrator *)

Lemma bind_ok {A B} (m : M A) (f : A -> M B) w st a e st1 :
  m w st = (Ok a, e, st1) ->
  bind m f w st =
    match f a w st1 with
    | (r, e', st') => (r, e ++ e', st')
    end.
Proof. intros H. unfold bind. rewrite H. reflexivity. Qed.

(** Once the token is granted and the job started, [getReport] is the
    polling stage followed by the download of whatever location the
    polling returned. *)
Lemma getReport_started w st reportId target base tok jid :
  token_granted (net w (sent st) (token_request (this st))) base (JStr tok) ->
  job_started
    (net w (sent st + 1)%nat (start_request (report_jobs base) reportId tok))
    (JStr jid) ->
  getReport reportId target w st =
    match getFileURL (JStr jid) (report_jobs base) (JStr tok) w
            (mkState (this st) (sent st + 2)%nat (files st)) with
    | (Ok url, e3, st3) =>
        match download_and_save url (JStr tok) target w st3 with
        | (r, e, st') =>
            (r, started_events (this st) reportId base tok ++ e3 ++ e, st')
        end
    | (Raise x, e3, st3) =>
        (Raise x, started_events (this st) reportId base tok ++ e3, st3)
    end.
Proof.
  intros (resp & js & Hnet & Hst & Hjs & Hbase & Htok)
         (resp2 & j2 & Hnet2 & Hst2 & Hj2 & Hjid).
  unfold getReport.
  erewrite bind_ok; [|reflexivity].
  erewrite bind_ok;
    [|rewrite (getToken_run w st resp Hnet), Hst; cbn [result_bind];
      rewrite Hjs; reflexivity].
  erewrite bind_ok; [|unfold lift; rewrite Hbase; reflexivity].
  erewrite bind_ok; [|unfold lift; rewrite Htok; reflexivity].
  cbn beta iota zeta.
  change (base ++ lit "services/" ++ lit "v13.0" ++ lit "/report-jobs/")
    with (report_jobs base).
  replace (sent st + 1)%nat with (S (sent st)) in Hnet2 by lia.
  erewrite bind_ok;
    [|rewrite (startReportJob_run w (mkState (this st) (S (sent st)) (files st))
                 reportId (report_jobs base) tok resp2 Hnet2),
        Hst2; cbn [result_bind];
      rewrite Hj2; cbn [result_bind]; rewrite Hjid; reflexivity].
  cbn [this sent files].
  replace (sent st + 2)%nat with (S (S (sent st))) by lia.
  change (bind (getFileURL (JStr jid) (report_jobs base) (JStr tok)) _)
    with (bind (getFileURL (JStr jid) (report_jobs base) (JStr tok))
            (fun url => download_and_save url (JStr tok) target)).
  unfold bind at 1.
  destruct (getFileURL (JStr jid) (report_jobs base) (JStr tok) w _)
    as [[[url|x] e3] st3]; [|reflexivity].
  destruct (download_and_save url (JStr tok) target w st3) as [[r e] st'].
  reflexivity.
Qed.

(** The download stage sends exactly one request when it is given strings,
    whatever happens afterwards. *)
Lemma download_and_save_requests w st u tok target :
  requests_of (events_of (download_and_save (JStr u) (JStr tok) target w st))
    = [file_request u tok].
Proof.
  apply (wp_elim (download_and_save (JStr u) (JStr tok) target) w
           (fun _ evs _ => requests_of evs = [file_request u tok])).
  unfold download_and_save. wp_step.
  eapply wp_mono; [apply downloadReport_spec|]. cbn beta. cbn [as_str].
  intros r evs st1 (_ & _ & _ & _ & Hreq & _).
  destruct r as [b64bytes|e]; [|exact Hreq].
  do 2 wp_step. destruct (can_open w target); [|rewrite app_nil_r; exact Hreq].
  intros st2 _ _ _. do 2 wp_step.
  destruct (result_bind (base64_b64decode b64bytes) Utf8.decode) as [text|e].
  - do 2 wp_step.
    + do 3 wp_step. rewrite requests_of_app, Hreq. reflexivity.
    + rewrite requests_of_app, Hreq. reflexivity.
  - rewrite requests_of_app, Hreq. reflexivity.
Qed.

Lemma payload_inv o v :
  payload o = Some v -> exists resp, o = Replied resp /\ files_file resp = Ok v.
Proof.
  unfold payload. destruct o as [resp|]; [|discriminate].
  destruct (files_file resp) as [v'|] eqn:E; [|discriminate].
  intros [= ->]. exists resp. auto.
Qed.

(** Served the base64 form of the UTF-8 encoding of [P], the download
    stage hands [P] to the text file: the target ends up with the bytes the
    platform stores for [P], and the write raises when it has none. *)
Lemma download_and_save_ok w st u tok target P raw :
  Utf8.encode P = Ok raw ->
  payload (net w (sent st) (file_request u tok))
    = Some (JStr (Base64.b64encode raw)) ->
  can_open w target = true ->
  exists evs st',
    download_and_save (JStr u) (JStr tok) target w st
      = (match text_bytes w P with
         | Some _ => Ok tt
         | None => Raise UnicodeEncodeError
         end, evs, st') /\
    files st' !! target = Some (default [] (text_bytes w P)) /\
    (forall path, path <> target -> files st' !! path = files st !! path).
Proof.
  intros Henc Hpay Hopen.
  apply payload_inv in Hpay as (resp & Hnet & Hfile).
  assert (Htext : result_bind (base64_b64decode (JStr (Base64.b64encode raw)))
                    Utf8.decode = Ok P).
  { cbn [base64_b64decode].
    rewrite Base64Facts.b64decode_b64encode
      by (eapply Utf8Facts.encode_bytes; eassumption).
    cbn [result_bind]. apply Utf8Facts.decode_encode. assumption. }
  unfold download_and_save.
  erewrite bind_ok;
    [|rewrite (downloadReport_run w st u tok resp Hnet), Hfile; reflexivity].
  erewrite bind_ok; [|unfold file_open; rewrite Hopen; reflexivity].
  erewrite bind_ok; [|unfold lift; rewrite Htext; reflexivity].
  unfold bind, file_write, file_close, print, emit. cbn [this sent files].
  destruct (text_bytes w P) as [bs|];
    (eexists; eexists; split; [reflexivity|]; split;
     [ cbn [files default]; rewrite ?lookup_insert_eq; reflexivity
     | intros path Hpath; cbn [files];
       rewrite ?lookup_insert_ne by congruence; reflexivity ]).
Qed.

(** C9: when the token is granted, the job started and all eleven status
    replies carry an empty location, [getReport] does not stop after the
    polling: from the state the polling left, it runs the download stage on
    the empty value the polling returned; when that value is the empty
    string, a file request with an empty URL is sent. *)
Theorem getReport_downloads_empty_location w st reportId target base tok jid :
  token_granted (net w (sent st) (token_request (this st))) base (JStr tok) ->
  job_started
    (net w (sent st + 1)%nat (start_request (report_jobs base) reportId tok))
    (JStr jid) ->
  (forall i, (i < 11)%nat ->
     not_ready (net w (sent st + 2 + i)%nat
                  (status_request (report_jobs base) jid tok)) = true) ->
  exists v pre st3,
    truthy v = false /\
    location (net w (sent st + 12)%nat
                (status_request (report_jobs base) jid tok)) = Some v /\
    requests_of pre
      = token_request (this st)
        :: start_request (report_jobs base) reportId tok
        :: replicate 11 (status_request (report_jobs base) jid tok) /\
    this st3 = this st /\ files st3 = files st /\
    sent st3 = (sent st + 13)%nat /\
    getReport reportId target w st
      = match download_and_save v (JStr tok) target w st3 with
        | (r, evs, st') => (r, pre ++ evs, st')
        end /\
    (v = JStr [] ->
     requests_of (events_of (getReport reportId target w st))
       = requests_of pre ++ [file_request [] tok]).
Proof.
  intros Htok Hjob Hempty.
  destruct (wp_ex _ _ _ _
              (getFileURL_exhausted w (report_jobs base) jid tok
                 (mkState (this st) (sent st + 2)%nat (files st)) Hempty))
    as (r & e3 & st3 & Hrun & (v & -> & Hv & Hlast) & Hthis & Hfiles & Hsent
        & Hreq & _).
  cbn [this sent files] in *.
  assert (Hpre : requests_of (started_events (this st) reportId base tok ++ e3)
            = token_request (this st)
              :: start_request (report_jobs base) reportId tok
              :: replicate 11 (status_request (report_jobs base) jid tok)).
  { rewrite requests_of_app, Hreq. reflexivity. }
  assert (Hget : getReport reportId target w st
            = match download_and_save v (JStr tok) target w st3 with
              | (r, evs, st') =>
                  (r, (started_events (this st) reportId base tok ++ e3) ++ evs,
                   st')
              end).
  { rewrite (getReport_started w st reportId target base tok jid Htok Hjob), Hrun.
    destruct (download_and_save v (JStr tok) target w st3) as [[r e] st'].
    rewrite app_assoc. reflexivity. }
  exists v, (started_events (this st) reportId base tok ++ e3), st3.
  split; [exact Hv|].
  split; [replace (sent st + 12)%nat with (sent st + 2 + 10)%nat by lia;
          exact Hlast|].
  split; [exact Hpre|].
  split; [exact Hthis|]. split; [exact Hfiles|]. split; [lia|].
  split; [exact Hget|].
  intros ->. rewrite Hget.
  pose proof (download_and_save_requests w st3 [] tok target) as Hdl.
  destruct (download_and_save (JStr []) (JStr tok) target w st3) as [[r e] st'].
  unfold events_of in *. cbn [fst snd] in *.
  rewrite requests_of_app, Hdl. reflexivity.
Qed.

Lemma getReport_downloads_empty_location_witness :
  exists v pre st3,
    truthy v = false /\
    location (net Samples.never_ready (sent Samples.fresh + 12)%nat
                (status_request (report_jobs (lit "https://x/")) (lit "J1")
                   (lit "T"))) = Some v /\
    requests_of pre
      = token_request (this Samples.fresh)
        :: start_request (report_jobs (lit "https://x/")) Main.reportId (lit "T")
        :: replicate 11
             (status_request (report_jobs (lit "https://x/")) (lit "J1")
                (lit "T")) /\
    this st3 = this Samples.fresh /\ files st3 = files Samples.fresh /\
    sent st3 = (sent Samples.fresh + 13)%nat /\
    getReport Main.reportId Main.outfile Samples.never_ready Samples.fresh
      = match download_and_save v (JStr (lit "T")) Main.outfile
                Samples.never_ready st3 with
        | (r, evs, st') => (r, pre ++ evs, st')
        end /\
    (v = JStr [] ->
     requests_of
       (events_of
          (getReport Main.reportId Main.outfile Samples.never_ready
             Samples.fresh))
       = requests_of pre ++ [file_request [] (lit "T")]).
Proof.
  apply (getReport_downloads_empty_location Samples.never_ready Samples.fresh
           Main.reportId Main.outfile (lit "https://x/") (lit "T") (lit "J1")).
  - exists (mkResponse 200 (Some Samples.token_body)), Samples.token_body.
    repeat split; reflexivity.
  - exists (mkResponse 200 (Some Samples.job_body)), Samples.job_body.
    repeat split; reflexivity.
  - intros i _. reflexivity.
Defined.

(** ** Round trip of the report text *)

Lemma translate_newlines_lf text : translate_newlines [10] text = text.
Proof.
  induction text as [|ch text IH]; [reflexivity|].
  cbn [translate_newlines flat_map]. fold (translate_newlines [10] text).
  rewrite IH. destruct (ch =? 10) eqn:E; [|reflexivity].
  apply Z.eqb_eq in E. subst ch. reflexivity.
Qed.

(** When the token is granted, the job started, the location [u]
    delivered after at most 10 empty replies, and the file endpoint serves
    the base64 form of the UTF-8 encoding of a text [P], [getReport] hands
    exactly [P] to the text file.  What the file then holds is up to the
    platform: the bytes it stores for [P]; and when it has none, the write
    raises and the target stays empty. *)
Lemma getReport_served w st reportId target base tok jid (k : nat) u P raw :
  token_granted (net w (sent st) (token_request (this st))) base (JStr tok) ->
  job_started
    (net w (sent st + 1)%nat (start_request (report_jobs base) reportId tok))
    (JStr jid) ->
  (k <= 10)%nat ->
  (forall i, (i < k)%nat ->
     not_ready (net w (sent st + 2 + i)%nat
                  (status_request (report_jobs base) jid tok)) = true) ->
  location (net w (sent st + 2 + k)%nat
              (status_request (report_jobs base) jid tok)) = Some (JStr u) ->
  u <> [] ->
  Utf8.encode P = Ok raw ->
  payload (net w (sent st + 3 + k)%nat (file_request u tok))
    = Some (JStr (Base64.b64encode raw)) ->
  can_open w target = true ->
  exists evs st',
    getReport reportId target w st
      = (match text_bytes w P with
         | Some _ => Ok tt
         | None => Raise UnicodeEncodeError
         end, evs, st') /\
    files st' !! target = Some (default [] (text_bytes w P)).
Proof.
  intros Htok Hjob Hk Hempty Hloc Hu Henc Hpay Hopen.
  assert (Hready : truthy (JStr u) = true).
  { cbn [truthy]. rewrite bool_decide_eq_false_2 by assumption. reflexivity. }
  destruct (wp_ex _ _ _ _
              (getFileURL_ready w (report_jobs base) jid tok
                 (mkState (this st) (sent st + 2)%nat (files st)) k (JStr u)
                 Hk Hempty Hloc Hready))
    as (r & e3 & st3 & Hrun & -> & Hthis & Hfiles & Hsent & _).
  cbn [this sent files] in *.
  replace (sent st + 3 + k)%nat with (sent st3) in Hpay by lia.
  destruct (download_and_save_ok w st3 u tok target P raw Henc Hpay Hopen)
    as (e & st' & Hdl & Hfile & _).
  rewrite (getReport_started w st reportId target base tok jid Htok Hjob),
    Hrun, Hdl.
  eexists. eexists. split; [reflexivity | exact Hfile].
Qed.

(** C5 at two failing inputs.  The scenario of the specification on a
    platform whose line separator is CR LF: the file endpoint serves the
    base64 form of [a,b\n1,2], the run returns, and the target holds
    [a,b\r\n1,2].  And a service that serves the base64 form of the UTF-8
    encoding of the one-character text U+20AC, on a platform whose locale
    encoding is ISO-8859-1: the write raises [UnicodeEncodeError] and the
    target is left empty. *)
Theorem getReport_roundtrip_depends_on_platform :
  (Utf8.encode Samples.csv = Ok Samples.csv /\
   payload (net MoreSamples.crlf 4 (file_request (lit "https://x/f") (lit "T")))
     = Some (JStr (Base64.b64encode Samples.csv)) /\
   exists evs st',
     getReport Main.reportId Main.outfile MoreSamples.crlf Samples.fresh
       = (Ok tt, evs, st') /\
     files st' !! Main.outfile = Some (lit "a,b" ++ [13; 10] ++ lit "1,2") /\
     files st' !! Main.outfile <> Some Samples.csv) /\
  (Utf8.encode MoreSamples.euro = Ok [0xE2; 0x82; 0xAC] /\
   payload (net MoreSamples.latin1_locale 4
              (file_request (lit "https://x/f") (lit "T")))
     = Some (JStr (Base64.b64encode [0xE2; 0x82; 0xAC])) /\
   exists evs st',
     getReport Main.reportId Main.outfile MoreSamples.latin1_locale Samples.fresh
       = (Raise UnicodeEncodeError, evs, st') /\
     files st' !! Main.outfile = Some []).
Proof.
  split.
  - split; [reflexivity|]. split; [reflexivity|].
    eexists. eexists. split; [vm_compute; reflexivity|].
    split; [reflexivity | discriminate].
  - split; [reflexivity|]. split; [reflexivity|].
    eexists. eexists. split; [vm_compute; reflexivity | reflexivity].
Qed.

(** ** The shape of the requests *)

Lemma download_and_save_spec w st url token target :
  wp (download_and_save url token target) w (fun r evs st' =>
    this st' = this st /\
    match as_str url, as_str token with
    | Ok u, Ok tok => requests_of evs = [file_request u tok]
    | _, _ => requests_of evs = [] /\ r <> Ok tt
    end) st.
Proof.
  unfold download_and_save. wp_step.
  eapply wp_mono; [apply downloadReport_spec|]. cbn beta.
  intros r evs st1 (Hthis & _ & _ & H).
  destruct (as_str url) as [u|x]; [destruct (as_str token) as [tok|x]|].
  2,3: destruct H as (-> & _ & ->); split; [assumption|];
       split; [reflexivity|discriminate].
  destruct H as (_ & Hreq & _).
  destruct r as [b64bytes|x]; [|auto].
  do 2 wp_step. destruct (can_open w target); [|rewrite app_nil_r; auto].
  intros st2 Hthis2 _ _. do 2 wp_step.
  destruct (result_bind (base64_b64decode b64bytes) Utf8.decode) as [text|x].
  - do 2 wp_step.
    + do 3 wp_step.
      split; [congruence | rewrite requests_of_app, Hreq; reflexivity].
    + split; [congruence | rewrite requests_of_app, Hreq; reflexivity].
  - split; [congruence | rewrite requests_of_app, Hreq; reflexivity].
Qed.

Section CallSequence.
Context (w : World) (st : State) (reportId : list Z).

Lemma call_sequence_token r :
  r <> Ok tt -> call_sequence w st reportId r [token_request (this st)].
Proof.
  intros Hr. exists [], [], [], 1%nat, [].
  split; [lia|]. split; [cbn; lia|]. split; [eexists; reflexivity|].
  split; [intros; contradiction|]. cbn. repeat split; intros; lia.
Qed.

Context (base tok : list Z).
Hypothesis Htok :
  token_granted (net w (sent st) (token_request (this st))) base (JStr tok).

Lemma call_sequence_start r :
  r <> Ok tt ->
  call_sequence w st reportId r
    [token_request (this st); start_request (report_jobs base) reportId tok].
Proof using Htok.
  intros Hr. exists base, tok, [], 1%nat, [].
  split; [lia|]. split; [cbn; lia|]. split; [eexists; reflexivity|].
  split; [intros; contradiction|]. cbn.
  split; [intros; assumption|]. split; intros; lia.
Qed.

Context (jid : list Z).
Hypothesis Hjob :
  job_started
    (net w (sent st + 1)%nat (start_request (report_jobs base) reportId tok))
    (JStr jid).

Lemma call_sequence_poll r m :
  (m <= 10)%nat -> r <> Ok tt ->
  call_sequence w st reportId r
    (token_request (this st)
     :: start_request (report_jobs base) reportId tok
     :: replicate (S m) (status_request (report_jobs base) jid tok)).
Proof using Htok Hjob.
  intros Hm Hr. exists base, tok, jid, (S m), [].
  split; [lia|]. split; [cbn; lia|]. split; [eexists; reflexivity|].
  split; [intros; contradiction|].
  cbn [length]. rewrite length_replicate.
  split; [intros; assumption|]. split; [intros; assumption|]. intros; lia.
Qed.

Lemma call_sequence_file r m u :
  (m <= 10)%nat ->
  location (net w (sent st + 2 + m)%nat
              (status_request (report_jobs base) jid tok)) = Some (JStr u) ->
  call_sequence w st reportId r
    (token_request (this st)
     :: start_request (report_jobs base) reportId tok
     :: replicate (S m) (status_request (report_jobs base) jid tok)
     ++ [file_request u tok]).
Proof using Htok Hjob.
  intros Hm Hloc. exists base, tok, jid, (S m), u.
  split; [lia|]. split; [cbn; lia|]. split; [reflexivity|]. split; [reflexivity|].
  split; [intros; assumption|]. split; [intros; assumption|].
  intros _. replace (sent st + 1 + S m)%nat with (sent st + 2 + m)%nat by lia.
  exact Hloc.
Qed.
End CallSequence.

Lemma getReport_spec w st reportId target :
  wp (getReport reportId target) w (fun r evs st' =>
    this st' = this st /\ call_sequence w st reportId r (requests_of evs)) st.
Proof.
  unfold getReport. do 3 wp_step.
  eapply wp_mono; [apply getToken_spec|]. cbn beta.
  intros r1 e1 st1 (Hthis1 & _ & Hsent1 & Hreq1 & _ & Hr1).
  destruct r1 as [js|x].
  2:{ split; [assumption|]. rewrite requests_of_app, Hreq1.
      apply call_sequence_token. discriminate. }
  destruct (net w (sent st) (token_request (this st))) as [resp|] eqn:Hnet;
    [|discriminate].
  destruct (raise_for_status resp) as [[]|x] eqn:Hst; [|discriminate].
  cbn [result_bind] in Hr1. symmetry in Hr1.
  do 2 wp_step.
  destruct (getitem js (lit "resource_server_base_uri")) as [vb|x] eqn:Hvb.
  2:{ split; [assumption|]. rewrite !requests_of_app, Hreq1.
      apply call_sequence_token. discriminate. }
  cbn [result_bind].
  destruct (as_str vb) as [base|x] eqn:Hbase.
  2:{ split; [assumption|]. rewrite !requests_of_app, Hreq1.
      apply call_sequence_token. discriminate. }
  apply as_str_inv in Hbase. subst vb.
  do 2 wp_step.
  destruct (getitem js (lit "access_token")) as [token|x] eqn:Htoken.
  2:{ split; [assumption|]. rewrite !requests_of_app, Hreq1.
      apply call_sequence_token. discriminate. }
  wp_step.
  change (base ++ lit "services/" ++ lit "v13.0" ++ lit "/report-jobs/")
    with (report_jobs base).
  eapply wp_mono; [apply startReportJob_spec|]. cbn beta.
  intros r2 e2 st2 (Hthis2 & _ & _ & H2).
  destruct (as_str token) as [tok|x] eqn:Htok.
  2:{ destruct H2 as (-> & _ & Hreq2). split; [congruence|].
      rewrite !requests_of_app, Hreq1, Hreq2.
      apply call_sequence_token. discriminate. }
  apply as_str_inv in Htok. subst token.
  destruct H2 as (Hsent2 & Hreq2 & Hr2).
  assert (Hgranted : token_granted (net w (sent st) (token_request (this st)))
                       base (JStr tok)).
  { exists resp, js. auto. }
  destruct r2 as [jobId|x].
  2:{ split; [congruence|]. rewrite !requests_of_app, Hreq1, Hreq2.
      apply call_sequence_start; [assumption|discriminate]. }
  rewrite Hsent1 in Hr2.
  destruct (net w (S (sent st)) (start_request (report_jobs base) reportId tok))
    as [resp2|] eqn:Hnet2; [|discriminate].
  destruct (raise_for_status resp2) as [[]|x] eqn:Hst2; [|discriminate].
  cbn [result_bind] in Hr2.
  destruct (resp_json resp2) as [j2|x] eqn:Hj2; [|discriminate].
  cbn [result_bind] in Hr2. symmetry in Hr2.
  wp_step.
  eapply wp_mono; [apply getFileURL_spec|]. cbn beta.
  intros r3 e3 st3 (Hthis3 & _ & H3).
  destruct (as_str jobId) as [jid|x] eqn:Hjid.
  2:{ destruct H3 as (-> & _ & ->). split; [congruence|].
      rewrite !requests_of_app, Hreq1, Hreq2.
      apply call_sequence_start; [assumption|discriminate]. }
  apply as_str_inv in Hjid. subst jobId. cbn [as_str] in H3.
  destruct H3 as (m & Hm & Hsent3 & Hreq3 & _ & Hr3).
  assert (Hstarted : job_started
            (net w (sent st + 1)%nat
               (start_request (report_jobs base) reportId tok)) (JStr jid)).
  { rewrite Nat.add_1_r. exists resp2, j2. auto. }
  destruct r3 as [url|x].
  2:{ split; [congruence|]. rewrite !requests_of_app, Hreq1, Hreq2, Hreq3.
      apply call_sequence_poll; [assumption|assumption|assumption|discriminate]. }
  destruct (Hr3 url eq_refl) as [_ Hloc].
  replace (sent st2 + m)%nat with (sent st + 2 + m)%nat in Hloc by lia.
  change (bind (downloadReport url (JStr tok)) _)
    with (download_and_save url (JStr tok) target).
  eapply wp_mono; [apply download_and_save_spec|]. cbn beta.
  intros r4 e4 st4 (Hthis4 & H4).
  split; [congruence|].
  rewrite !requests_of_app, Hreq1, Hreq2, Hreq3.
  destruct (as_str url) as [u|x] eqn:Hu; cbn [as_str] in H4.
  - apply as_str_inv in Hu. subst url. rewrite H4.
    apply call_sequence_file; assumption.
  - destruct H4 as (-> & Hr4). rewrite app_nil_r.
    apply call_sequence_poll; assumption.
Qed.

(** ** The credential blob *)

(** C7: the object built by [__init__] holds the base64 form of
    [app@vendor:bu], from which the bytes of that text can be recovered; no method
    changes the object; and [getToken], whenever it is called on it, sends
    one request whose [Authorization] header carries that same blob. *)
Theorem authCode_fixed_at_construction app vendor bu username password me :
  __init__ app vendor bu username password = Ok me ->
  (exists raw,
     Utf8.encode (app ++ lit "@" ++ vendor ++ lit ":" ++ bu) = Ok raw /\
     authCode me = Base64.b64encode raw /\
     Base64.a2b_base64 (authCode me) = Ok raw) /\
  forall w st, this st = me ->
    requests_of (events_of (getToken w st)) = [token_request me] /\
    assoc (lit "Authorization") (req_headers (token_request me))
      = Some (HBytes (lit "basic " ++ authCode me)) /\
    this (state_of (getToken w st)) = me /\
    (forall reportId reportURL token,
       this (state_of (startReportJob reportId reportURL token w st)) = me) /\
    (forall jobId reportURL token,
       this (state_of (getFileURL jobId reportURL token w st)) = me) /\
    (forall url token,
       this (state_of (downloadReport url token w st)) = me) /\
    (forall reportId target,
       this (state_of (getReport reportId target w st)) = me /\
       exists rest,
         requests_of (events_of (getReport reportId target w st))
           = token_request me :: rest).
Proof.
  intros Hinit. split.
  - unfold __init__ in Hinit.
    destruct (Utf8.encode (app ++ lit "@" ++ vendor ++ lit ":" ++ bu))
      as [raw|x] eqn:Henc; [|discriminate].
    injection Hinit as <-. exists raw. cbn [authCode].
    split; [reflexivity|]. split; [reflexivity|].
    apply Base64Facts.a2b_b64encode.
    eapply Utf8Facts.encode_bytes; eassumption.
  - intros w st <-.
    destruct (wp_elim _ _ _ _ (getToken_spec w st))
      as (Hthis & _ & _ & Hreq & _).
    split; [exact Hreq|]. split; [reflexivity|]. split; [exact Hthis|].
    split; [intros reportId reportURL token;
            apply (wp_elim _ _ _ _
                     (startReportJob_spec w reportId reportURL token st))|].
    split; [intros jobId reportURL token;
            apply (wp_elim _ _ _ _
                     (getFileURL_spec w jobId reportURL token st))|].
    split; [intros url token;
            apply (wp_elim _ _ _ _ (downloadReport_spec w url token st))|].
    intros reportId target.
    destruct (wp_elim _ _ _ _ (getReport_spec w st reportId target))
      as (Hthis' & base & tok & jid & n & u & _ & Hlen & [k Hpre] & _).
    split; [exact Hthis'|].
    destruct (requests_of (events_of (getReport reportId target w st)))
      as [|r rest]; [cbn in Hlen; lia|].
    injection Hpre as <- _. exists rest. reflexivity.
Qed.

Lemma authCode_fixed_at_construction_witness :
  (exists raw,
     Utf8.encode (Main.app ++ lit "@" ++ Main.vendor ++ lit ":" ++ Main.bu)
       = Ok raw /\
     authCode Samples.report = Base64.b64encode raw /\
     Base64.a2b_base64 (authCode Samples.report) = Ok raw) /\
  forall w st, this st = Samples.report ->
    requests_of (events_of (getToken w st)) = [token_request Samples.report] /\
    assoc (lit "Authorization") (req_headers (token_request Samples.report))
      = Some (HBytes (lit "basic " ++ authCode Samples.report)) /\
    this (state_of (getToken w st)) = Samples.report /\
    (forall reportId reportURL token,
       this (state_of (startReportJob reportId reportURL token w st))
         = Samples.report) /\
    (forall jobId reportURL token,
       this (state_of (getFileURL jobId reportURL token w st))
         = Samples.report) /\
    (forall url token,
       this (state_of (downloadReport url token w st)) = Samples.report) /\
    (forall reportId target,
       this (state_of (getReport reportId target w st)) = Samples.report /\
       exists rest,
         requests_of (events_of (getReport reportId target w st))
           = token_request Samples.report :: rest).
Proof.
  apply (authCode_fixed_at_construction Main.app Main.vendor Main.bu
           Main.username Main.password Samples.report).
  reflexivity.
Defined.

(** ** Error statuses at the first two stages *)

Lemma bind_raise {A B} (m : M A) (f : A -> M B) w st x e st1 :
  m w st = (Raise x, e, st1) -> bind m f w st = (Raise x, e, st1).
Proof. intros H. unfold bind. rewrite H. reflexivity. Qed.

(** C3, as the code has it by design: at the token and job-start stages a
    reply with a client or server error status (400 to 599) makes the
    operation raise [HTTPError] after that single request; and in every run
    of [getReport] the token, start and file requests are sent at most
    once, the status request being the only one that is repeated. *)
Theorem http_error_raises_without_retry w st reportId reportURL tok target :
  (http_error (net w (sent st) (token_request (this st))) = true ->
   exists status evs st',
     getToken w st = (Raise (HTTPError status), evs, st') /\
     requests_of evs = [token_request (this st)] /\
     sleeps_of evs = []) /\
  (http_error (net w (sent st) (start_request reportURL reportId tok)) = true ->
   exists status evs st',
     startReportJob reportId reportURL (JStr tok) w st
       = (Raise (HTTPError status), evs, st') /\
     requests_of evs = [start_request reportURL reportId tok] /\
     sleeps_of evs = []) /\
  (exists base tok' jid (n : nat) u,
     requests_of (events_of (getReport reportId target w st)) `prefix_of`
       (token_request (this st)
        :: start_request (report_jobs base) reportId tok'
        :: replicate n (status_request (report_jobs base) jid tok')
        ++ [file_request u tok'])).
Proof.
  split; [|split].
  - intros Herr. destruct (getToken_http_error w st Herr) as [status Hrun].
    exists status. eexists. eexists. split; [exact Hrun|]. split; reflexivity.
  - intros Herr.
    destruct (startReportJob_http_error w st reportId reportURL tok Herr)
      as [status Hrun].
    exists status. eexists. eexists. split; [exact Hrun|]. split; reflexivity.
  - destruct (wp_elim _ _ _ _ (getReport_spec w st reportId target))
      as (_ & base & tok' & jid & n & u & _ & _ & Hpre & _).
    exists base, tok', jid, n, u. exact Hpre.
Qed.

Lemma http_error_raises_without_retry_witness :
  (exists status evs st',
     getToken Samples.unauthorized Samples.fresh
       = (Raise (HTTPError status), evs, st') /\
     requests_of evs = [token_request (this Samples.fresh)] /\
     sleeps_of evs = []) /\
  (exists status evs st',
     startReportJob Main.reportId Samples.jobs_url (JStr (lit "T"))
       Samples.unauthorized Samples.fresh
       = (Raise (HTTPError status), evs, st') /\
     requests_of evs
       = [start_request Samples.jobs_url Main.reportId (lit "T")] /\
     sleeps_of evs = []).
Proof.
  destruct (http_error_raises_without_retry Samples.unauthorized Samples.fresh
              Main.reportId Samples.jobs_url (lit "T") Main.outfile)
    as (Htoken & Hstart & _).
  split; [apply Htoken | apply Hstart]; reflexivity.
Defined.

(** C3, as stated, fails already at the token stage: a reply with status
    300 is not in the 2xx range, yet [getToken] returns its body. *)
Lemma getToken_returns_on_status_300 :
  (exists resp,
     net Samples.redirecting (sent Samples.fresh)
       (token_request (this Samples.fresh)) = Replied resp /\
     ~ (200 <= status_code resp < 300)) /\
  ~ (exists x evs st',
       getToken Samples.redirecting Samples.fresh = (Raise x, evs, st')).
Proof.
  split.
  - eexists. split; [reflexivity|]. cbn. lia.
  - intros (x & evs & st' & Hrun). vm_compute in Hrun. discriminate.
Qed.

(** A run of [getReport] stopped by an error status at the token or at the
    start stage sends nothing further and leaves the files alone. *)
Lemma getReport_token_error w st reportId target :
  http_error (net w (sent st) (token_request (this st))) = true ->
  exists status evs st',
    getReport reportId target w st = (Raise (HTTPError status), evs, st') /\
    requests_of evs = [token_request (this st)] /\
    files st' = files st.
Proof.
  intros Herr. destruct (getToken_http_error w st Herr) as [status Hrun].
  exists status. eexists. eexists.
  unfold getReport.
  erewrite bind_ok; [|reflexivity].
  erewrite bind_raise; [|exact Hrun].
  split; [reflexivity|]. split; reflexivity.
Qed.

Lemma getReport_start_error w st reportId target base tok :
  token_granted (net w (sent st) (token_request (this st))) base (JStr tok) ->
  http_error (net w (sent st + 1)%nat
                (start_request (report_jobs base) reportId tok)) = true ->
  exists status evs st',
    getReport reportId target w st = (Raise (HTTPError status), evs, st') /\
    requests_of evs
      = [token_request (this st);
         start_request (report_jobs base) reportId tok] /\
    files st' = files st.
Proof.
  intros (resp & js & Hnet & Hst & Hjs & Hbase & Htok) Herr.
  rewrite Nat.add_1_r in Herr.
  destruct (startReportJob_http_error w
              (mkState (this st) (S (sent st)) (files st))
              reportId (report_jobs base) tok Herr) as [status Hrun].
  exists status. eexists. eexists.
  unfold getReport.
  erewrite bind_ok; [|reflexivity].
  erewrite bind_ok;
    [|rewrite (getToken_run w st resp Hnet), Hst; cbn [result_bind];
      rewrite Hjs; reflexivity].
  erewrite bind_ok; [|unfold lift; rewrite Hbase; reflexivity].
  erewrite bind_ok; [|unfold lift; rewrite Htok; reflexivity].
  cbn beta iota zeta.
  change (base ++ lit "services/" ++ lit "v13.0" ++ lit "/report-jobs/")
    with (report_jobs base).
  erewrite bind_raise; [|exact Hrun].
  split; [reflexivity|]. split; reflexivity.
Qed.

(** * Further properties of the code *)

(** ** The polling loop, event by event *)

Lemma requests_of_recheck_events jid req n m :
  requests_of (recheck_events jid req n m) = replicate m req.
Proof.
  revert n. induction m as [|m IH]; intros n; [reflexivity|].
  cbn [recheck_events replicate]. rewrite <- (IH (pred n)). reflexivity.
Qed.

Lemma sleeps_of_recheck_events jid req n m :
  sleeps_of (recheck_events jid req n m) = replicate m 60.
Proof.
  revert n. induction m as [|m IH]; intros n; [reflexivity|].
  cbn [recheck_events replicate]. rewrite <- (IH (pred n)). reflexivity.
Qed.

(** What a run of the loop tells about the replies it saw: the rechecks
    before the last one found an empty location, a returned value is the
    location of the last reply, and an exception means the last reply
    carried none. *)
Lemma poll_trace w jid url hdr n :
  forall v st,
  wp (poll jid url hdr n v) w (fun r evs st' =>
    exists m, (m <= n)%nat /\ sent st' = (sent st + m)%nat /\
      evs = recheck_events jid (mkRequest GET url hdr None) n m /\
      (forall i, (S i < m)%nat ->
         not_ready (net w (sent st + i)%nat (mkRequest GET url hdr None))
           = true) /\
      ((0 < m)%nat -> truthy v = false) /\
      match r with
      | Ok v' =>
          (truthy v' = false -> m = n) /\
          match m with
          | O => v' = v
          | S m' =>
              location (net w (sent st + m')%nat (mkRequest GET url hdr None))
                = Some v'
          end
      | Raise _ =>
          exists m', m = S m' /\
            location (net w (sent st + m')%nat (mkRequest GET url hdr None))
              = None
      end) st.
Proof.
  induction n as [|n IH]; intros v st; cbn [poll].
  - destruct (truthy v); cbn [negb]; wp_step;
      exists 0%nat; rewrite Nat.add_0_r;
      do 3 (split; [reflexivity || lia|]);
      (split; [intros; lia|]); (split; [intros; lia|]); auto.
  - destruct (truthy v) eqn:Hv; cbn [negb].
    { wp_step. exists 0%nat. rewrite Nat.add_0_r.
      do 3 (split; [reflexivity || lia|]).
      split; [intros; lia|]. split; [intros; lia|].
      split; [congruence | reflexivity]. }
    do 6 wp_step.
    destruct (net w (sent st) (mkRequest GET url hdr None)) as [resp|] eqn:Hnet.
    2:{ exists 1%nat. do 3 (split; [reflexivity || lia|]).
        split; [intros; lia|]. split; [intros; reflexivity|].
        exists 0%nat. rewrite Nat.add_0_r. unfold location. rewrite Hnet. auto. }
    do 2 wp_step.
    destruct (resultFileURL resp) as [v2|e] eqn:Hloc.
    2:{ exists 1%nat. do 3 (split; [reflexivity || lia|]).
        split; [intros; lia|]. split; [intros; reflexivity|].
        exists 0%nat. rewrite Nat.add_0_r. unfold location.
        rewrite Hnet, Hloc. auto. }
    assert (Hloc0 : location (net w (sent st) (mkRequest GET url hdr None))
                    = Some v2).
    { unfold location. rewrite Hnet, Hloc. reflexivity. }
    eapply wp_mono; [apply IH|]. cbn beta.
    intros r evs st2 (m & Hm & Hsent & Hevs & Hbefore & Hpos & Hr).
    exists (S m). split; [lia|]. split; [lia|].
    split; [cbn [recheck_events app pred]; rewrite Hevs; reflexivity|].
    split.
    { intros i Hi. destruct i as [|i].
      - rewrite Nat.add_0_r. unfold not_ready. rewrite Hloc0.
        rewrite Hpos by lia. reflexivity.
      - replace (sent st + S i)%nat with (sent st' + i)%nat by lia.
        apply Hbefore. lia. }
    split; [intros; reflexivity|].
    destruct r as [v'|x].
    + destruct Hr as [Hex Hlast]. split; [intros Hf; f_equal; auto|].
      destruct m as [|m'].
      * subst v'. rewrite Nat.add_0_r. exact Hloc0.
      * replace (sent st + S m')%nat with (sent st' + m')%nat by lia.
        exact Hlast.
    + destruct Hr as (m' & -> & Hnone). exists (S m'). split; [reflexivity|].
      replace (sent st + S m')%nat with (sent st' + m')%nat by lia.
      exact Hnone.
Qed.

(** [getFileURL] on strings, event by event and reply by reply. *)
Lemma getFileURL_full w st reportURL jid tok :
  wp (getFileURL (JStr jid) reportURL (JStr tok)) w (fun r evs st' =>
    exists m, (m <= 10)%nat /\ sent st' = (sent st + S m)%nat /\
      evs = EvRequest (status_request reportURL jid tok)
            :: recheck_events jid (status_request reportURL jid tok) 10 m /\
      (forall i, (i < m)%nat ->
         not_ready (net w (sent st + i)%nat
                      (status_request reportURL jid tok)) = true) /\
      match r with
      | Ok v =>
          (truthy v = false -> m = 10%nat) /\
          location (net w (sent st + m)%nat
                      (status_request reportURL jid tok)) = Some v
      | Raise _ =>
          location (net w (sent st + m)%nat
                      (status_request reportURL jid tok)) = None
      end) st.
Proof.
  unfold getFileURL. cbn [as_str]. do 6 wp_step.
  change (mkRequest GET _ _ None) with (status_request reportURL jid tok).
  destruct (net w (sent st) (status_request reportURL jid tok))
    as [resp|] eqn:Hnet.
  2:{ exists 0%nat. rewrite Nat.add_0_r. do 3 (split; [reflexivity || lia|]).
      split; [intros; lia|]. unfold location. rewrite Hnet. reflexivity. }
  do 2 wp_step.
  destruct (resultFileURL resp) as [v0|e] eqn:Hloc.
  2:{ exists 0%nat. rewrite Nat.add_0_r. do 3 (split; [reflexivity || lia|]).
      split; [intros; lia|]. unfold location. rewrite Hnet, Hloc. reflexivity. }
  assert (Hloc0 : location (net w (sent st) (status_request reportURL jid tok))
                  = Some v0).
  { unfold location. rewrite Hnet, Hloc. reflexivity. }
  cbn beta iota zeta.
  eapply wp_mono; [apply poll_trace|]. cbn beta.
  intros r evs st2 (m & Hm & Hsent & Hevs & Hbefore & Hpos & Hr).
  exists m. split; [lia|]. split; [lia|].
  split; [rewrite Hevs; reflexivity|].
  split.
  { intros i Hi. destruct i as [|i].
    - rewrite Nat.add_0_r. unfold not_ready. rewrite Hloc0.
      rewrite Hpos by lia. reflexivity.
    - replace (sent st + S i)%nat with (sent st' + i)%nat by lia.
      apply Hbefore. lia. }
  destruct r as [v|x].
  - destruct Hr as [Hex Hlast]. split; [exact Hex|].
    destruct m as [|m'].
    + subst v. rewrite Nat.add_0_r. exact Hloc0.
    + replace (sent st + S m')%nat with (sent st' + m')%nat by lia.
      exact Hlast.
  - destruct Hr as (m' & -> & Hnone).
    replace (sent st + S m')%nat with (sent st' + m')%nat by lia.
    exact Hnone.
Qed.

(** X1: the location may arrive as late as the eleventh reply: after ten
    empty replies a non-empty location is still returned, after exactly 11
    status requests and 10 sleeps of 60. *)
Theorem getFileURL_ready_at_last_recheck w st reportURL jid tok loc :
  (forall i, (i < 10)%nat ->
     not_ready (net w (sent st + i)%nat (status_request reportURL jid tok))
       = true) ->
  location (net w (sent st + 10)%nat (status_request reportURL jid tok))
    = Some loc ->
  truthy loc = true ->
  exists evs st',
    getFileURL (JStr jid) reportURL (JStr tok) w st = (Ok loc, evs, st') /\
    requests_of evs = replicate 11 (status_request reportURL jid tok) /\
    sleeps_of evs = replicate 10 60.
Proof.
  intros Hempty Hloc Hready.
  destruct (wp_ex _ _ _ _
              (getFileURL_ready w reportURL jid tok st 10 loc
                 ltac:(lia) Hempty Hloc Hready))
    as (r & evs & st' & Hrun & -> & _ & _ & _ & Hreq & Hsl).
  exists evs, st'. auto.
Qed.

Lemma getFileURL_ready_at_last_recheck_witness :
  exists evs st',
    getFileURL (JStr (lit "J1")) Samples.jobs_url (JStr (lit "T"))
      MoreSamples.slow Samples.started
      = (Ok (JStr (lit "https://x/f")), evs, st') /\
    requests_of evs
      = replicate 11 (status_request Samples.jobs_url (lit "J1") (lit "T")) /\
    sleeps_of evs = replicate 10 60.
Proof.
  apply (getFileURL_ready_at_last_recheck MoreSamples.slow Samples.started
           Samples.jobs_url (lit "J1") (lit "T") (JStr (lit "https://x/f"))).
  - intros i Hi.
    do 10 (destruct i as [|i]; [reflexivity|]). lia.
  - reflexivity.
  - reflexivity.
Defined.

(** X2: whatever [getFileURL] returns is the result location of the last
    reply it received; every earlier reply carried an empty location; and
    an empty value is returned only by the eleventh reply. *)
Theorem getFileURL_returns_last_location w st reportURL jid tok v evs st' :
  getFileURL (JStr jid) reportURL (JStr tok) w st = (Ok v, evs, st') ->
  exists m : nat,
    (m <= 10)%nat /\
    requests_of evs = replicate (S m) (status_request reportURL jid tok) /\
    sleeps_of evs = replicate m 60 /\
    (forall i, (i < m)%nat ->
       not_ready (net w (sent st + i)%nat (status_request reportURL jid tok))
         = true) /\
    location (net w (sent st + m)%nat (status_request reportURL jid tok))
      = Some v /\
    (truthy v = false -> m = 10%nat).
Proof.
  intros Hrun.
  pose proof (getFileURL_full w st reportURL jid tok) as H.
  apply (wp_run _ _ _ _ _ _ _ Hrun) in H.
  destruct H as (m & Hm & _ & -> & Hbefore & Hex & Hlast).
  exists m. split; [exact Hm|].
  split; [cbn; f_equal; apply requests_of_recheck_events|].
  split; [apply (sleeps_of_recheck_events jid _ 10 m)|]. auto.
Qed.

Lemma getFileURL_returns_last_location_witness :
  exists m : nat,
    (m <= 10)%nat /\
    requests_of
      (events_of
         (getFileURL (JStr (lit "J1")) Samples.jobs_url (JStr (lit "T"))
            Samples.scenario Samples.started))
      = replicate (S m) (status_request Samples.jobs_url (lit "J1") (lit "T")) /\
    sleeps_of
      (events_of
         (getFileURL (JStr (lit "J1")) Samples.jobs_url (JStr (lit "T"))
            Samples.scenario Samples.started))
      = replicate m 60 /\
    (forall i, (i < m)%nat ->
       not_ready (net Samples.scenario (sent Samples.started + i)%nat
                    (status_request Samples.jobs_url (lit "J1") (lit "T")))
         = true) /\
    location (net Samples.scenario (sent Samples.started + m)%nat
                (status_request Samples.jobs_url (lit "J1") (lit "T")))
      = Some (JStr (lit "https://x/f")) /\
    (truthy (JStr (lit "https://x/f")) = false -> m = 10%nat).
Proof.
  apply (getFileURL_returns_last_location Samples.scenario Samples.started
           Samples.jobs_url (lit "J1") (lit "T") (JStr (lit "https://x/f"))
           _ (state_of (getFileURL (JStr (lit "J1")) Samples.jobs_url
                          (JStr (lit "T")) Samples.scenario Samples.started))).
  vm_compute. reflexivity.
Defined.

(** X3: the events of every run of [getFileURL] on strings are the first
    status request followed by at most 10 rechecks, each made of the line
    showing the counter (10, 9, ...), one sleep of 60 and one status
    request: no two requests without a sleep in between, and no sleep
    after the last request. *)
Theorem getFileURL_trace w st reportURL jid tok :
  exists m : nat,
    (m <= 10)%nat /\
    events_of (getFileURL (JStr jid) reportURL (JStr tok) w st)
      = EvRequest (status_request reportURL jid tok)
        :: recheck_events jid (status_request reportURL jid tok) 10 m.
Proof.
  destruct (wp_elim _ _ _ _ (getFileURL_full w st reportURL jid tok))
    as (m & Hm & _ & Hevs & _).
  exists m. auto.
Qed.

(** X4: a reply that carries no result location at all (the transport
    failed, the body is not JSON, a key is missing) ends the polling at
    once: after [j] empty replies and such a reply, [getFileURL] raises
    having sent [j + 1] requests and slept [j] times. *)
Theorem getFileURL_stops_at_bad_reply w st reportURL jid tok (j : nat) :
  (j <= 10)%nat ->
  (forall i, (i < j)%nat ->
     not_ready (net w (sent st + i)%nat (status_request reportURL jid tok))
       = true) ->
  location (net w (sent st + j)%nat (status_request reportURL jid tok))
    = None ->
  exists x evs st',
    getFileURL (JStr jid) reportURL (JStr tok) w st = (Raise x, evs, st') /\
    requests_of evs = replicate (j + 1) (status_request reportURL jid tok) /\
    sleeps_of evs = replicate j 60.
Proof.
  intros Hj Hempty Hnone.
  destruct (wp_ex _ _ _ _ (getFileURL_full w st reportURL jid tok))
    as (r & evs & st' & Hrun & m & Hm & _ & -> & Hbefore & Hr).
  assert (m = j) as ->.
  { destruct (Nat.lt_trichotomy m j) as [Hlt|[Heq|Hgt]]; [|exact Heq|].
    - destruct (not_ready_inv _ (Hempty m Hlt)) as (v & Hv & Hfalse).
      destruct r as [v'|x].
      + destruct Hr as [Hex Hlast]. rewrite Hv in Hlast.
        injection Hlast as <-. specialize (Hex Hfalse). lia.
      + congruence.
    - destruct (not_ready_inv _ (Hbefore j Hgt)) as (v & Hv & _).
      congruence. }
  destruct r as [v|x]; [destruct Hr; congruence|].
  exists x. eexists. eexists. split; [exact Hrun|].
  rewrite Nat.add_1_r.
  split; [cbn; f_equal; apply requests_of_recheck_events|].
  apply (sleeps_of_recheck_events jid _ 10 j).
Qed.

Lemma getFileURL_stops_at_bad_reply_witness :
  exists x evs st',
    getFileURL (JStr (lit "J1")) Samples.jobs_url (JStr (lit "T"))
      MoreSamples.breaks_off Samples.started = (Raise x, evs, st') /\
    requests_of evs
      = replicate (1 + 1) (status_request Samples.jobs_url (lit "J1") (lit "T")) /\
    sleeps_of evs = replicate 1 60.
Proof.
  apply (getFileURL_stops_at_bad_reply MoreSamples.breaks_off Samples.started
           Samples.jobs_url (lit "J1") (lit "T") 1).
  - lia.
  - intros i Hi. assert (i = 0%nat) as -> by lia. reflexivity.
  - reflexivity.
Defined.

(** ** The orchestrator at its edges *)

Lemma state_ext st st' :
  this st' = this st -> sent st' = sent st -> files st' = files st -> st' = st.
Proof. destruct st, st'. cbn. intros -> -> ->. reflexivity. Qed.

(** With the token granted, the job started and a non-empty location [u]
    delivered after [k] empty replies, [getReport] is the download stage on
    [u], run after [k + 3] requests and [k] sleeps. *)
Lemma getReport_reaches_download w st reportId target base tok jid (k : nat) u :
  token_granted (net w (sent st) (token_request (this st))) base (JStr tok) ->
  job_started
    (net w (sent st + 1)%nat (start_request (report_jobs base) reportId tok))
    (JStr jid) ->
  (k <= 10)%nat ->
  (forall i, (i < k)%nat ->
     not_ready (net w (sent st + 2 + i)%nat
                  (status_request (report_jobs base) jid tok)) = true) ->
  location (net w (sent st + 2 + k)%nat
              (status_request (report_jobs base) jid tok)) = Some (JStr u) ->
  u <> [] ->
  exists pre,
    requests_of pre
      = token_request (this st)
        :: start_request (report_jobs base) reportId tok
        :: replicate (S k) (status_request (report_jobs base) jid tok) /\
    sleeps_of pre = replicate k 60 /\
    getReport reportId target w st
      = match download_and_save (JStr u) (JStr tok) target w
                (mkState (this st) (sent st + 3 + k)%nat (files st)) with
        | (r, e, st') => (r, pre ++ e, st')
        end.
Proof.
  intros Htok Hjob Hk Hempty Hloc Hu.
  assert (Hready : truthy (JStr u) = true).
  { cbn [truthy]. rewrite bool_decide_eq_false_2 by assumption. reflexivity. }
  destruct (wp_ex _ _ _ _
              (getFileURL_ready w (report_jobs base) jid tok
                 (mkState (this st) (sent st + 2)%nat (files st)) k (JStr u)
                 Hk Hempty Hloc Hready))
    as (r & e3 & st3 & Hrun & -> & Hthis & Hfiles & Hsent & Hreq & Hsl).
  cbn [this sent files] in *.
  assert (st3 = mkState (this st) (sent st + 3 + k)%nat (files st)) as ->.
  { apply state_ext; cbn [this sent files]; [assumption|lia|assumption]. }
  exists (started_events (this st) reportId base tok ++ e3).
  split; [rewrite requests_of_app, Hreq; reflexivity|].
  split; [rewrite sleeps_of_app, Hsl; reflexivity|].
  rewrite (getReport_started w st reportId target base tok jid Htok Hjob), Hrun.
  destruct (download_and_save _ _ _ _ _) as [[r e] st'].
  rewrite app_assoc. reflexivity.
Qed.

Lemma download_and_save_decode_failure w st u tok target v x :
  payload (net w (sent st) (file_request u tok)) = Some v ->
  can_open w target = true ->
  result_bind (base64_b64decode v) Utf8.decode = Raise x ->
  download_and_save (JStr u) (JStr tok) target w st
    = (Raise x,
       [EvPrint (lit "downLoadReport() - url: " ++ u);
        EvRequest (file_request u tok); EvOpen target],
       mkState (this st) (S (sent st)) (<[target := []]> (files st))).
Proof.
  intros Hpay Hopen Hdec.
  apply payload_inv in Hpay as (resp & Hnet & Hfile).
  unfold download_and_save.
  erewrite bind_ok;
    [|rewrite (downloadReport_run w st u tok resp Hnet), Hfile; reflexivity].
  erewrite bind_ok; [|unfold file_open; rewrite Hopen; reflexivity].
  erewrite bind_raise; [|unfold lift; rewrite Hdec; reflexivity].
  reflexivity.
Qed.

Lemma download_and_save_unwritable w st u tok target v :
  payload (net w (sent st) (file_request u tok)) = Some v ->
  can_open w target = false ->
  download_and_save (JStr u) (JStr tok) target w st
    = (Raise OSError,
       [EvPrint (lit "downLoadReport() - url: " ++ u);
        EvRequest (file_request u tok)],
       mkState (this st) (S (sent st)) (files st)).
Proof.
  intros Hpay Hopen.
  apply payload_inv in Hpay as (resp & Hnet & Hfile).
  unfold download_and_save.
  erewrite bind_ok;
    [|rewrite (downloadReport_run w st u tok resp Hnet), Hfile; reflexivity].
  erewrite bind_raise; [|unfold file_open; rewrite Hopen; reflexivity].
  reflexivity.
Qed.

(** X5: the target is opened before the payload is decoded: when the file
    reply carries a payload that is not base64 text of UTF-8 text, the run
    raises the decoding error and leaves the target file empty, whatever
    it held before. *)
Theorem getReport_decode_failure_truncates
  w st reportId target base tok jid (k : nat) u v x :
  token_granted (net w (sent st) (token_request (this st))) base (JStr tok) ->
  job_started
    (net w (sent st + 1)%nat (start_request (report_jobs base) reportId tok))
    (JStr jid) ->
  (k <= 10)%nat ->
  (forall i, (i < k)%nat ->
     not_ready (net w (sent st + 2 + i)%nat
                  (status_request (report_jobs base) jid tok)) = true) ->
  location (net w (sent st + 2 + k)%nat
              (status_request (report_jobs base) jid tok)) = Some (JStr u) ->
  u <> [] ->
  payload (net w (sent st + 3 + k)%nat (file_request u tok)) = Some v ->
  result_bind (base64_b64decode v) Utf8.decode = Raise x ->
  can_open w target = true ->
  exists evs st',
    getReport reportId target w st = (Raise x, evs, st') /\
    files st' !! target = Some [] /\
    (forall path, path <> target -> files st' !! path = files st !! path).
Proof.
  intros Htok Hjob Hk Hempty Hloc Hu Hpay Hdec Hopen.
  destruct (getReport_reaches_download w st reportId target base tok jid k u
              Htok Hjob Hk Hempty Hloc Hu) as (pre & _ & _ & ->).
  rewrite (download_and_save_decode_failure w
             (mkState (this st) (sent st + 3 + k)%nat (files st))
             u tok target v x Hpay Hopen Hdec).
  eexists. eexists. split; [reflexivity|]. cbn [files]. split.
  - apply lookup_insert_eq.
  - intros path Hpath. apply lookup_insert_ne. congruence.
Qed.

Lemma getReport_decode_failure_truncates_witness :
  exists evs st',
    getReport Main.reportId Main.outfile MoreSamples.garbled MoreSamples.stale
      = (Raise BinasciiError, evs, st') /\
    files st' !! Main.outfile = Some [] /\
    (forall path, path <> Main.outfile ->
       files st' !! path = files MoreSamples.stale !! path).
Proof.
  apply (getReport_decode_failure_truncates MoreSamples.garbled
           MoreSamples.stale Main.reportId Main.outfile (lit "https://x/")
           (lit "T") (lit "J1") 1 (lit "https://x/f") (JStr (lit "Y"))).
  - exists (mkResponse 200 (Some Samples.token_body)), Samples.token_body.
    repeat split; reflexivity.
  - exists (mkResponse 200 (Some Samples.job_body)), Samples.job_body.
    repeat split; reflexivity.
  - lia.
  - intros i Hi. assert (i = 0%nat) as -> by lia. reflexivity.
  - reflexivity.
  - discriminate.
  - reflexivity.
  - reflexivity.
  - reflexivity.
Defined.

(** X6: when the target cannot be opened, the run raises [OSError] only
    after the report was requested and fetched, and no file is changed. *)
Theorem getReport_unwritable_target
  w st reportId target base tok jid (k : nat) u v :
  token_granted (net w (sent st) (token_request (this st))) base (JStr tok) ->
  job_started
    (net w (sent st + 1)%nat (start_request (report_jobs base) reportId tok))
    (JStr jid) ->
  (k <= 10)%nat ->
  (forall i, (i < k)%nat ->
     not_ready (net w (sent st + 2 + i)%nat
                  (status_request (report_jobs base) jid tok)) = true) ->
  location (net w (sent st + 2 + k)%nat
              (status_request (report_jobs base) jid tok)) = Some (JStr u) ->
  u <> [] ->
  payload (net w (sent st + 3 + k)%nat (file_request u tok)) = Some v ->
  can_open w target = false ->
  exists evs st',
    getReport reportId target w st = (Raise OSError, evs, st') /\
    requests_of evs
      = token_request (this st)
        :: start_request (report_jobs base) reportId tok
        :: replicate (S k) (status_request (report_jobs base) jid tok)
        ++ [file_request u tok] /\
    files st' = files st.
Proof.
  intros Htok Hjob Hk Hempty Hloc Hu Hpay Hopen.
  destruct (getReport_reaches_download w st reportId target base tok jid k u
              Htok Hjob Hk Hempty Hloc Hu) as (pre & Hpre & _ & ->).
  rewrite (download_and_save_unwritable w
             (mkState (this st) (sent st + 3 + k)%nat (files st))
             u tok target v Hpay Hopen).
  eexists. eexists. split; [reflexivity|]. split; [|reflexivity].
  rewrite requests_of_app, Hpre. reflexivity.
Qed.

Lemma getReport_unwritable_target_witness :
  exists evs st',
    getReport Main.reportId Main.outfile MoreSamples.read_only Samples.fresh
      = (Raise OSError, evs, st') /\
    requests_of evs
      = token_request (this Samples.fresh)
        :: start_request (report_jobs (lit "https://x/")) Main.reportId (lit "T")
        :: replicate 2
             (status_request (report_jobs (lit "https://x/")) (lit "J1")
                (lit "T"))
        ++ [file_request (lit "https://x/f") (lit "T")] /\
    files st' = files Samples.fresh.
Proof.
  apply (getReport_unwritable_target MoreSamples.read_only Samples.fresh
           Main.reportId Main.outfile (lit "https://x/") (lit "T") (lit "J1")
           1 (lit "https://x/f") (JStr (lit "YSxiCjEsMg=="))).
  - exists (mkResponse 200 (Some Samples.token_body)), Samples.token_body.
    repeat split; reflexivity.
  - exists (mkResponse 200 (Some Samples.job_body)), Samples.job_body.
    repeat split; reflexivity.
  - lia.
  - intros i Hi. assert (i = 0%nat) as -> by lia. reflexivity.
  - reflexivity.
  - discriminate.
  - reflexivity.
  - reflexivity.
Defined.

Lemma getitem_raise obj key x :
  getitem obj key = Raise x -> x = KeyError \/ x = TypeError.
Proof.
  destruct obj; cbn [getitem]; try (intros [= <-]; auto).
  destruct (assoc key kv); [discriminate | intros [= <-]; auto].
Qed.

Lemma as_str_raise v x : as_str v = Raise x -> x = TypeError.
Proof. destruct v; cbn [as_str]; congruence. Qed.

Lemma as_str_not_string v :
  (forall s, v <> JStr s) -> as_str v = Raise TypeError.
Proof. intros H. destruct v; try reflexivity. destruct (H s eq_refl). Qed.

Lemma startReportJob_type_error w st reportId reportURL token :
  (forall s, token <> JStr s) ->
  startReportJob reportId reportURL token w st
    = (Raise TypeError,
       [EvPrint (lit "startReportJob() - url: " ++ reportURL ++ reportId)],
       st).
Proof.
  intros H. unfold startReportJob.
  erewrite bind_ok; [|reflexivity].
  erewrite bind_raise; [|unfold lift; rewrite (as_str_not_string _ H); reflexivity].
  reflexivity.
Qed.

Lemma getFileURL_type_error w st jobId reportURL token :
  (forall s, jobId <> JStr s) ->
  getFileURL jobId reportURL token w st = (Raise TypeError, [], st).
Proof.
  intros H. unfold getFileURL.
  erewrite bind_raise; [|unfold lift; rewrite (as_str_not_string _ H); reflexivity].
  reflexivity.
Qed.

Lemma download_and_save_type_error w st url token target :
  (forall s, url <> JStr s) ->
  download_and_save url token target w st = (Raise TypeError, [], st).
Proof.
  intros H. unfold download_and_save, downloadReport.
  erewrite bind_raise; [reflexivity|].
  erewrite bind_raise; [|unfold lift; rewrite (as_str_not_string _ H); reflexivity].
  reflexivity.
Qed.

(** X7: a token reply that does not deliver both a base URI string and a
    token string stops the run with [KeyError] or [TypeError] after the
    token request alone; no file is changed. *)
Theorem getReport_unusable_token_reply w st reportId target resp js :
  net w (sent st) (token_request (this st)) = Replied resp ->
  raise_for_status resp = Ok tt ->
  resp_json resp = Ok js ->
  (forall base, getitem js (lit "resource_server_base_uri") <> Ok (JStr base))
  \/ (forall tok, getitem js (lit "access_token") <> Ok (JStr tok)) ->
  exists x evs st',
    getReport reportId target w st = (Raise x, evs, st') /\
    (x = KeyError \/ x = TypeError) /\
    requests_of evs = [token_request (this st)] /\
    files st' = files st.
Proof.
  intros Hnet Hst Hjs Hbad.
  unfold getReport.
  erewrite bind_ok; [|reflexivity].
  erewrite bind_ok;
    [|rewrite (getToken_run w st resp Hnet), Hst; cbn [result_bind];
      rewrite Hjs; reflexivity].
  destruct (getitem js (lit "resource_server_base_uri")) as [vb|x] eqn:Hvb.
  2:{ erewrite bind_raise; [|unfold lift; cbn [result_bind]; reflexivity].
      exists x. eexists. eexists. split; [reflexivity|].
      split; [eapply getitem_raise; eassumption|]. split; reflexivity. }
  destruct (as_str vb) as [base|x] eqn:Hbase.
  2:{ erewrite bind_raise;
        [|unfold lift; cbn [result_bind]; rewrite Hbase; reflexivity].
      exists x. eexists. eexists. split; [reflexivity|].
      split; [right; eapply as_str_raise; eassumption|]. split; reflexivity. }
  apply as_str_inv in Hbase. subst vb.
  erewrite bind_ok; [|unfold lift; cbn [result_bind as_str]; reflexivity].
  destruct (getitem js (lit "access_token")) as [token|x] eqn:Htoken.
  2:{ erewrite bind_raise; [|unfold lift; reflexivity].
      exists x. eexists. eexists. split; [reflexivity|].
      split; [eapply getitem_raise; eassumption|]. split; reflexivity. }
  erewrite bind_ok; [|unfold lift; reflexivity].
  cbn beta iota zeta.
  assert (Htok : forall s, token <> JStr s).
  { intros s ->. destruct Hbad as [Hb|Ht]; [apply (Hb base)|apply (Ht s)];
      reflexivity. }
  erewrite bind_raise; [|apply startReportJob_type_error; exact Htok].
  exists TypeError. eexists. eexists. split; [reflexivity|].
  split; [auto|]. split; reflexivity.
Qed.

Lemma getReport_unusable_token_reply_witness :
  exists x evs st',
    getReport Main.reportId Main.outfile MoreSamples.no_base_uri Samples.fresh
      = (Raise x, evs, st') /\
    (x = KeyError \/ x = TypeError) /\
    requests_of evs = [token_request (this Samples.fresh)] /\
    files st' = files Samples.fresh.
Proof.
  apply (getReport_unusable_token_reply MoreSamples.no_base_uri Samples.fresh
           Main.reportId Main.outfile
           (mkResponse 200 (Some (JObj [(lit "access_token", JStr (lit "T"))])))
           (JObj [(lit "access_token", JStr (lit "T"))])).
  - reflexivity.
  - reflexivity.
  - reflexivity.
  - left. intros base. discriminate.
Defined.

(** With the token granted and any job id delivered, [getReport] is the
    polling stage on that job id followed by the download. *)
Lemma getReport_started_any w st reportId target base tok jobId :
  token_granted (net w (sent st) (token_request (this st))) base (JStr tok) ->
  job_started
    (net w (sent st + 1)%nat (start_request (report_jobs base) reportId tok))
    jobId ->
  getReport reportId target w st =
    match getFileURL jobId (report_jobs base) (JStr tok) w
            (mkState (this st) (sent st + 2)%nat (files st)) with
    | (Ok url, e3, st3) =>
        match download_and_save url (JStr tok) target w st3 with
        | (r, e, st') =>
            (r, started_events (this st) reportId base tok ++ e3 ++ e, st')
        end
    | (Raise x, e3, st3) =>
        (Raise x, started_events (this st) reportId base tok ++ e3, st3)
    end.
Proof.
  intros (resp & js & Hnet & Hst & Hjs & Hbase & Htok)
         (resp2 & j2 & Hnet2 & Hst2 & Hj2 & Hjid).
  unfold getReport.
  erewrite bind_ok; [|reflexivity].
  erewrite bind_ok;
    [|rewrite (getToken_run w st resp Hnet), Hst; cbn [result_bind];
      rewrite Hjs; reflexivity].
  erewrite bind_ok; [|unfold lift; rewrite Hbase; reflexivity].
  erewrite bind_ok; [|unfold lift; rewrite Htok; reflexivity].
  cbn beta iota zeta.
  change (base ++ lit "services/" ++ lit "v13.0" ++ lit "/report-jobs/")
    with (report_jobs base).
  replace (sent st + 1)%nat with (S (sent st)) in Hnet2 by lia.
  erewrite bind_ok;
    [|rewrite (startReportJob_run w (mkState (this st) (S (sent st)) (files st))
                 reportId (report_jobs base) tok resp2 Hnet2),
        Hst2; cbn [result_bind];
      rewrite Hj2; cbn [result_bind]; rewrite Hjid; reflexivity].
  cbn [this sent files].
  replace (sent st + 2)%nat with (S (S (sent st))) by lia.
  change (bind (getFileURL jobId (report_jobs base) (JStr tok)) _)
    with (bind (getFileURL jobId (report_jobs base) (JStr tok))
            (fun url => download_and_save url (JStr tok) target)).
  unfold bind at 1.
  destruct (getFileURL jobId (report_jobs base) (JStr tok) w _)
    as [[[url|x] e3] st3]; [|reflexivity].
  destruct (download_and_save url (JStr tok) target w st3) as [[r e] st'].
  reflexivity.
Qed.

(** X8: a job id that is not a string (a number, say) stops the run with
    [TypeError] right after the job was started: two requests, no status
    check, no sleep, no file changed. *)
Theorem getReport_non_string_jobId w st reportId target base tok jobId :
  token_granted (net w (sent st) (token_request (this st))) base (JStr tok) ->
  job_started
    (net w (sent st + 1)%nat (start_request (report_jobs base) reportId tok))
    jobId ->
  (forall s, jobId <> JStr s) ->
  exists evs st',
    getReport reportId target w st = (Raise TypeError, evs, st') /\
    requests_of evs
      = [token_request (this st);
         start_request (report_jobs base) reportId tok] /\
    sleeps_of evs = [] /\
    files st' = files st.
Proof.
  intros Htok Hjob Hns.
  rewrite (getReport_started_any w st reportId target base tok jobId Htok Hjob).
  rewrite (getFileURL_type_error w _ jobId (report_jobs base) (JStr tok) Hns).
  eexists. eexists. split; [reflexivity|]. repeat split.
Qed.

Lemma getReport_non_string_jobId_witness :
  exists evs st',
    getReport Main.reportId Main.outfile MoreSamples.numeric_job Samples.fresh
      = (Raise TypeError, evs, st') /\
    requests_of evs
      = [token_request (this Samples.fresh);
         start_request (report_jobs (lit "https://x/")) Main.reportId (lit "T")] /\
    sleeps_of evs = [] /\
    files st' = files Samples.fresh.
Proof.
  apply (getReport_non_string_jobId MoreSamples.numeric_job Samples.fresh
           Main.reportId Main.outfile (lit "https://x/") (lit "T") (JNum 17)).
  - exists (mkResponse 200 (Some Samples.token_body)), Samples.token_body.
    repeat split; reflexivity.
  - exists (mkResponse 200 (Some (JObj [(lit "jobId", JNum 17)]))),
      (JObj [(lit "jobId", JNum 17)]).
    repeat split; reflexivity.
  - intros s. discriminate.
Defined.

(** X9: when the job never finishes and the status replies carry a
    location that is empty and not a string ([null], say), the run ends
    in [TypeError] after the 11 status checks, without a file request and
    without touching any file. *)
Theorem getReport_exhausted_without_string w st reportId target base tok jid v :
  token_granted (net w (sent st) (token_request (this st))) base (JStr tok) ->
  job_started
    (net w (sent st + 1)%nat (start_request (report_jobs base) reportId tok))
    (JStr jid) ->
  (forall i, (i < 11)%nat ->
     not_ready (net w (sent st + 2 + i)%nat
                  (status_request (report_jobs base) jid tok)) = true) ->
  location (net w (sent st + 12)%nat
              (status_request (report_jobs base) jid tok)) = Some v ->
  (forall s, v <> JStr s) ->
  exists evs st',
    getReport reportId target w st = (Raise TypeError, evs, st') /\
    requests_of evs
      = token_request (this st)
        :: start_request (report_jobs base) reportId tok
        :: replicate 11 (status_request (report_jobs base) jid tok) /\
    sleeps_of evs = replicate 10 60 /\
    files st' = files st.
Proof.
  intros Htok Hjob Hempty Hlast Hns.
  destruct (wp_ex _ _ _ _
              (getFileURL_exhausted w (report_jobs base) jid tok
                 (mkState (this st) (sent st + 2)%nat (files st)) Hempty))
    as (r & e3 & st3 & Hrun & (v' & -> & _ & Hlast') & _ & Hfiles & _
        & Hreq & Hsl).
  cbn [this sent files] in *.
  replace (sent st + 2 + 10)%nat with (sent st + 12)%nat in Hlast' by lia.
  rewrite Hlast in Hlast'. injection Hlast' as <-.
  rewrite (getReport_started w st reportId target base tok jid Htok Hjob), Hrun.
  rewrite (download_and_save_type_error w st3 v (JStr tok) target Hns).
  eexists. eexists. split; [reflexivity|].
  rewrite app_nil_r, requests_of_app, sleeps_of_app, Hreq, Hsl.
  split; [reflexivity|]. split; [reflexivity | exact Hfiles].
Qed.

Lemma getReport_exhausted_without_string_witness :
  exists evs st',
    getReport Main.reportId Main.outfile MoreSamples.null_location Samples.fresh
      = (Raise TypeError, evs, st') /\
    requests_of evs
      = token_request (this Samples.fresh)
        :: start_request (report_jobs (lit "https://x/")) Main.reportId (lit "T")
        :: replicate 11
             (status_request (report_jobs (lit "https://x/")) (lit "J1")
                (lit "T")) /\
    sleeps_of evs = replicate 10 60 /\
    files st' = files Samples.fresh.
Proof.
  apply (getReport_exhausted_without_string MoreSamples.null_location
           Samples.fresh Main.reportId Main.outfile (lit "https://x/")
           (lit "T") (lit "J1") JNull).
  - exists (mkResponse 200 (Some Samples.token_body)), Samples.token_body.
    repeat split; reflexivity.
  - exists (mkResponse 200 (Some Samples.job_body)), Samples.job_body.
    repeat split; reflexivity.
  - intros i _. reflexivity.
  - reflexivity.
  - intros s. discriminate.
Defined.

(** ** The stages of a run *)

(** Every run of [getReport] is in one of the five cases of [stages]. *)
Lemma getReport_stages w st reportId target :
  wp (getReport reportId target) w (fun r evs _ =>
    stages w st reportId r (requests_of evs)) st.
Proof.
  unfold getReport. do 3 wp_step.
  eapply wp_mono; [apply getToken_spec|]. cbn beta.
  intros r1 e1 st1 (Hthis1 & _ & Hsent1 & Hreq1 & _ & Hr1).
  destruct r1 as [js|x].
  2:{ rewrite requests_of_app, Hreq1. apply stopped_at_token; [|discriminate].
      intros base tok (resp & js & Hn & Hs & Hj & _).
      rewrite Hn, Hs in Hr1. cbn [result_bind] in Hr1. congruence. }
  destruct (net w (sent st) (token_request (this st))) as [resp|] eqn:Hnet;
    [|discriminate].
  destruct (raise_for_status resp) as [[]|x] eqn:Hst; [|discriminate].
  cbn [result_bind] in Hr1. symmetry in Hr1.
  assert (Hgr : forall base tok,
            token_granted (net w (sent st) (token_request (this st)))
              base (JStr tok) ->
            getitem js (lit "resource_server_base_uri") = Ok (JStr base) /\
            getitem js (lit "access_token") = Ok (JStr tok)).
  { intros base tok (resp0 & js0 & Hn & _ & Hj & Hb & Ht).
    rewrite Hnet in Hn. injection Hn as <-.
    rewrite Hr1 in Hj. injection Hj as <-. auto. }
  do 2 wp_step.
  destruct (getitem js (lit "resource_server_base_uri")) as [vb|x] eqn:Hvb.
  2:{ rewrite !requests_of_app, Hreq1. apply stopped_at_token; [|discriminate].
      intros base tok Hg. destruct (Hgr base tok Hg). congruence. }
  cbn [result_bind].
  destruct (as_str vb) as [base|x] eqn:Hbase.
  2:{ rewrite !requests_of_app, Hreq1. apply stopped_at_token; [|discriminate].
      intros base tok Hg. destruct (Hgr base tok Hg) as [[= ->] _].
      discriminate. }
  apply as_str_inv in Hbase. subst vb.
  do 2 wp_step.
  destruct (getitem js (lit "access_token")) as [token|x] eqn:Htoken.
  2:{ rewrite !requests_of_app, Hreq1. apply stopped_at_token; [|discriminate].
      intros base0 tok Hg. destruct (Hgr base0 tok Hg). congruence. }
  wp_step.
  change (base ++ lit "services/" ++ lit "v13.0" ++ lit "/report-jobs/")
    with (report_jobs base).
  eapply wp_mono; [apply startReportJob_spec|]. cbn beta.
  intros r2 e2 st2 (Hthis2 & _ & _ & H2).
  destruct (as_str token) as [tok|x] eqn:Htok.
  2:{ destruct H2 as (-> & _ & Hreq2).
      rewrite !requests_of_app, Hreq1, Hreq2.
      apply stopped_at_token; [|discriminate].
      intros base0 tok Hg. destruct (Hgr base0 tok Hg) as [_ [= ->]].
      discriminate. }
  apply as_str_inv in Htok. subst token.
  destruct H2 as (Hsent2 & Hreq2 & Hr2).
  assert (Hgranted : token_granted (net w (sent st) (token_request (this st)))
                       base (JStr tok)).
  { exists resp, js. auto. }
  rewrite Hsent1, <- Nat.add_1_r in Hr2.
  assert (Hjs : forall jid,
            job_started
              (net w (sent st + 1)%nat
                 (start_request (report_jobs base) reportId tok)) (JStr jid) ->
            r2 = Ok (JStr jid)).
  { intros jid (resp0 & j0 & Hn & Hs & Hj & Hid).
    rewrite Hn, Hs in Hr2. cbn [result_bind] in Hr2.
    rewrite Hj in Hr2. cbn [result_bind] in Hr2. congruence. }
  destruct r2 as [jobId|x].
  2:{ rewrite !requests_of_app, Hreq1, Hreq2.
      apply (stopped_at_start _ _ _ _ base tok); [assumption| |discriminate].
      intros jid Hj. discriminate (Hjs jid Hj). }
  destruct (net w (sent st + 1)%nat
              (start_request (report_jobs base) reportId tok))
    as [resp2|] eqn:Hnet2; [|discriminate].
  destruct (raise_for_status resp2) as [[]|x] eqn:Hst2; [|discriminate].
  cbn [result_bind] in Hr2.
  destruct (resp_json resp2) as [j2|x] eqn:Hj2; [|discriminate].
  cbn [result_bind] in Hr2. symmetry in Hr2.
  wp_step.
  destruct (as_str jobId) as [jid|x] eqn:Hjid.
  2:{ eapply wp_mono; [apply getFileURL_spec|]. cbn beta.
      intros r3 e3 st3 (_ & _ & H3). rewrite Hjid in H3.
      destruct H3 as (-> & _ & ->).
      rewrite !requests_of_app, Hreq1, Hreq2.
      apply (stopped_at_start _ _ _ _ base tok); [assumption| |discriminate].
      intros jid Hj. rewrite Hnet2 in Hj. specialize (Hjs jid Hj).
      injection Hjs as ->. discriminate. }
  apply as_str_inv in Hjid. subst jobId.
  assert (Hstarted : job_started
            (net w (sent st + 1)%nat
               (start_request (report_jobs base) reportId tok)) (JStr jid)).
  { rewrite Hnet2. exists resp2, j2. auto. }
  eapply wp_mono; [apply getFileURL_full|]. cbn beta.
  intros r3 e3 st3 (m & Hm & Hsent3 & He3 & Hbefore & Hr3).
  assert (Hfirst : sent st2 = (sent st + 2)%nat) by lia.
  rewrite Hfirst in *.
  assert (Hreq3 : requests_of e3
            = replicate (S m) (status_request (report_jobs base) jid tok)).
  { rewrite He3.
    change (requests_of (EvRequest ?r :: ?l)) with (r :: requests_of l).
    rewrite requests_of_recheck_events. reflexivity. }
  assert (Hpoll : forall loc,
            location (net w (sent st + 2 + m)%nat
                        (status_request (report_jobs base) jid tok)) = loc ->
            (forall v, loc = Some v -> truthy v = true \/ m = 10%nat) ->
            polling_ended w (sent st + 2)
              (status_request (report_jobs base) jid tok) m loc).
  { intros loc Hloc Hex. split; [exact Hm|]. split; [exact Hbefore|].
    split; assumption. }
  destruct r3 as [url|x].
  2:{ rewrite !requests_of_app, Hreq1, Hreq2, Hreq3.
      apply (stopped_at_polling _ _ _ _ base tok jid m);
        [assumption|assumption| |discriminate].
      apply Hpoll; [exact Hr3 | intros v; discriminate]. }
  destruct Hr3 as [Hex Hloc].
  assert (Hended : polling_ended w (sent st + 2)
                     (status_request (report_jobs base) jid tok) m (Some url)).
  { apply Hpoll; [exact Hloc|]. intros v [= <-].
    destruct (truthy url); [left; reflexivity | right; apply Hex; reflexivity]. }
  change (bind (downloadReport url (JStr tok)) _)
    with (download_and_save url (JStr tok) target).
  destruct (as_str url) as [u|x] eqn:Hu.
  - apply as_str_inv in Hu. subst url.
    eapply wp_mono; [apply download_and_save_spec|]. cbn beta.
    intros r4 e4 st4 (_ & H4). cbn [as_str] in H4.
    rewrite !requests_of_app, Hreq1, Hreq2, Hreq3, H4.
    apply (downloaded _ _ _ _ base tok jid m u); assumption.
  - assert (Hns : forall u, url <> JStr u) by (intros u ->; discriminate).
    unfold wp.
    rewrite (download_and_save_type_error w st3 url (JStr tok) target Hns).
    rewrite !requests_of_app, Hreq1, Hreq2, Hreq3, !app_nil_r.
    apply (stopped_before_download _ _ _ base tok jid m url); assumption.
Qed.

(** A reply delivers one thing only, and a polling ends in one way only:
    the replies leave [stages] no choice of the requests. *)
Lemma token_granted_inj o base tok base' tok' :
  token_granted o base tok -> token_granted o base' tok' ->
  base = base' /\ tok = tok'.
Proof.
  intros (resp & js & -> & _ & Hjs & Hb & Ht)
         (resp' & js' & [= <-] & _ & Hjs' & Hb' & Ht').
  rewrite Hjs in Hjs'. injection Hjs' as <-.
  rewrite Hb in Hb'. rewrite Ht in Ht'. split; congruence.
Qed.

Lemma job_started_inj o jobId jobId' :
  job_started o jobId -> job_started o jobId' -> jobId = jobId'.
Proof.
  intros (resp & j & -> & _ & Hj & Hid) (resp' & j' & [= <-] & _ & Hj' & Hid').
  rewrite Hj in Hj'. injection Hj' as <-. congruence.
Qed.

Lemma polling_ended_inj w first req m loc m' loc' :
  polling_ended w first req m loc -> polling_ended w first req m' loc' ->
  m = m' /\ loc = loc'.
Proof.
  assert (Hlt : forall m loc m' loc',
            polling_ended w first req m loc ->
            polling_ended w first req m' loc' -> ~ (m < m')%nat).
  { clear. intros m loc m' loc' (Hm & _ & Hloc & Hex) (Hm' & Hbefore & _) Hlt.
    destruct (not_ready_inv _ (Hbefore m Hlt)) as (v & Hv & Hempty).
    rewrite Hv in Hloc. destruct (Hex v (eq_sym Hloc)) as [Ht|Heq]; [|lia].
    congruence. }
  intros H H'.
  assert (m = m') as <-.
  { pose proof (Hlt _ _ _ _ H H'). pose proof (Hlt _ _ _ _ H' H). lia. }
  split; [reflexivity|].
  destruct H as (_ & _ & <- & _), H' as (_ & _ & <- & _). reflexivity.
Qed.

Ltac same_reply :=
  match goal with
  | Hg : token_granted ?o ?b (JStr ?t), Hg' : token_granted ?o ?b' (JStr ?t')
    |- _ =>
      let E := fresh in
      destruct (token_granted_inj _ _ _ _ _ Hg Hg') as [? E];
      injection E as ?; subst b' t'; clear Hg'
  | Hj : job_started ?o (JStr ?j), Hj' : job_started ?o (JStr ?j') |- _ =>
      let E := fresh in
      pose proof (job_started_inj _ _ _ Hj Hj') as E;
      injection E as ?; subst j'; clear Hj'
  | Hp : polling_ended ?w ?f ?q ?m _, Hp' : polling_ended ?w ?f ?q ?m' _ |- _ =>
      let E := fresh in
      destruct (polling_ended_inj _ _ _ _ _ _ _ Hp Hp') as [? E];
      subst m'; clear Hp'; try discriminate E; try (injection E as E)
  end.

Lemma stages_deterministic w st reportId r reqs r' reqs' :
  stages w st reportId r reqs -> stages w st reportId r' reqs' -> reqs = reqs'.
Proof.
  intros H H'.
  destruct H as [r Hn Hr|r base tok Hg Hn Hr|r base tok jid m Hg Hj Hp Hr
                |base tok jid m v Hg Hj Hp Hns|r base tok jid m u Hg Hj Hp];
  destruct H' as [r' Hn' Hr'|r' base' tok' Hg' Hn' Hr'
                 |r' base' tok' jid' m' Hg' Hj' Hp' Hr'
                 |base' tok' jid' m' v' Hg' Hj' Hp' Hns'
                 |r' base' tok' jid' m' u' Hg' Hj' Hp'];
  try reflexivity;
  try (exfalso; eapply Hn; eassumption);
  try (exfalso; eapply Hn'; eassumption);
  same_reply;
  try reflexivity;
  try (exfalso; eapply Hn; eassumption);
  try (exfalso; eapply Hn'; eassumption);
  same_reply; same_reply;
  try reflexivity.
  all: repeat match goal with
       | E : ?a = ?b |- _ => first [is_var b; subst b | is_var a; subst a]
       | Hns : forall u, JStr ?x <> JStr u |- _ => destruct (Hns x eq_refl)
       end; reflexivity.
Qed.

(** C4: the requests of every run of [getReport] are the token request,
    the start request, between 1 and 11 status requests and the file
    request, in this order and cut off where the run stopped; no stage is
    skipped and none is entered early: the start request is there exactly
    when the token reply delivered a base URI and a token, the status
    requests exactly when the start reply delivered a job id, and the file
    request exactly when the polling ended with a location that is a
    string, which is not empty unless all 10 rechecks were used.  The
    replies admit no other list of requests than the one the run sent, and
    a run that returns has sent them all. *)
Theorem getReport_call_sequence w st reportId target :
  let run := getReport reportId target w st in
  stages w st reportId (outcome_of run) (requests_of (events_of run)) /\
  (forall r reqs,
     stages w st reportId r reqs -> reqs = requests_of (events_of run)) /\
  (outcome_of run = Ok tt ->
   exists base tok jid (m : nat) u,
     (m <= 10)%nat /\
     requests_of (events_of run)
       = token_request (this st)
         :: start_request (report_jobs base) reportId tok
         :: replicate (S m) (status_request (report_jobs base) jid tok)
         ++ [file_request u tok]).
Proof.
  cbn zeta.
  pose proof (wp_elim _ _ _ _ (getReport_stages w st reportId target)) as H.
  cbn beta in H. split; [exact H|].
  split; [intros r reqs Hs; exact (stages_deterministic _ _ _ _ _ _ _ Hs H)|].
  intros Hok. rewrite Hok in H.
  inversion H as [r Hn Hr|r base tok Hg Hn Hr|r base tok jid m Hg Hj Hp Hr
                 |base tok jid m v Hg Hj Hp Hns|r base tok jid m u Hg Hj Hp];
    try (exfalso; apply Hr; reflexivity).
  exists base, tok, jid, m, u. split; [apply Hp | reflexivity].
Qed.

Lemma getReport_call_sequence_witness :
  (let run := getReport Main.reportId Main.outfile Samples.scenario Samples.fresh in
   stages Samples.scenario Samples.fresh Main.reportId
     (outcome_of run) (requests_of (events_of run)) /\
   (forall r reqs,
      stages Samples.scenario Samples.fresh Main.reportId r reqs ->
      reqs = requests_of (events_of run)) /\
   (outcome_of run = Ok tt ->
    exists base tok jid (m : nat) u,
      (m <= 10)%nat /\
      requests_of (events_of run)
        = token_request (this Samples.fresh)
          :: start_request (report_jobs base) Main.reportId tok
          :: replicate (S m) (status_request (report_jobs base) jid tok)
          ++ [file_request u tok])) /\
  outcome_of (getReport Main.reportId Main.outfile Samples.scenario Samples.fresh)
    = Ok tt /\
  requests_of
    (events_of (getReport Main.reportId Main.outfile Samples.scenario Samples.fresh))
    = token_request Samples.report
      :: start_request Samples.jobs_url Main.reportId (lit "T")
      :: replicate 2 (status_request Samples.jobs_url (lit "J1") (lit "T"))
      ++ [file_request (lit "https://x/f") (lit "T")].
Proof.
  split; [apply (getReport_call_sequence Samples.scenario Samples.fresh
                   Main.reportId Main.outfile)|].
  split; reflexivity.
Defined.

(** C4, as stated, fails: where the job never finishes, no reply to a
    status request ever carries a location that is not empty, and yet the
    run goes on to the download and sends a file request, without a URL. *)
Lemma getReport_downloads_without_location :
  (forall n v,
     location (net Samples.never_ready n
                 (status_request Samples.jobs_url (lit "J1") (lit "T")))
       = Some v -> truthy v = false) /\
  requests_of
    (events_of (getReport Main.reportId Main.outfile Samples.never_ready
                  Samples.fresh))
    = token_request Samples.report
      :: start_request Samples.jobs_url Main.reportId (lit "T")
      :: replicate 11 (status_request Samples.jobs_url (lit "J1") (lit "T"))
      ++ [file_request [] (lit "T")].
Proof.
  split; [|vm_compute; reflexivity].
  intros n v. unfold location, Samples.never_ready. cbn [net].
  destruct n as [|[|n]]; cbn; intros [= <-]; reflexivity.
Qed.

(** ** What a run does to the files and how long it can take *)

Lemma same_except_refl target st : same_except target st st.
Proof. intros path _. reflexivity. Qed.

Lemma same_except_files target st st' :
  files st' = files st -> same_except target st st'.
Proof. intros H path _. rewrite H. reflexivity. Qed.

(** The download stage: it never sleeps, touches the target only, touches
    it only once a payload has arrived, and when it succeeds the target
    holds the bytes of the decoded payload. *)
Lemma download_and_save_effects w st url token target :
  wp (download_and_save url token target) w (fun r evs st' =>
    sleeps_of evs = [] /\
    same_except target st st' /\
    (files st' = files st \/
     exists u tok v,
       requests_of evs = [file_request u tok] /\
       payload (net w (sent st) (file_request u tok)) = Some v /\
       can_open w target = true) /\
    (r = Ok tt ->
     exists u tok v text bs,
       requests_of evs = [file_request u tok] /\
       payload (net w (sent st) (file_request u tok)) = Some v /\
       result_bind (base64_b64decode v) Utf8.decode = Ok text /\
       text_bytes w text = Some bs /\
       files st' !! target = Some bs)) st.
Proof.
  unfold download_and_save. wp_step.
  eapply wp_mono; [apply downloadReport_spec|]. cbn beta.
  intros r evs st1 (_ & Hfiles1 & Hsl1 & H).
  destruct r as [v|x].
  2:{ split; [exact Hsl1|]. split; [apply same_except_files; assumption|].
      split; [left; assumption | discriminate]. }
  destruct (as_str url) as [u|x]; [|destruct H; discriminate].
  destruct (as_str token) as [tok|x]; [|destruct H; discriminate].
  destruct H as (_ & Hreq & Hr).
  assert (Hpay : payload (net w (sent st) (file_request u tok)) = Some v).
  { unfold payload.
    destruct (net w (sent st) (file_request u tok)) as [resp|];
      [|discriminate].
    rewrite <- Hr. reflexivity. }
  do 2 wp_step. destruct (can_open w target) eqn:Hopen.
  2:{ rewrite app_nil_r. split; [exact Hsl1|].
      split; [apply same_except_files; assumption|].
      split; [left; assumption | discriminate]. }
  intros st2 _ _ Hfiles2. do 2 wp_step.
  destruct (result_bind (base64_b64decode v) Utf8.decode) as [text|x] eqn:Hdec.
  - do 2 wp_step.
    2:{ split; [rewrite sleeps_of_app, Hsl1; reflexivity|].
        split.
        { intros path Hpath.
          rewrite Hfiles2, lookup_insert_ne, Hfiles1 by congruence.
          reflexivity. }
        split; [|discriminate].
        right. exists u, tok, v.
        split; [rewrite requests_of_app, Hreq; reflexivity | auto]. }
    rename H into Hbs, H2 into Hfiles3. do 3 wp_step.
    split; [rewrite sleeps_of_app, Hsl1; reflexivity|].
    assert (Hreq' : requests_of
              (evs ++ [EvOpen target] ++ [] ++ [EvWrite target text]
               ++ [EvClose target] ++ [EvPrint (lit "Job Complete")])
              = [file_request u tok]).
    { rewrite requests_of_app, Hreq. reflexivity. }
    split.
    { intros path Hpath.
      rewrite Hfiles3, lookup_insert_ne, Hfiles2, lookup_insert_ne, Hfiles1
        by congruence. reflexivity. }
    split; [right; exists u, tok, v; auto|].
    intros _. exists u, tok, v, text, bs.
    split; [exact Hreq'|]. split; [exact Hpay|]. split; [exact Hdec|].
    split; [exact Hbs|].
    rewrite Hfiles3, lookup_insert_eq, Hfiles2, lookup_insert_eq. reflexivity.
  - split; [rewrite sleeps_of_app, Hsl1; reflexivity|].
    split.
    { intros path Hpath.
      rewrite Hfiles2, lookup_insert_ne, Hfiles1 by congruence. reflexivity. }
    split; [|discriminate].
    right. exists u, tok, v.
    split; [rewrite requests_of_app, Hreq; reflexivity | auto].
Qed.

Lemma report_effects_abort w st target (r : result unit) evs st' (m : nat) :
  (m <= 10)%nat -> sleeps_of evs = replicate m 60 ->
  files st' = files st -> r <> Ok tt ->
  report_effects w st target r evs st'.
Proof.
  intros Hm Hsl Hfiles Hr.
  split; [exists m; auto|]. split; [apply same_except_files; assumption|].
  split; [left; assumption | intros; contradiction].
Qed.

Lemma getReport_effects w st reportId target :
  wp (getReport reportId target) w (report_effects w st target) st.
Proof.
  unfold getReport. do 3 wp_step.
  eapply wp_mono; [apply getToken_spec|]. cbn beta.
  intros r1 e1 st1 (_ & Hfiles1 & Hsent1 & Hreq1 & Hsl1 & _).
  destruct r1 as [js|x].
  2:{ apply (report_effects_abort _ _ _ _ _ _ 0);
        [lia|rewrite sleeps_of_app, Hsl1; reflexivity|assumption|discriminate]. }
  do 2 wp_step.
  destruct (result_bind (getitem js (lit "resource_server_base_uri")) as_str)
    as [base|x].
  2:{ apply (report_effects_abort _ _ _ _ _ _ 0);
        [lia|rewrite !sleeps_of_app, Hsl1; reflexivity|assumption|discriminate]. }
  do 2 wp_step.
  destruct (getitem js (lit "access_token")) as [token|x].
  2:{ apply (report_effects_abort _ _ _ _ _ _ 0);
        [lia|rewrite !sleeps_of_app, Hsl1; reflexivity|assumption|discriminate]. }
  wp_step.
  eapply wp_mono; [apply startReportJob_spec|]. cbn beta.
  intros r2 e2 st2 (_ & Hfiles2 & Hsl2 & H2).
  destruct r2 as [jobId|x].
  2:{ apply (report_effects_abort _ _ _ _ _ _ 0);
        [lia|rewrite !sleeps_of_app, Hsl1, Hsl2; reflexivity|congruence
        |discriminate]. }
  destruct (as_str token) as [tok|x] eqn:Htok; [|destruct H2; discriminate].
  apply as_str_inv in Htok. subst token.
  destruct H2 as (Hsent2 & Hreq2 & _).
  wp_step.
  eapply wp_mono; [apply getFileURL_spec|]. cbn beta.
  intros r3 e3 st3 (_ & Hfiles3 & H3).
  destruct (as_str jobId) as [jid|x] eqn:Hjid.
  2:{ destruct H3 as (-> & _ & ->).
      apply (report_effects_abort _ _ _ _ _ _ 0);
        [lia|rewrite !sleeps_of_app, Hsl1, Hsl2; reflexivity|congruence
        |discriminate]. }
  cbn [as_str] in H3.
  destruct H3 as (m & Hm & Hsent3 & Hreq3 & Hsl3 & _).
  destruct r3 as [url|x].
  2:{ apply (report_effects_abort _ _ _ _ _ _ m);
        [lia|rewrite !sleeps_of_app, Hsl1, Hsl2, Hsl3; reflexivity|congruence
        |discriminate]. }
  change (bind (downloadReport url (JStr tok)) _)
    with (download_and_save url (JStr tok) target).
  eapply wp_mono; [apply download_and_save_effects|]. cbn beta.
  intros r4 e4 st4 (Hsl4 & Hsame & Htouch & Hok).
  assert (Hfiles : files st3 = files st) by congruence.
  assert (Hlast : forall u tok',
            requests_of e4 = [file_request u tok'] ->
            last (requests_of
                    ([EvPrint (lit "getReport() - reportId: " ++ reportId)]
                     ++ e1 ++ [] ++ [] ++ e2 ++ e3 ++ e4))
              = Some (file_request u tok') /\
            (sent st + length
               (requests_of
                  ([EvPrint (lit "getReport() - reportId: " ++ reportId)]
                   ++ e1 ++ [] ++ [] ++ e2 ++ e3 ++ e4)) - 1)%nat
              = sent st3).
  { intros u tok' He4.
    rewrite !requests_of_app, Hreq1, Hreq2, Hreq3, He4.
    match goal with
    | |- last ?l = _ /\ _ =>
        change l with
          ((token_request (this st)
            :: start_request
                 (base ++ lit "services/" ++ lit "v13.0" ++ lit "/report-jobs/")
                 reportId tok
            :: replicate (S m)
                 (status_request
                    (base ++ lit "services/" ++ lit "v13.0"
                     ++ lit "/report-jobs/") jid tok))
           ++ [file_request u tok'])
    end.
    split; [apply last_snoc|].
    rewrite length_app. cbn [length]. rewrite length_replicate. lia. }
  split; [exists m; split; [assumption|];
          rewrite !sleeps_of_app, Hsl1, Hsl2, Hsl3, Hsl4, app_nil_r;
          reflexivity|].
  split.
  { intros path Hpath. rewrite (Hsame path Hpath), Hfiles. reflexivity. }
  split.
  - destruct Htouch as [Hsame4|(u & tok' & v & He4 & Hpay & Hopen)];
      [left; congruence|].
    right. exists u, tok', v.
    destruct (Hlast u tok' He4) as [Hl Hidx].
    split; [exact Hl|]. rewrite Hidx. auto.
  - intros Hr.
    destruct (Hok Hr) as (u & tok' & v & text & bs & He4 & Hpay & Hdec & Hbs & Hf).
    exists u, tok', v, text, bs.
    destruct (Hlast u tok' He4) as [Hl Hidx].
    split; [exact Hl|]. rewrite Hidx. auto.
Qed.

(** ** The constructor and the token stage *)

Lemma encode_char_ok ch :
  is_scalar ch = true -> exists bs, Utf8.encode_char ch = Ok bs.
Proof.
  unfold is_scalar, Utf8.encode_char. intros H.
  apply andb_true_iff in H as [H Hs]. apply andb_true_iff in H as [H0 H1].
  apply Z.leb_le in H0. apply Z.leb_le in H1.
  destruct (Z.ltb_spec ch 0); [lia|].
  destruct (Z.ltb_spec 0x10FFFF ch); [lia|]. cbn [orb].
  destruct (ch <? 0x80); [eauto|]. destruct (ch <? 0x800); [eauto|].
  apply negb_true_iff in Hs. rewrite Hs.
  destruct (ch <? 0x10000); eauto.
Qed.

Lemma encode_char_fail ch :
  is_scalar ch = false -> Utf8.encode_char ch = Raise UnicodeEncodeError.
Proof.
  unfold is_scalar, Utf8.encode_char.
  destruct (Z.leb_spec 0 ch), (Z.leb_spec ch 0x10FFFF),
    (Z.ltb_spec ch 0), (Z.ltb_spec 0x10FFFF ch); try lia; cbn [andb orb negb];
    try reflexivity.
  destruct (Z.leb_spec 0xD800 ch), (Z.leb_spec ch 0xDFFF); cbn [andb negb];
    try discriminate.
  intros _.
  destruct (Z.ltb_spec ch 0x80); [lia|].
  destruct (Z.ltb_spec ch 0x800); [lia|]. reflexivity.
Qed.

(** Encoding succeeds exactly on the texts made of encodable code
    points. *)
Lemma encode_total s :
  if forallb is_scalar s
  then exists bs, Utf8.encode s = Ok bs
  else Utf8.encode s = Raise UnicodeEncodeError.
Proof.
  induction s as [|ch s IH]; cbn [forallb Utf8.encode]; [eauto|].
  destruct (is_scalar ch) eqn:Hch; cbn [andb].
  - destruct (encode_char_ok ch Hch) as [b1 ->]. cbn [result_bind].
    destruct (forallb is_scalar s).
    + destruct IH as [b2 ->]. cbn [result_map]. eauto.
    + rewrite IH. reflexivity.
  - rewrite (encode_char_fail ch Hch). reflexivity.
Qed.

(** X15: [__init__] succeeds exactly when the three identifiers consist
    of code points that UTF-8 can encode (no lone surrogate), and raises
    [UnicodeEncodeError] otherwise; on success the username and the
    password are kept as given, without any check. *)
Theorem init_succeeds_on_encodable_identifiers app vendor bu user pass :
  if forallb is_scalar (app ++ vendor ++ bu)
  then exists me,
         __init__ app vendor bu user pass = Ok me /\
         username me = user /\ password me = pass
  else __init__ app vendor bu user pass = Raise UnicodeEncodeError.
Proof.
  unfold __init__.
  pose proof (encode_total (app ++ lit "@" ++ vendor ++ lit ":" ++ bu)) as H.
  rewrite !forallb_app in H. rewrite !forallb_app.
  change (forallb is_scalar (lit "@")) with true in H.
  change (forallb is_scalar (lit ":")) with true in H.
  cbn [andb] in H.
  destruct (forallb is_scalar app && (forallb is_scalar vendor
                                      && forallb is_scalar bu)).
  - destruct H as [raw ->]. cbn [result_map]. eexists. repeat split.
  - rewrite H. reflexivity.
Qed.

(** X16: a call of [getToken] that returns has sent one POST to the fixed
    token URL whose JSON body holds the grant type [password], the
    username and the password of the object; the reply had no error status
    and what is returned is its JSON body. *)
Theorem getToken_request_and_result w st js evs st' :
  getToken w st = (Ok js, evs, st') ->
  exists resp,
    requests_of evs = [token_request (this st)] /\
    req_method (token_request (this st)) = POST /\
    req_url (token_request (this st))
      = lit "https://api.incontact.com/InContactAuthorizationServer/Token" /\
    req_json (token_request (this st))
      = Some (JObj [(lit "grant_type", JStr (lit "password"));
                    (lit "username", JStr (username (this st)));
                    (lit "password", JStr (password (this st)))]) /\
    net w (sent st) (token_request (this st)) = Replied resp /\
    ~ (400 <= status_code resp < 600) /\
    content resp = Some js.
Proof.
  intros Hrun.
  pose proof (getToken_spec w st) as H.
  apply (wp_run _ _ _ _ _ _ _ Hrun) in H.
  destruct H as (_ & _ & _ & Hreq & _ & H).
  destruct (net w (sent st) (token_request (this st))) as [resp|];
    [|discriminate].
  exists resp. do 4 (split; [reflexivity || assumption|]).
  split; [reflexivity|].
  unfold raise_for_status, resp_json in H.
  destruct (Z.leb_spec 400 (status_code resp)),
           (Z.ltb_spec (status_code resp) 600); cbn [andb result_bind] in H;
    try discriminate;
    (split; [lia|]);
    (destruct (content resp); [injection H as ->; reflexivity|discriminate]).
Qed.

Lemma getToken_request_and_result_witness :
  exists resp,
    requests_of (events_of (getToken Samples.scenario Samples.fresh))
      = [token_request (this Samples.fresh)] /\
    req_method (token_request (this Samples.fresh)) = POST /\
    req_url (token_request (this Samples.fresh))
      = lit "https://api.incontact.com/InContactAuthorizationServer/Token" /\
    req_json (token_request (this Samples.fresh))
      = Some (JObj [(lit "grant_type", JStr (lit "password"));
                    (lit "username", JStr (username (this Samples.fresh)));
                    (lit "password", JStr (password (this Samples.fresh)))]) /\
    net Samples.scenario (sent Samples.fresh)
      (token_request (this Samples.fresh)) = Replied resp /\
    ~ (400 <= status_code resp < 600) /\
    content resp = Some Samples.token_body.
Proof.
  apply (getToken_request_and_result Samples.scenario Samples.fresh
           Samples.token_body _
           (state_of (getToken Samples.scenario Samples.fresh))).
  reflexivity.
Defined.

(** X10: a run of [getReport], however it ends, leaves every file other
    than the target as it was. *)
Theorem getReport_touches_only_target w st reportId target path :
  path <> target ->
  files (state_of (getReport reportId target w st)) !! path = files st !! path.
Proof.
  intros Hpath.
  destruct (wp_elim _ _ _ _ (getReport_effects w st reportId target))
    as (_ & Hsame & _).
  apply Hsame, Hpath.
Qed.

Lemma getReport_touches_only_target_witness :
  files (state_of (getReport Main.reportId (lit "new.csv") Samples.scenario
                     MoreSamples.stale)) !! Main.outfile
    = files MoreSamples.stale !! Main.outfile.
Proof.
  apply (getReport_touches_only_target Samples.scenario MoreSamples.stale
           Main.reportId (lit "new.csv") Main.outfile).
  discriminate.
Defined.

(** X11: the files are changed only by a run whose last request is the
    file request and whose file reply carried a [files.file] payload, the
    target being openable; every other run leaves the files exactly as
    they were. *)
Theorem getReport_writes_only_after_payload w st reportId target :
  let run := getReport reportId target w st in
  files (state_of run) = files st \/
  exists u tok v,
    last (requests_of (events_of run)) = Some (file_request u tok) /\
    payload (net w (sent st + length (requests_of (events_of run)) - 1)%nat
               (file_request u tok)) = Some v /\
    can_open w target = true.
Proof.
  destruct (wp_elim _ _ _ _ (getReport_effects w st reportId target))
    as (_ & _ & H & _).
  exact H.
Qed.

(** X12: after a run that returns normally the target file holds exactly
    the text obtained by base64-decoding and then UTF-8-decoding the
    [files.file] payload of the reply to the last request, the file
    request. *)
Theorem getReport_success_content w st reportId target evs st' :
  getReport reportId target w st = (Ok tt, evs, st') ->
  exists u tok v text bs,
    last (requests_of evs) = Some (file_request u tok) /\
    payload (net w (sent st + length (requests_of evs) - 1)%nat
               (file_request u tok)) = Some v /\
    result_bind (base64_b64decode v) Utf8.decode = Ok text /\
    text_bytes w text = Some bs /\
    files st' !! target = Some bs.
Proof.
  intros Hrun.
  pose proof (getReport_effects w st reportId target) as H.
  apply (wp_run _ _ _ _ _ _ _ Hrun) in H.
  destruct H as (_ & _ & _ & H). apply H. reflexivity.
Qed.

Lemma getReport_success_content_witness :
  exists u tok v text bs,
    last (requests_of
            (events_of (getReport Main.reportId Main.outfile Samples.scenario
                          MoreSamples.stale)))
      = Some (file_request u tok) /\
    payload
      (net Samples.scenario
         (sent MoreSamples.stale
          + length
              (requests_of
                 (events_of
                    (getReport Main.reportId Main.outfile Samples.scenario
                       MoreSamples.stale))) - 1)%nat
         (file_request u tok)) = Some v /\
    result_bind (base64_b64decode v) Utf8.decode = Ok text /\
    text_bytes Samples.scenario text = Some bs /\
    files (state_of (getReport Main.reportId Main.outfile Samples.scenario
                       MoreSamples.stale)) !! Main.outfile = Some bs.
Proof.
  apply (getReport_success_content Samples.scenario MoreSamples.stale
           Main.reportId Main.outfile).
  vm_compute. reflexivity.
Defined.

(** ** The report text and the platform *)

(** X21: the round trip on a platform whose line separator is ['\n'] and
    whose locale encoding is UTF-8: when the earlier stages succeed and the
    file endpoint serves the base64 form of the UTF-8 encoding [raw] of a
    text [P], the run returns and the target file holds exactly the bytes
    [raw]. *)
Theorem getReport_roundtrip_utf8_lf
  w st reportId target base tok jid (k : nat) u P raw :
  token_granted (net w (sent st) (token_request (this st))) base (JStr tok) ->
  job_started
    (net w (sent st + 1)%nat (start_request (report_jobs base) reportId tok))
    (JStr jid) ->
  (k <= 10)%nat ->
  (forall i, (i < k)%nat ->
     not_ready (net w (sent st + 2 + i)%nat
                  (status_request (report_jobs base) jid tok)) = true) ->
  location (net w (sent st + 2 + k)%nat
              (status_request (report_jobs base) jid tok)) = Some (JStr u) ->
  u <> [] ->
  Utf8.encode P = Ok raw ->
  payload (net w (sent st + 3 + k)%nat (file_request u tok))
    = Some (JStr (Base64.b64encode raw)) ->
  can_open w target = true ->
  linesep w = [10] ->
  (forall text, text_encoding w text = utf_8 text) ->
  exists evs st',
    getReport reportId target w st = (Ok tt, evs, st') /\
    files st' !! target = Some raw.
Proof.
  intros Htok Hjob Hk Hempty Hloc Hu Henc Hpay Hopen Hsep Hcodec.
  destruct (getReport_served w st reportId target base tok jid k u P raw
              Htok Hjob Hk Hempty Hloc Hu Henc Hpay Hopen)
    as (evs & st' & Hrun & Hfile).
  assert (Hbs : text_bytes w P = Some raw).
  { unfold text_bytes. rewrite Hsep, translate_newlines_lf, Hcodec.
    unfold utf_8. rewrite Henc. reflexivity. }
  rewrite Hbs in Hrun, Hfile. exists evs, st'. split; assumption.
Qed.

Lemma getReport_roundtrip_utf8_lf_witness :
  exists evs st',
    getReport Main.reportId Main.outfile Samples.scenario Samples.fresh
      = (Ok tt, evs, st') /\
    files st' !! Main.outfile = Some Samples.csv.
Proof.
  apply (getReport_roundtrip_utf8_lf Samples.scenario Samples.fresh
           Main.reportId Main.outfile (lit "https://x/") (lit "T") (lit "J1") 1
           (lit "https://x/f") Samples.csv Samples.csv).
  - exists (mkResponse 200 (Some Samples.token_body)), Samples.token_body.
    repeat split; reflexivity.
  - exists (mkResponse 200 (Some Samples.job_body)), Samples.job_body.
    repeat split; reflexivity.
  - lia.
  - intros i Hi. assert (i = 0%nat) as -> by lia. reflexivity.
  - reflexivity.
  - discriminate.
  - reflexivity.
  - reflexivity.
  - reflexivity.
  - reflexivity.
  - reflexivity.
Defined.

(** X22: on any platform, in the same situation, the target file holds
    the bytes that the platform stores for [P]: its encoding of [P] with
    every ['\n'] replaced by its line separator. *)
Theorem getReport_stores_platform_bytes
  w st reportId target base tok jid (k : nat) u P raw bs :
  token_granted (net w (sent st) (token_request (this st))) base (JStr tok) ->
  job_started
    (net w (sent st + 1)%nat (start_request (report_jobs base) reportId tok))
    (JStr jid) ->
  (k <= 10)%nat ->
  (forall i, (i < k)%nat ->
     not_ready (net w (sent st + 2 + i)%nat
                  (status_request (report_jobs base) jid tok)) = true) ->
  location (net w (sent st + 2 + k)%nat
              (status_request (report_jobs base) jid tok)) = Some (JStr u) ->
  u <> [] ->
  Utf8.encode P = Ok raw ->
  payload (net w (sent st + 3 + k)%nat (file_request u tok))
    = Some (JStr (Base64.b64encode raw)) ->
  can_open w target = true ->
  text_encoding w (translate_newlines (linesep w) P) = Some bs ->
  exists evs st',
    getReport reportId target w st = (Ok tt, evs, st') /\
    files st' !! target = Some bs.
Proof.
  intros Htok Hjob Hk Hempty Hloc Hu Henc Hpay Hopen Hbs.
  destruct (getReport_served w st reportId target base tok jid k u P raw
              Htok Hjob Hk Hempty Hloc Hu Henc Hpay Hopen)
    as (evs & st' & Hrun & Hfile).
  unfold text_bytes in Hrun, Hfile. rewrite Hbs in Hrun, Hfile.
  exists evs, st'. split; assumption.
Qed.

Lemma getReport_stores_platform_bytes_witness :
  exists evs st',
    getReport Main.reportId Main.outfile MoreSamples.crlf Samples.fresh
      = (Ok tt, evs, st') /\
    files st' !! Main.outfile = Some (lit "a,b" ++ [13; 10] ++ lit "1,2").
Proof.
  apply (getReport_stores_platform_bytes MoreSamples.crlf Samples.fresh
           Main.reportId Main.outfile (lit "https://x/") (lit "T") (lit "J1") 1
           (lit "https://x/f") Samples.csv Samples.csv).
  - exists (mkResponse 200 (Some Samples.token_body)), Samples.token_body.
    repeat split; reflexivity.
  - exists (mkResponse 200 (Some Samples.job_body)), Samples.job_body.
    repeat split; reflexivity.
  - lia.
  - intros i Hi. assert (i = 0%nat) as -> by lia. reflexivity.
  - reflexivity.
  - discriminate.
  - reflexivity.
  - reflexivity.
  - reflexivity.
  - reflexivity.
Defined.

(** X23: and when the locale encoding of the platform cannot represent
    [P], the write raises [UnicodeEncodeError] after the target has been
    truncated: the run ends in that error and leaves the target empty. *)
Theorem getReport_unencodable_text
  w st reportId target base tok jid (k : nat) u P raw :
  token_granted (net w (sent st) (token_request (this st))) base (JStr tok) ->
  job_started
    (net w (sent st + 1)%nat (start_request (report_jobs base) reportId tok))
    (JStr jid) ->
  (k <= 10)%nat ->
  (forall i, (i < k)%nat ->
     not_ready (net w (sent st + 2 + i)%nat
                  (status_request (report_jobs base) jid tok)) = true) ->
  location (net w (sent st + 2 + k)%nat
              (status_request (report_jobs base) jid tok)) = Some (JStr u) ->
  u <> [] ->
  Utf8.encode P = Ok raw ->
  payload (net w (sent st + 3 + k)%nat (file_request u tok))
    = Some (JStr (Base64.b64encode raw)) ->
  can_open w target = true ->
  text_encoding w (translate_newlines (linesep w) P) = None ->
  exists evs st',
    getReport reportId target w st = (Raise UnicodeEncodeError, evs, st') /\
    files st' !! target = Some [].
Proof.
  intros Htok Hjob Hk Hempty Hloc Hu Henc Hpay Hopen Hbs.
  destruct (getReport_served w st reportId target base tok jid k u P raw
              Htok Hjob Hk Hempty Hloc Hu Henc Hpay Hopen)
    as (evs & st' & Hrun & Hfile).
  unfold text_bytes in Hrun, Hfile. rewrite Hbs in Hrun, Hfile.
  exists evs, st'. split; assumption.
Qed.

Lemma getReport_unencodable_text_witness :
  exists evs st',
    getReport Main.reportId Main.outfile MoreSamples.latin1_locale
      MoreSamples.stale
      = (Raise UnicodeEncodeError, evs, st') /\
    files st' !! Main.outfile = Some [].
Proof.
  apply (getReport_unencodable_text MoreSamples.latin1_locale MoreSamples.stale
           Main.reportId Main.outfile (lit "https://x/") (lit "T") (lit "J1") 1
           (lit "https://x/f") MoreSamples.euro [0xE2; 0x82; 0xAC]).
  - exists (mkResponse 200 (Some Samples.token_body)), Samples.token_body.
    repeat split; reflexivity.
  - exists (mkResponse 200 (Some Samples.job_body)), Samples.job_body.
    repeat split; reflexivity.
  - lia.
  - intros i Hi. assert (i = 0%nat) as -> by lia. reflexivity.
  - reflexivity.
  - discriminate.
  - reflexivity.
  - reflexivity.
  - reflexivity.
  - reflexivity.
Defined.

(** ** How long a run can take *)

(** X13: no run of [getReport] sends more than 14 requests or sleeps more
    than 10 times, and every sleep lasts 60: a run never waits more than
    600 time units in total. *)
Theorem getReport_bounded w st reportId target :
  let evs := events_of (getReport reportId target w st) in
  (length (requests_of evs) <= 14)%nat /\
  (length (sleeps_of evs) <= 10)%nat /\
  Forall (fun secs => secs = 60) (sleeps_of evs).
Proof.
  cbn zeta.
  destruct (wp_elim _ _ _ _ (getReport_effects w st reportId target))
    as ((m & Hm & Hsl) & _).
  destruct (wp_elim _ _ _ _ (getReport_spec w st reportId target))
    as (_ & base & tok & jid & n & u & Hn & _ & [rest Hpre] & _).
  split.
  - apply (f_equal length) in Hpre.
    cbn [length] in Hpre.
    rewrite !length_app, length_replicate in Hpre. cbn [length] in Hpre. lia.
  - rewrite Hsl, length_replicate. split; [exact Hm|].
    apply Forall_replicate. reflexivity.
Qed.

(** ** Status codes at the last two stages *)

(** X14: [downloadReport] never looks at the status code: two transports
    whose replies differ in the status code only give the same run. *)
Theorem downloadReport_ignores_status_code :
  forall (net1 net2 : nat -> Request -> outcome) can sep enc,
  (forall n r,
     match net1 n r, net2 n r with
     | Replied r1, Replied r2 => content r1 = content r2
     | Failed, Failed => True
     | _, _ => False
     end) ->
  forall url token st,
    downloadReport url token (mkWorld net1 can sep enc) st
    = downloadReport url token (mkWorld net2 can sep enc) st.
Proof.
  intros net1 net2 can sep enc Hsame url token st.
  unfold downloadReport, bind, lift, print, emit, requests_get, requests_send.
  destruct (as_str url) as [u|]; [|reflexivity].
  destruct (as_str token) as [tok|]; [|reflexivity].
  cbn [net sent].
  match goal with
  | |- context [net1 ?n ?r] => specialize (Hsame n r)
  end.
  destruct (net1 _ _) as [r1|], (net2 _ _) as [r2|]; try contradiction;
    [|reflexivity].
  unfold files_file, resp_json. rewrite Hsame. reflexivity.
Qed.

Lemma failing_like_scenario n r :
  match net Samples.failing n r, net Samples.scenario n r with
  | Replied r1, Replied r2 => content r1 = content r2
  | Failed, Failed => True
  | _, _ => False
  end.
Proof. do 5 (destruct n as [|n]; [reflexivity|]). exact I. Qed.

Lemma downloadReport_ignores_status_code_witness :
  downloadReport (JStr (lit "https://x/f")) (JStr (lit "T"))
    (mkWorld (net Samples.failing) (fun _ => true) [10] utf_8)
    (mkState Samples.report 4 ∅)
  = downloadReport (JStr (lit "https://x/f")) (JStr (lit "T"))
      (mkWorld (net Samples.scenario) (fun _ => true) [10] utf_8)
      (mkState Samples.report 4 ∅).
Proof.
  apply (downloadReport_ignores_status_code (net Samples.failing)
           (net Samples.scenario) (fun _ => true) [10] utf_8).
  exact failing_like_scenario.
Defined.

Lemma getFileURL_ignores_status_code_witness :
  getFileURL (JStr (lit "J1")) Samples.jobs_url (JStr (lit "T"))
    (mkWorld (net Samples.failing) (fun _ => true) [10] utf_8) Samples.started
  = getFileURL (JStr (lit "J1")) Samples.jobs_url (JStr (lit "T"))
      (mkWorld (net Samples.scenario) (fun _ => true) [10] utf_8) Samples.started.
Proof.
  apply (getFileURL_ignores_status_code (net Samples.failing)
           (net Samples.scenario) (fun _ => true) [10] utf_8).
  exact failing_like_scenario.
Defined.

(** ** Error statuses stop the run early *)

Lemma raise_for_status_error resp :
  400 <= status_code resp < 600 ->
  raise_for_status resp = Raise (HTTPError (status_code resp)).
Proof.
  intros H. unfold raise_for_status.
  destruct (Z.leb_spec 400 (status_code resp)); [|lia].
  destruct (Z.ltb_spec (status_code resp) 600); [|lia]. reflexivity.
Qed.

(** X18: a token reply with a client or server error status stops
    [getReport] with [HTTPError] carrying that status, whatever the body
    of the reply: one request, no sleep, no file changed. *)
Theorem getReport_stops_at_token_error w st reportId target resp :
  net w (sent st) (token_request (this st)) = Replied resp ->
  400 <= status_code resp < 600 ->
  exists evs st',
    getReport reportId target w st
      = (Raise (HTTPError (status_code resp)), evs, st') /\
    requests_of evs = [token_request (this st)] /\
    sleeps_of evs = [] /\
    files st' = files st.
Proof.
  intros Hnet Herr.
  unfold getReport.
  erewrite bind_ok; [|reflexivity].
  erewrite bind_raise;
    [|rewrite (getToken_run w st resp Hnet), (raise_for_status_error resp Herr);
      reflexivity].
  eexists. eexists. split; [reflexivity|]. repeat split.
Qed.

Lemma getReport_stops_at_token_error_witness :
  exists evs st',
    getReport Main.reportId Main.outfile Samples.unauthorized Samples.fresh
      = (Raise (HTTPError (status_code (mkResponse 401 None))), evs, st') /\
    requests_of evs = [token_request (this Samples.fresh)] /\
    sleeps_of evs = [] /\
    files st' = files Samples.fresh.
Proof.
  apply (getReport_stops_at_token_error Samples.unauthorized Samples.fresh
           Main.reportId Main.outfile (mkResponse 401 None)).
  - reflexivity.
  - cbn. lia.
Defined.

(** X19: a start reply with a client or server error status stops
    [getReport] with [HTTPError] carrying that status: the job is not
    polled, two requests were sent, no file is changed. *)
Theorem getReport_stops_at_start_error w st reportId target base tok resp :
  token_granted (net w (sent st) (token_request (this st))) base (JStr tok) ->
  net w (sent st + 1)%nat (start_request (report_jobs base) reportId tok)
    = Replied resp ->
  400 <= status_code resp < 600 ->
  exists evs st',
    getReport reportId target w st
      = (Raise (HTTPError (status_code resp)), evs, st') /\
    requests_of evs
      = [token_request (this st);
         start_request (report_jobs base) reportId tok] /\
    sleeps_of evs = [] /\
    files st' = files st.
Proof.
  intros (resp1 & js & Hnet & Hst & Hjs & Hbase & Htok) Hnet2 Herr.
  rewrite Nat.add_1_r in Hnet2.
  unfold getReport.
  erewrite bind_ok; [|reflexivity].
  erewrite bind_ok;
    [|rewrite (getToken_run w st resp1 Hnet), Hst; cbn [result_bind];
      rewrite Hjs; reflexivity].
  erewrite bind_ok; [|unfold lift; rewrite Hbase; reflexivity].
  erewrite bind_ok; [|unfold lift; rewrite Htok; reflexivity].
  cbn beta iota zeta.
  change (base ++ lit "services/" ++ lit "v13.0" ++ lit "/report-jobs/")
    with (report_jobs base).
  erewrite bind_raise;
    [|rewrite (startReportJob_run w (mkState (this st) (S (sent st)) (files st))
                 reportId (report_jobs base) tok resp Hnet2),
        (raise_for_status_error resp Herr); reflexivity].
  eexists. eexists. split; [reflexivity|]. repeat split.
Qed.

Lemma getReport_stops_at_start_error_witness :
  exists evs st',
    getReport Main.reportId Main.outfile MoreSamples.unknown_report
      Samples.fresh
      = (Raise (HTTPError (status_code (mkResponse 404 None))), evs, st') /\
    requests_of evs
      = [token_request (this Samples.fresh);
         start_request (report_jobs (lit "https://x/")) Main.reportId
           (lit "T")] /\
    sleeps_of evs = [] /\
    files st' = files Samples.fresh.
Proof.
  apply (getReport_stops_at_start_error MoreSamples.unknown_report
           Samples.fresh Main.reportId Main.outfile (lit "https://x/")
           (lit "T") (mkResponse 404 None)).
  - exists (mkResponse 200 (Some Samples.token_body)), Samples.token_body.
    repeat split; reflexivity.
  - reflexivity.
  - cbn. lia.
Defined.

(** ** The completion line *)

Ltac solve_not_completion :=
  repeat first [ apply Forall_nil; exact I
               | apply Forall_cons; split
               | apply Forall_app; split
               | assumption
               | (unfold not_completion; cbn; discriminate) ].

Lemma getToken_not_completion w st :
  wp getToken w (fun _ evs _ => Forall not_completion evs) st.
Proof.
  unfold getToken. do 6 wp_step.
  destruct (net w (sent st) _) as [resp|]; [|solve_not_completion].
  do 2 wp_step.
  destruct (raise_for_status resp) as [[]|x]; [wp_step|]; solve_not_completion.
Qed.

Lemma startReportJob_not_completion w st reportId reportURL token :
  wp (startReportJob reportId reportURL token) w
    (fun _ evs _ => Forall not_completion evs) st.
Proof.
  unfold startReportJob. do 4 wp_step.
  destruct (as_str token) as [tok|x]; [|solve_not_completion].
  do 2 wp_step.
  destruct (net w (sent st) _) as [resp|]; [|solve_not_completion].
  do 2 wp_step.
  destruct (raise_for_status resp) as [[]|x]; [|solve_not_completion].
  do 2 wp_step.
  destruct (resp_json resp) as [j|x]; [wp_step|]; solve_not_completion.
Qed.

Lemma poll_not_completion w jid url hdr n :
  forall v st,
  wp (poll jid url hdr n v) w (fun _ evs _ => Forall not_completion evs) st.
Proof.
  induction n as [|n IH]; intros v st; cbn [poll].
  - destruct (truthy v); cbn [negb]; wp_step; solve_not_completion.
  - destruct (truthy v); cbn [negb]; [wp_step; solve_not_completion|].
    do 6 wp_step.
    destruct (net w (sent st) _) as [resp|]; [|solve_not_completion].
    do 2 wp_step.
    destruct (resultFileURL resp) as [v2|x]; [|solve_not_completion].
    eapply wp_mono; [apply IH|]. cbn beta. intros r evs st2 Hq.
    solve_not_completion.
Qed.

Lemma getFileURL_not_completion w st jobId reportURL token :
  wp (getFileURL jobId reportURL token) w
    (fun _ evs _ => Forall not_completion evs) st.
Proof.
  unfold getFileURL. do 2 wp_step.
  destruct (as_str jobId) as [jid|x]; [|solve_not_completion].
  do 2 wp_step.
  destruct (as_str token) as [tok|x]; [|solve_not_completion].
  do 2 wp_step.
  destruct (net w (sent st) _) as [resp|]; [|solve_not_completion].
  do 2 wp_step.
  destruct (resultFileURL resp) as [v0|x]; [|solve_not_completion].
  cbn beta iota zeta.
  eapply wp_mono; [apply poll_not_completion|]. cbn beta. intros r evs st2 Hq.
  solve_not_completion.
Qed.

Lemma downloadReport_not_completion w st url token :
  wp (downloadReport url token) w
    (fun _ evs _ => Forall not_completion evs) st.
Proof.
  unfold downloadReport. do 2 wp_step.
  destruct (as_str url) as [u|x]; [|solve_not_completion].
  do 4 wp_step.
  destruct (as_str token) as [tok|x]; [|solve_not_completion].
  do 2 wp_step.
  destruct (net w (sent st) _) as [resp|]; [|solve_not_completion].
  wp_step. solve_not_completion.
Qed.

Lemma getReport_completion w st reportId target :
  wp (getReport reportId target) w (fun r evs _ =>
    match r with
    | Ok _ => last evs = Some (EvPrint (lit "Job Complete"))
    | Raise _ => Forall not_completion evs
    end) st.
Proof.
  unfold getReport. do 3 wp_step.
  eapply wp_mono; [apply getToken_not_completion|]. cbn beta.
  intros r1 e1 st1 H1.
  destruct r1 as [js|x]; [|solve_not_completion].
  do 2 wp_step.
  destruct (result_bind (getitem js (lit "resource_server_base_uri")) as_str)
    as [base|x]; [|solve_not_completion].
  do 2 wp_step.
  destruct (getitem js (lit "access_token")) as [token|x]; [|solve_not_completion].
  wp_step.
  eapply wp_mono; [apply startReportJob_not_completion|]. cbn beta.
  intros r2 e2 st2 H2.
  destruct r2 as [jobId|x]; [|solve_not_completion].
  wp_step.
  eapply wp_mono; [apply getFileURL_not_completion|]. cbn beta.
  intros r3 e3 st3 H3.
  destruct r3 as [url|x]; [|solve_not_completion].
  wp_step.
  eapply wp_mono; [apply downloadReport_not_completion|]. cbn beta.
  intros r4 e4 st4 H4.
  destruct r4 as [b64bytes|x]; [|solve_not_completion].
  do 2 wp_step. destruct (can_open w target); [|solve_not_completion].
  intros st5 _ _ _. do 2 wp_step.
  destruct (result_bind (base64_b64decode b64bytes) Utf8.decode) as [text|x];
    [|solve_not_completion].
  do 2 wp_step; [|solve_not_completion].
  do 3 wp_step.
  rewrite !app_assoc. apply last_snoc.
Qed.

(** X20: the line [Job Complete] is printed by the runs of [getReport]
    that return normally, as their last event, and by no other run. *)
Theorem getReport_completion_line w st reportId target :
  let run := getReport reportId target w st in
  (In (EvPrint (lit "Job Complete")) (events_of run) <-> outcome_of run = Ok tt) /\
  (outcome_of run = Ok tt ->
   last (events_of run) = Some (EvPrint (lit "Job Complete"))).
Proof.
  cbn zeta.
  pose proof (wp_elim _ _ _ _ (getReport_completion w st reportId target)) as H.
  cbn beta in H.
  destruct (outcome_of (getReport reportId target w st)) as [[]|x].
  - split; [|intros _; exact H].
    split; [reflexivity|]. intros _.
    apply list_elem_of_In. apply last_Some_elem_of. exact H.
  - split; [|discriminate].
    split; [|discriminate]. intros Hin.
    rewrite Forall_forall in H. apply list_elem_of_In in Hin.
    destruct (H _ Hin). reflexivity.
Qed.
